(** * Rotation of the anaconda (binstar) token across CI providers

    A shallow embedding of [conda_smithy/anaconda_token_rotation.py]:
    the orchestrator [rotate_anaconda_token] and the five provider
    adapters, written in a small state-and-exception monad over an
    explicit model of the process (stream bindings, delivered output,
    issued calls, the local [conda-forge.yml]) and of the outside world
    (environment variables, the [ci_register] and [azure_ci_utils]
    modules, the HTTP services). *)

From Stdlib Require Import ZArith String Ascii List Lia.
From stdpp Require Import base gmap strings list fin_maps.

Local Open Scope string_scope.
Local Open Scope list_scope.
Local Open Scope Z_scope.

(** ** Python values *)

(** Values as they come out of [r.json()] or out of the YAML loader.
    A Python [str] is held as the string of its UTF-8 bytes.  A [dict]
    with string keys is a finite map; the parsed documents are trees (no
    object is reachable through two keys). *)
#[warnings="-register-all"]
Inductive pyval : Type :=
| PNone
| PBool (b : bool)
| PInt (n : Z)
| PStr (s : string)
| PList (l : list pyval)
| PDict (d : gmap string pyval).

(** A [requests.Response]: status code, raw body, and what [r.json()]
    makes of the body ([None] when the body is not JSON). *)
Record response : Type := Response {
  status_code : Z;
  content : string;
  json_body : option pyval
}.

(** What the module and its collaborators raise.  [ValueError_response r]
    is [ValueError(response)]; [Raised cls msg] is any other exception
    thrown by a collaborator, held under the name of its builtin class
    (for a class the collaborator defines, of the nearest builtin class
    it derives from) and its text. *)
Inductive exn : Type :=
| HTTPError (r : response)
| ValueError_response (r : response)
| JSONDecodeError
| UnicodeDecodeError
| RuntimeError (msg : string)
| ImportError (name : string)
| KeyError (key : string)
| TypeError
| AttributeError
| AssertionError
| Raised (cls msg : string).

Definition pyresult (A : Type) : Type := (exn + A)%type.

(** The builtin classes that derive from [BaseException] but not from
    [Exception]. *)
Definition outside_Exception (cls : string) : bool :=
  existsb (String.eqb cls)
    ["BaseException"; "KeyboardInterrupt"; "SystemExit"; "GeneratorExit"].

(** [isinstance(e, Exception)]: what [except Exception] catches. *)
Definition is_Exception (e : exn) : bool :=
  match e with
  | Raised cls _ => negb (outside_Exception cls)
  | _ => true
  end.

(** *** Dynamic operations used by the adapters *)

Definition is_continuation (c : ascii) : bool :=
  let b := N_of_ascii c in ((128 <=? b) && (b <? 192))%N.

(** Splits UTF-8 text into its code points: continuation bytes stay with
    the byte that leads them.  The first component holds continuation
    bytes still waiting for their lead byte. *)
Fixpoint code_points_aux (s : string) : string * list string :=
  match s with
  | EmptyString => (EmptyString, [])
  | String c rest =>
      let '(pending, done) := code_points_aux rest in
      if is_continuation c then (String c pending, done)
      else (EmptyString, String c pending :: done)
  end.

Definition code_points (s : string) : list string :=
  let '(pending, done) := code_points_aux s in
  match pending with
  | EmptyString => done
  | _ => pending :: done
  end.

(** [for x in v]: the items a [for] loop visits.  A dict yields its keys
    (here in the order of the map, not of insertion), a str its
    characters; scalars are not iterable. *)
Definition py_iter (v : pyval) : pyresult (list pyval) :=
  match v with
  | PList l => inr l
  | PDict d => inr (PStr <$> (map_to_list d).*1)
  | PStr s => inr (PStr <$> code_points s)
  | PNone | PBool _ | PInt _ => inl TypeError
  end.

(** [v[key]] for a string key. *)
Definition py_getitem (v : pyval) (key : string) : pyresult pyval :=
  match v with
  | PDict d =>
      match d !! key with
      | Some x => inr x
      | None => inl (KeyError key)
      end
  | _ => inl TypeError
  end.

(** [v == s] for a string literal [s]. *)
Definition py_eq_str (v : pyval) (s : string) : bool :=
  match v with
  | PStr t => bool_decide (t = s)
  | _ => false
  end.

(** [obj.setdefault(key, dflt)]: the value now stored under [key], and
    the object after the call.  Only a dict has the method. *)
Definition py_setdefault (obj : pyval) (key : string) (dflt : pyval)
  : pyresult (pyval * pyval) :=
  match obj with
  | PDict d =>
      match d !! key with
      | Some x => inr (x, obj)
      | None => inr (dflt, PDict (<[key := dflt]> d))
      end
  | _ => inl AttributeError
  end.

(** [obj[key] = v] for a string key: the object after the assignment. *)
Definition py_setitem (obj : pyval) (key : string) (v : pyval) : pyresult pyval :=
  match obj with
  | PDict d => inr (PDict (<[key := v]> d))
  | _ => inl TypeError
  end.

(** Strict UTF-8 well-formedness, as [bytes.decode("utf-8")] checks it. *)
Definition in_range (lo hi b : N) : bool := ((lo <=? b) && (b <=? hi))%N.

Fixpoint utf8_valid (s : string) : bool :=
  match s with
  | EmptyString => true
  | String c0 r0 =>
      let b0 := N_of_ascii c0 in
      if (b0 <? 128)%N then utf8_valid r0 else
      match r0 with
      | EmptyString => false
      | String c1 r1 =>
          let b1 := N_of_ascii c1 in
          if in_range 194 223 b0 then in_range 128 191 b1 && utf8_valid r1 else
          match r1 with
          | EmptyString => false
          | String c2 r2 =>
              let b2 := N_of_ascii c2 in
              if in_range 224 239 b0 then
                (if (b0 =? 224)%N then in_range 160 191 b1
                 else if (b0 =? 237)%N then in_range 128 159 b1
                 else in_range 128 191 b1)
                && in_range 128 191 b2 && utf8_valid r2
              else
              match r2 with
              | EmptyString => false
              | String c3 r3 =>
                  let b3 := N_of_ascii c3 in
                  in_range 240 244 b0
                  && (if (b0 =? 240)%N then in_range 144 191 b1
                      else if (b0 =? 244)%N then in_range 128 143 b1
                      else in_range 128 191 b1)
                  && in_range 128 191 b2 && in_range 128 191 b3
                  && utf8_valid r3
              end
          end
      end
  end.

(** [content.decode("utf-8")]. *)
Definition decode_utf8 (bytes : string) : pyresult string :=
  if utf8_valid bytes then inr bytes else inl UnicodeDecodeError.

(** [needle in hay] on strings. *)
Fixpoint is_prefix (p s : string) : bool :=
  match p, s with
  | EmptyString, _ => true
  | String a p', String b s' => bool_decide (a = b) && is_prefix p' s'
  | String _ _, EmptyString => false
  end.

Fixpoint contains (needle hay : string) : bool :=
  is_prefix needle hay ||
  match hay with
  | EmptyString => false
  | String _ hay' => contains needle hay'
  end.

(** ** Calls to the outside world *)

(** The five providers, in the order the orchestrator visits them. *)
Inductive provider : Type := Circle | Drone | Travis | Azure | Appveyor.

#[global] Instance provider_eq_dec : EqDecision provider.
Proof. solve_decision. Defined.

Definition provider_name (p : provider) : string :=
  match p with
  | Circle => "circle"
  | Drone => "drone"
  | Travis => "travis"
  | Azure => "azure"
  | Appveyor => "appveyor"
  end.

(** A [str.format] call or f-string kept as written: the template and
    the values substituted for its fields (a positional field is numbered
    from ["0"]). *)
Record formatted : Type := Format {
  template : string;
  fields : list (string * pyval)
}.

Inductive http_method : Type := GET | POST | PATCH | DELETE.

(** The module-level functions of [requests], or the session returned by
    [drone_session()] (relative URLs, authentication held by the session). *)
Inductive client : Type := Requests | DroneSession.

(** A dict literal sent as form data ([data=]) or as JSON ([json=]). *)
Inductive payload : Type :=
| NoBody
| FormData (d : list (string * pyval))
| JsonData (d : list (string * pyval)).

Record http_request : Type := HttpRequest {
  via : client;
  method : http_method;
  url : formatted;
  headers : option (list (string * string));
  body : payload
}.

(** [vsts.build.v4_1.models.BuildDefinitionVariable]. *)
Record BuildDefinitionVariable : Type := {
  allow_override : bool;
  is_secret : bool;
  value : option string
}.

(** The [variables] attribute of a fetched build definition: missing,
    [None], or a mapping. *)
Inductive definition_variables : Type :=
| NoAttribute
| IsNone
| Variables (vars : gmap string BuildDefinitionVariable).

(** A build definition as [get_definitions] returns it. *)
Record existing_definition : Type := {
  ed_id : Z;
  ed_revision : Z;
  ed_project_name : string;
  ed_variables : definition_variables
}.

(** [azure_ci_utils.default_config]. *)
Record azure_config : Type := {
  project_name : string
}.

(** Modelled from the spec: [azure_ci_utils.get_default_build_definition]
    is not part of the sources at hand.  The definition it returns is
    the default one for [user]/[project] under [config], carrying the
    variables, id and revision it is given ("submitting the entire object
    back"). *)
Record build_definition : Type := {
  bd_user : string;
  bd_project : string;
  bd_config : azure_config;
  bd_variables : gmap string BuildDefinitionVariable;
  bd_id : Z;
  bd_revision : Z
}.

Definition get_default_build_definition (user project : string)
    (config : azure_config) (variables : gmap string BuildDefinitionVariable)
    (id revision : Z) : build_definition :=
  {| bd_user := user; bd_project := project; bd_config := config;
     bd_variables := variables; bd_id := id; bd_revision := revision |}.

(** What leaves the process. *)
Inductive call : Type :=
| CHttp (req : http_request)
| CTravisGetRepoInfo (user project : string)
| CGetDefinitions (project name : string)
| CUpdateDefinition (definition : build_definition) (definition_id : Z)
    (project : string).

(** ** The world and the process *)

Inductive std_stream : Type := Stdout | Stderr.

(** What a collaborator prints while it works, and how it ends. *)
Definition effect (A : Type) : Type :=
  (list (std_stream * string) * pyresult A)%type.

(** Everything the module reads from outside: the environment, the names
    importable from [ci_register] and [azure_ci_utils] ([None] when the
    import fails), and the answers of the collaborators, which may depend
    on the calls issued so far. *)
Record world : Type := {
  os_environ : gset string;
  anaconda_token : option string;
  circle_token : option string;
  appveyor_token : option string;
  travis_endpoint : option string;
  default_config : option azure_config;
  drone_session : list call -> effect unit;
  travis_headers : list call -> effect (list (string * string));
  travis_get_repo_info : list call -> string -> string -> effect pyval;
  build_client : list call -> effect unit;
  get_definitions : list call -> string -> string ->
                    effect (list existing_definition);
  update_definition : list call -> build_definition -> Z -> string ->
                      effect unit;
  http : list call -> http_request -> effect response
}.

(** File objects: the streams of the process, or the file opened on
    [os.devnull]. *)
Inductive file_object : Type := Stream (id : nat) | DevNull.

#[global] Instance file_object_eq_dec : EqDecision file_object.
Proof. solve_decision. Defined.

(** One write: the name it went through, the file object that name was
    bound to, and the text. *)
Record written : Type := Written {
  through : std_stream;
  reached : file_object;
  text : string
}.

(** The process: what [sys.stdout] and [sys.stderr] are bound to, the
    writes so far, the calls issued (oldest first), the parsed
    [conda-forge.yml] of each feedstock directory, and the locals [failed]
    and [err_msg] of the orchestrator.  Two ghost records serve the
    statements only: the redirections installed, and the adapters entered
    with how each one ended. *)
Record state : Type := State {
  sys_stdout : file_object;
  sys_stderr : file_object;
  delivered : list written;
  sent : list call;
  forge_yml : gmap string pyval;
  failed : bool;
  err_msg : option string;
  redirections : list (std_stream * file_object);
  invocations : list (provider * option exn)
}.

Definition set_sys_stdout (f : file_object) (s : state) : state :=
  State f (sys_stderr s) (delivered s) (sent s) (forge_yml s)
        (failed s) (err_msg s) (redirections s) (invocations s).
Definition set_sys_stderr (f : file_object) (s : state) : state :=
  State (sys_stdout s) f (delivered s) (sent s) (forge_yml s)
        (failed s) (err_msg s) (redirections s) (invocations s).
Definition set_delivered (d : list written) (s : state) : state :=
  State (sys_stdout s) (sys_stderr s) d (sent s) (forge_yml s)
        (failed s) (err_msg s) (redirections s) (invocations s).
Definition set_sent (c : list call) (s : state) : state :=
  State (sys_stdout s) (sys_stderr s) (delivered s) c (forge_yml s)
        (failed s) (err_msg s) (redirections s) (invocations s).
Definition set_forge_yml (y : gmap string pyval) (s : state) : state :=
  State (sys_stdout s) (sys_stderr s) (delivered s) (sent s) y
        (failed s) (err_msg s) (redirections s) (invocations s).
Definition set_failed (b : bool) (s : state) : state :=
  State (sys_stdout s) (sys_stderr s) (delivered s) (sent s) (forge_yml s)
        b (err_msg s) (redirections s) (invocations s).
Definition set_err_msg (m : option string) (s : state) : state :=
  State (sys_stdout s) (sys_stderr s) (delivered s) (sent s) (forge_yml s)
        (failed s) m (redirections s) (invocations s).
Definition set_redirections (l : list (std_stream * file_object)) (s : state)
  : state :=
  State (sys_stdout s) (sys_stderr s) (delivered s) (sent s) (forge_yml s)
        (failed s) (err_msg s) l (invocations s).
Definition set_invocations (l : list (provider * option exn)) (s : state)
  : state :=
  State (sys_stdout s) (sys_stderr s) (delivered s) (sent s) (forge_yml s)
        (failed s) (err_msg s) (redirections s) l.

(** ** The monad of the embedding *)

Definition M (A : Type) : Type := world -> state -> pyresult A * state.

Definition ret {A} (a : A) : M A := fun _ s => (inr a, s).

Definition raise {A} (e : exn) : M A := fun _ s => (inl e, s).

Definition bind {A B} (m : M A) (k : A -> M B) : M B :=
  fun w s =>
    match m w s with
    | (inr a, s') => k a w s'
    | (inl e, s') => (inl e, s')
    end.

Declare Scope py_scope.
Delimit Scope py_scope with py.
Notation "x <- m ;; k" := (bind m (fun x => k))
  (at level 100, m at next level, right associativity) : py_scope.
Notation "m ;;; k" := (bind m (fun _ => k))
  (at level 100, right associativity) : py_scope.
Local Open Scope py_scope.

(** [try: body / except Exception as e: handler e]: an exception that
    is not an instance of [Exception] is not caught. *)
Definition try_except {A} (body : M A) (handler : exn -> M A) : M A :=
  fun w s =>
    match body w s with
    | (inr a, s') => (inr a, s')
    | (inl e, s') => if is_Exception e then handler e w s' else (inl e, s')
    end.

Definition lift {A} (r : pyresult A) : M A := fun _ s => (r, s).

Definition ask {A} (f : world -> A) : M A := fun w s => (inr (f w), s).

Definition get {A} (f : state -> A) : M A := fun _ s => (inr (f s), s).

Definition modify (f : state -> state) : M unit := fun _ s => (inr tt, f s).

(** [if c: body]. *)
Definition when (c : bool) (body : M unit) : M unit :=
  if c then body else ret tt.

(** [from module import name]. *)
Definition import_name (name : string) {A} (f : world -> option A) : M A :=
  fun w s =>
    match f w with
    | Some a => (inr a, s)
    | None => (inl (ImportError name), s)
    end.

(** Text written to [sys.stdout] or [sys.stderr] reaches the file object
    the name is bound to at that moment. *)
Definition target (st : std_stream) (s : state) : file_object :=
  match st with
  | Stdout => sys_stdout s
  | Stderr => sys_stderr s
  end.

Definition py_write (s : state) (out : std_stream * string) : state :=
  set_delivered (delivered s ++ [Written out.1 (target out.1 s) out.2]) s.

Definition write_all (outs : list (std_stream * string)) (s : state) : state :=
  fold_left py_write outs s.

(** Running a collaborator: its output is written, then it returns or
    raises.  [remote] first records the call. *)
Definition local_call {A} (f : world -> list call -> effect A) : M A :=
  fun w s =>
    let '(outs, r) := f w (sent s) in (r, write_all outs s).

Definition remote {A} (c : call) (f : world -> list call -> effect A) : M A :=
  fun w s =>
    let '(outs, r) := f w (sent s) in
    (r, write_all outs (set_sent (sent s ++ [c]) s)).

(** [with redirect_stdout(f): body] and [with redirect_stderr(f): body]:
    the old binding comes back on every exit. *)
Definition redirect_stdout {A} (f : file_object) (body : M A) : M A :=
  fun w s =>
    let old := sys_stdout s in
    let s1 := set_redirections (redirections s ++ [(Stdout, f)]) s in
    let '(r, s') := body w (set_sys_stdout f s1) in
    (r, set_sys_stdout old s').

Definition redirect_stderr {A} (f : file_object) (body : M A) : M A :=
  fun w s =>
    let old := sys_stderr s in
    let s1 := set_redirections (redirections s ++ [(Stderr, f)]) s in
    let '(r, s') := body w (set_sys_stderr f s1) in
    (r, set_sys_stderr old s').

(** [with open(os.devnull, "w") as fp: body]. *)
Definition with_open_devnull {A} (body : file_object -> M A) : M A :=
  body DevNull.

(** [for x in items: body], threading the variables the body assigns. *)
Fixpoint for_each {A V} (items : list A) (body : A -> V -> M V) (vars : V)
  : M V :=
  match items with
  | [] => ret vars
  | x :: rest => vars' <- body x vars ;; for_each rest body vars'
  end.

(** ** [requests] *)

Definition send (req : http_request) : M response :=
  remote (CHttp req) (fun w history => http w history req).

Definition requests_get (u : formatted) (hdrs : option (list (string * string)))
  : M response :=
  send (HttpRequest Requests GET u hdrs NoBody).

Definition requests_delete (u : formatted) : M response :=
  send (HttpRequest Requests DELETE u None NoBody).

Definition requests_post (u : formatted) (hdrs : option (list (string * string)))
    (data : payload) : M response :=
  send (HttpRequest Requests POST u hdrs data).

Definition requests_patch (u : formatted) (hdrs : option (list (string * string)))
    (data : payload) : M response :=
  send (HttpRequest Requests PATCH u hdrs data).

Definition session_get (u : formatted) : M response :=
  send (HttpRequest DroneSession GET u None NoBody).

Definition session_patch (u : formatted) (data : payload) : M response :=
  send (HttpRequest DroneSession PATCH u None data).

Definition session_post (u : formatted) (data : payload) : M response :=
  send (HttpRequest DroneSession POST u None data).

(** [r.raise_for_status()]: an [HTTPError] for a 4xx or 5xx status,
    nothing otherwise. *)
Definition is_http_error (r : response) : bool :=
  (400 <=? status_code r) && (status_code r <? 600).

Definition raise_for_status (r : response) : M unit :=
  if is_http_error r then raise (HTTPError r) else ret tt.

(** [r.json()]. *)
Definition response_json (r : response) : M pyval :=
  match json_body r with
  | Some v => ret v
  | None => raise JSONDecodeError
  end.

(** ** The provider adapters *)

Definition circle_url (token user project extra : string) : formatted :=
  Format
    "https://circleci.com/api/v1.1/project/github/{user}/{project}/envvar{extra}?circle-token={token}"
    [("token", PStr token); ("user", PStr user); ("project", PStr project);
     ("extra", PStr extra)].

Definition rotate_token_in_circle (user project binstar_token : string)
  : M unit :=
  token <- import_name "circle_token" circle_token ;;
  r <- requests_get (circle_url token user project "") None ;;
  when (negb (status_code r =? 200)) (raise_for_status r) ;;;
  listing <- response_json r ;;
  evars <- lift (py_iter listing) ;;
  have_binstar_token <-
    for_each evars (fun evar have =>
      name <- lift (py_getitem evar "name") ;;
      ret (if py_eq_str name "BINSTAR_TOKEN" then true else have)) false ;;
  when have_binstar_token
    (r <- requests_delete (circle_url token user project "/BINSTAR_TOKEN") ;;
     when (negb (status_code r =? 200)) (raise_for_status r)) ;;;
  response <-
    requests_post (circle_url token user project "") None
      (FormData [("name", PStr "BINSTAR_TOKEN"); ("value", PStr binstar_token)]) ;;
  if negb (status_code response =? 201)
  then raise (ValueError_response response)
  else ret tt.

Definition drone_secrets_url (user project : string) : formatted :=
  Format "/api/repos/{user}/{project}/secrets"
    [("user", PStr user); ("project", PStr project)].

Definition drone_secret_url (user project : string) : formatted :=
  Format "/api/repos/{user}/{project}/secrets/BINSTAR_TOKEN"
    [("user", PStr user); ("project", PStr project)].

Definition rotate_token_in_drone (user project binstar_token : string)
  : M unit :=
  local_call drone_session ;;;
  r <- session_get (drone_secrets_url user project) ;;
  raise_for_status r ;;;
  listing <- response_json r ;;
  secrets <- lift (py_iter listing) ;;
  have_binstar_token <-
    for_each secrets (fun secret have =>
      name <- lift (py_getitem secret "name") ;;
      ret (if py_eq_str name "BINSTAR_TOKEN" then true else have)) false ;;
  if have_binstar_token then
    r <- session_patch (drone_secret_url user project)
           (JsonData [("data", PStr binstar_token);
                      ("pull_request", PBool false)]) ;;
    raise_for_status r
  else
    response <-
      session_post (drone_secrets_url user project)
        (JsonData [("name", PStr "BINSTAR_TOKEN");
                   ("data", PStr binstar_token);
                   ("pull_request", PBool false)]) ;;
    when (negb (status_code response =? 200)) (raise_for_status response).

Definition travis_env_vars_url (endpoint : string) (repo_id : pyval)
  : formatted :=
  Format "{}/repo/{repo_id}/env_vars"
    [("0", PStr endpoint); ("repo_id", repo_id)].

Definition travis_env_var_url (endpoint : string) (repo_id ev_id : pyval)
  : formatted :=
  Format "{}/repo/{repo_id}/env_var/{ev_id}"
    [("0", PStr endpoint); ("repo_id", repo_id); ("ev_id", ev_id)].

Definition rotate_token_in_travis (user project binstar_token : string)
  : M unit :=
  endpoint <- import_name "travis_endpoint" travis_endpoint ;;
  hdrs <- local_call travis_headers ;;
  repo_info <-
    remote (CTravisGetRepoInfo user project)
      (fun w history => travis_get_repo_info w history user project) ;;
  repo_id <- lift (py_getitem repo_info "id") ;;
  r <- requests_get (travis_env_vars_url endpoint repo_id) (Some hdrs) ;;
  when (negb (status_code r =? 200)) (raise_for_status r) ;;;
  reply <- response_json r ;;
  env_vars <- lift (py_getitem reply "env_vars") ;;
  evs <- lift (py_iter env_vars) ;;
  found <-
    for_each evs (fun ev '(have, ev_id) =>
      name <- lift (py_getitem ev "name") ;;
      if py_eq_str name "BINSTAR_TOKEN" then
        id <- lift (py_getitem ev "id") ;; ret (true, id)
      else ret (have, ev_id)) (false, PNone) ;;
  let '(have_binstar_token, ev_id) := found in
  let data :=
    JsonData [("env_var.name", PStr "BINSTAR_TOKEN");
              ("env_var.value", PStr binstar_token);
              ("env_var.public", PStr "false")] in
  if have_binstar_token then
    r <- requests_patch (travis_env_var_url endpoint repo_id ev_id)
           (Some hdrs) data ;;
    raise_for_status r
  else
    r <- requests_post (travis_env_vars_url endpoint repo_id)
           (Some hdrs) data ;;
    when (negb (status_code r =? 201)) (raise_for_status r).

Definition rotate_token_in_azure (user project binstar_token : string)
  : M unit :=
  config <- import_name "default_config" default_config ;;
  local_call build_client ;;;
  existing_definitions <-
    remote (CGetDefinitions (project_name config) project)
      (fun w history => get_definitions w history (project_name config) project) ;;
  ed <-
    match existing_definitions with
    | [] =>
        raise (RuntimeError
          "Cannot add BINSTAR_TOKEN to a repo that is not already registerd on azure CI!")
    | ed :: others =>
        match others with
        | [] => ret ed
        | _ :: _ => raise AssertionError
        end
    end ;;
  let variables :=
    match ed_variables ed with
    | NoAttribute | IsNone => ∅
    | Variables vars => vars
    end in
  let variables :=
    <["BINSTAR_TOKEN" :=
       {| allow_override := false; is_secret := true;
          value := Some binstar_token |}]> variables in
  let build_definition :=
    get_default_build_definition user project config variables
      (ed_id ed) (ed_revision ed) in
  remote (CUpdateDefinition build_definition (ed_id ed) (ed_project_name ed))
    (fun w history =>
       update_definition w history build_definition (ed_id ed)
         (ed_project_name ed)).

(** Modelled from the spec: [utils.update_conda_forge_config] is not
    part of the sources at hand.  It is "a scoped read-modify-write of a
    per-project configuration file": the body receives the parsed
    configuration of the feedstock directory (an empty mapping when there
    is none), and what the body leaves is written back "on normal exit";
    when the body raises, nothing is written. *)
Definition update_conda_forge_config (feedstock_directory : string)
    (body : pyval -> pyresult pyval) : M unit :=
  yml <- get forge_yml ;;
  let code := default (PDict ∅) (yml !! feedstock_directory) in
  code' <- lift (body code) ;;
  modify (fun s => set_forge_yml (<[feedstock_directory := code']> (forge_yml s)) s).

(** The statement under the [with]: the right-hand side is evaluated
    first; the two dicts returned by [setdefault] are the objects stored
    in their parents, so the assignment shows through [code]. *)
Definition store_binstar_token (raw : string) (code : pyval) : pyresult pyval :=
  match decode_utf8 raw with
  | inl e => inl e
  | inr text =>
      match py_setdefault code "appveyor" (PDict ∅) with
      | inl e => inl e
      | inr (appveyor, code1) =>
          match py_setdefault appveyor "secure" (PDict ∅) with
          | inl e => inl e
          | inr (secure, appveyor1) =>
              match py_setitem secure "BINSTAR_TOKEN" (PStr text) with
              | inl e => inl e
              | inr secure1 =>
                  match py_setitem appveyor1 "secure" secure1 with
                  | inl e => inl e
                  | inr appveyor2 => py_setitem code1 "appveyor" appveyor2
                  end
              end
          end
      end
  end.

Definition appveyor_encrypt_url : formatted :=
  Format "https://ci.appveyor.com/api/account/encrypt" [].

Definition rotate_token_in_appveyor (feedstock_directory binstar_token : string)
  : M unit :=
  token <- import_name "appveyor_token" appveyor_token ;;
  let hdrs := [("Authorization", "Bearer " +:+ token)] in
  response <-
    requests_post appveyor_encrypt_url (Some hdrs)
      (FormData [("plainValue", PStr binstar_token)]) ;;
  if negb (status_code response =? 200)
  then raise (ValueError_response response)
  else update_conda_forge_config feedstock_directory
         (store_binstar_token (content response)).

(** ** The orchestrator *)

(** ["DEBUG_ANACONDA_TOKENS" in os.environ]. *)
Definition debug_anaconda_tokens : M bool :=
  ask (fun w => bool_decide ("DEBUG_ANACONDA_TOKENS" ∈ os_environ w)).

(** ["Failed to rotate token for %s/%s on <provider>!" % (user, project)]. *)
Definition failure_message (user project : string) (p : provider) : string :=
  "Failed to rotate token for " +:+ user +:+ "/" +:+ project +:+ " on "
  +:+ provider_name p +:+ "!".

Definition fallback_message (user project : string) : string :=
  "Rotating the feedstock token in proviers for " +:+ user +:+ "/" +:+ project
  +:+ " failed! Try the command locally with DEBUG_ANACONDA_TOKENS"
  +:+ " defined in the environment to investigate!".

(** Ghost: entering the adapter of [p] and leaving it are recorded in
    [invocations]; the run itself is untouched. *)
Definition invoke (p : provider) (adapter : M unit) : M unit :=
  fun w s =>
    let '(r, s') := adapter w s in
    let outcome := match r with inl e => Some e | inr _ => None end in
    (r, set_invocations (invocations s' ++ [(p, outcome)]) s').

(** One [try: rotate_token_in_<p>(...) / except Exception as e: ...]
    block; the five blocks of the source differ in the adapter and in the
    provider named by the message only. *)
Definition attempt (p : provider) (adapter : M unit) (user project : string)
  : M unit :=
  try_except (invoke p adapter)
    (fun e =>
       debug <- debug_anaconda_tokens ;;
       if debug then raise e
       else
         let msg := failure_message user project p in
         modify (set_err_msg (Some msg)) ;;;
         modify (set_failed true) ;;;
         raise (RuntimeError msg)).

(** Truth value of [err_msg]: [None] and the empty string are false. *)
Definition truthy (m : option string) : bool :=
  match m with
  | None | Some EmptyString => false
  | Some (String _ _) => true
  end.

(** The body of the outer [try]: the enabled providers, in the fixed
    order. *)
Definition rotate_enabled_providers
    (user project feedstock_directory anaconda_token : string)
    (drone circle travis azure appveyor : bool) : M unit :=
  when circle
    (attempt Circle
       (rotate_token_in_circle user project anaconda_token) user project) ;;;
  when drone
    (attempt Drone
       (rotate_token_in_drone user project anaconda_token) user project) ;;;
  when travis
    (attempt Travis
       (rotate_token_in_travis user project anaconda_token) user project) ;;;
  when azure
    (attempt Azure
       (rotate_token_in_azure user project anaconda_token) user project) ;;;
  when appveyor
    (attempt Appveyor
       (rotate_token_in_appveyor feedstock_directory anaconda_token)
       user project).

Definition rotate_anaconda_token (user project feedstock_directory : string)
    (drone circle travis azure appveyor : bool) : M unit :=
  anaconda_token <-
    try_except (import_name "anaconda_token" anaconda_token)
      (fun e =>
         match e with
         | ImportError _ =>
             raise (RuntimeError
               "You must have the anaconda token defined to do token rotation!")
         | _ => raise e
         end) ;;
  import_name "travis_endpoint" travis_endpoint ;;;
  import_name "default_config" default_config ;;;
  modify (set_failed false) ;;;
  modify (set_err_msg None) ;;;
  with_open_devnull (fun fp =>
    debug <- debug_anaconda_tokens ;;
    fpo <- (if debug then get sys_stdout else ret fp) ;;
    fpe <- (if debug then get sys_stdout else ret fp) ;;
    redirect_stdout fpo (redirect_stderr fpe
      (try_except
         (rotate_enabled_providers user project feedstock_directory
            anaconda_token drone circle travis azure appveyor)
         (fun e =>
            debug <- debug_anaconda_tokens ;;
            if debug then raise e else modify (set_failed true))))) ;;;
  has_failed <- get failed ;;
  if has_failed then
    msg <- get err_msg ;;
    if truthy msg then raise (RuntimeError (default "" msg))
    else raise (RuntimeError (fallback_message user project))
  else ret tt.

(** The providers a call visits when nothing fails. *)
Definition enabled_in_order (drone circle travis azure appveyor : bool)
  : list provider :=
  (if circle then [Circle] else []) ++ (if drone then [Drone] else []) ++
  (if travis then [Travis] else []) ++ (if azure then [Azure] else []) ++
  (if appveyor then [Appveyor] else []).

(** * Vocabulary of the statements *)

(** ** What every adapter leaves alone *)

(** The part of the process no adapter touches: the stream bindings, the
    orchestrator's locals and the ghost records. *)
Definition control (s : state) :=
  (sys_stdout s, sys_stderr s, failed s, err_msg s, redirections s,
   invocations s).

(** Every write reached the file object that its stream name is bound
    to in [s]. *)
Definition honest_writes (s : state) (new : list written) : Prop :=
  Forall (fun ev => reached ev = target (through ev) s) new.

(** A computation is tame when it keeps [control], only appends to the
    calls issued, and only appends writes that reached the file object
    their stream name was bound to. *)
Definition tame {A} (m : M A) : Prop :=
  forall w s,
    control (m w s).2 = control s /\
    (exists calls, sent (m w s).2 = sent s ++ calls) /\
    (exists new, delivered (m w s).2 = delivered s ++ new /\ honest_writes s new).

(** ** The sweep over the enabled providers *)

Definition debugging (w : world) : bool :=
  bool_decide ("DEBUG_ANACONDA_TOKENS" ∈ os_environ w).

Definition all_returned (log : list (provider * option exn)) : Prop :=
  Forall (fun entry => entry.2 = None) log.

(** The handlers let [e] through as it is: they re-raise it when
    debugging, and they do not catch it when it is not an instance of
    [Exception]. *)
Definition passes (w : world) (e : exn) : bool :=
  debugging w || negb (is_Exception e).

Section Sweep.
Variables (user project : string).

(** One [if <flag>: try ... except ...] block: flag, provider, adapter. *)
Definition step : Type := (bool * provider * M unit)%type.

Fixpoint run_steps (l : list step) : M unit :=
  match l with
  | [] => ret tt
  | (c, p, a) :: rest => when c (attempt p a user project) ;;; run_steps rest
  end.

Fixpoint scheduled (l : list step) : list provider :=
  match l with
  | [] => []
  | (c, p, _) :: rest => if c then p :: scheduled rest else scheduled rest
  end.

(** How a sweep ends: either every scheduled adapter returned, or the
    first one that raised ended the sweep, with its own exception when
    that passes the handlers and with the synthesized message
    otherwise. *)
Definition sweep_result (w : world) (s : state) (order : list provider)
    (r : pyresult unit) (s' : state) : Prop :=
  sys_stdout s' = sys_stdout s /\ sys_stderr s' = sys_stderr s /\
  redirections s' = redirections s /\
  (exists new, delivered s' = delivered s ++ new /\ honest_writes s new) /\
  exists log, invocations s' = invocations s ++ log /\
    ((r = inr tt /\ failed s' = failed s /\ err_msg s' = err_msg s /\
      all_returned log /\ log.*1 = order)
     \/
     (exists done p e,
        log = done ++ [(p, Some e)] /\ all_returned done /\
        (done.*1 ++ [p]) `prefix_of` order /\
        if passes w e
        then r = inl e /\ failed s' = failed s /\ err_msg s' = err_msg s
        else r = inl (RuntimeError (failure_message user project p)) /\
             failed s' = true /\
             err_msg s' = Some (failure_message user project p))).

End Sweep.

Definition provider_steps
    (user project feedstock_directory anaconda_token : string)
    (drone circle travis azure appveyor : bool) : list step :=
  [(circle, Circle, rotate_token_in_circle user project anaconda_token);
   (drone, Drone, rotate_token_in_drone user project anaconda_token);
   (travis, Travis, rotate_token_in_travis user project anaconda_token);
   (azure, Azure, rotate_token_in_azure user project anaconda_token);
   (appveyor, Appveyor,
    rotate_token_in_appveyor feedstock_directory anaconda_token)].

(** The file object both streams are bound to during the sweep. *)
Definition sink (w : world) (s : state) : file_object :=
  if debugging w then sys_stdout s else DevNull.

(** What a call does once the three imports have succeeded. *)
Definition rotation_result (user project : string) (order : list provider)
    (w : world) (s : state) (r : pyresult unit) (s' : state) : Prop :=
  sys_stdout s' = sys_stdout s /\ sys_stderr s' = sys_stderr s /\
  redirections s'
    = redirections s ++ [(Stdout, sink w s); (Stderr, sink w s)] /\
  (exists new, delivered s' = delivered s ++ new /\
               Forall (fun ev => reached ev = sink w s) new) /\
  exists log, invocations s' = invocations s ++ log /\
    ((r = inr tt /\ all_returned log /\ log.*1 = order)
     \/
     (exists done p e,
        log = done ++ [(p, Some e)] /\ all_returned done /\
        (done.*1 ++ [p]) `prefix_of` order /\
        r = inl (if passes w e then e
                 else RuntimeError (failure_message user project p)))).

(** ** The calls of each adapter *)

Definition circle_list_request (token user project : string) : http_request :=
  HttpRequest Requests GET (circle_url token user project "") None NoBody.

Definition circle_delete_request (token user project : string) : http_request :=
  HttpRequest Requests DELETE (circle_url token user project "/BINSTAR_TOKEN")
    None NoBody.

Definition circle_create_request (token user project binstar_token : string)
  : http_request :=
  HttpRequest Requests POST (circle_url token user project "") None
    (FormData [("name", PStr "BINSTAR_TOKEN"); ("value", PStr binstar_token)]).

Definition drone_list_request (user project : string) : http_request :=
  HttpRequest DroneSession GET (drone_secrets_url user project) None NoBody.



Definition travis_data (binstar_token : string) : payload :=
  JsonData [("env_var.name", PStr "BINSTAR_TOKEN");
            ("env_var.value", PStr binstar_token);
            ("env_var.public", PStr "false")].

Definition travis_list_request (endpoint : string)
    (hdrs : list (string * string)) (repo_id : pyval) : http_request :=
  HttpRequest Requests GET (travis_env_vars_url endpoint repo_id) (Some hdrs)
    NoBody.

Definition travis_update_request (endpoint : string)
    (hdrs : list (string * string)) (repo_id ev_id : pyval)
    (binstar_token : string) : http_request :=
  HttpRequest Requests PATCH (travis_env_var_url endpoint repo_id ev_id)
    (Some hdrs) (travis_data binstar_token).

Definition travis_create_request (endpoint : string)
    (hdrs : list (string * string)) (repo_id : pyval)
    (binstar_token : string) : http_request :=
  HttpRequest Requests POST (travis_env_vars_url endpoint repo_id) (Some hdrs)
    (travis_data binstar_token).

Definition appveyor_encrypt_request (token binstar_token : string)
  : http_request :=
  HttpRequest Requests POST appveyor_encrypt_url
    (Some [("Authorization", "Bearer " +:+ token)])
    (FormData [("plainValue", PStr binstar_token)]).

(** The variable azure is given for the token. *)
Definition binstar_variable (binstar_token : string) : BuildDefinitionVariable :=
  {| allow_override := false; is_secret := true; value := Some binstar_token |}.

Definition definition_vars (ed : existing_definition)
  : gmap string BuildDefinitionVariable :=
  match ed_variables ed with
  | NoAttribute | IsNone => ∅
  | Variables vars => vars
  end.

(** The definition azure submits: the default one, with the variables of
    the fetched definition and [BINSTAR_TOKEN] set among them. *)
Definition azure_update_call (user project : string) (config : azure_config)
    (ed : existing_definition) (binstar_token : string) : call :=
  CUpdateDefinition
    (get_default_build_definition user project config
       (<["BINSTAR_TOKEN" := binstar_variable binstar_token]>
          (definition_vars ed))
       (ed_id ed) (ed_revision ed))
    (ed_id ed) (ed_project_name ed).

(** ** Listings *)

Definition entry_name (v : pyval) : option pyval :=
  match v with
  | PDict d => d !! "name"
  | _ => None
  end.

Definition entry_id (v : pyval) : option pyval :=
  match v with
  | PDict d => d !! "id"
  | _ => None
  end.

Definition is_binstar (v : pyval) : bool :=
  match entry_name v with
  | Some n => py_eq_str n "BINSTAR_TOKEN"
  | None => false
  end.

(** Every entry of the listing is an object with a name; an entry named
    [BINSTAR_TOKEN] is among them. *)
Definition named_entries (l : list pyval) : bool :=
  forallb (fun v => bool_decide (is_Some (entry_name v))) l.

Definition lists_binstar (l : list pyval) : bool := existsb is_binstar l.

(** Travis: the entries named [BINSTAR_TOKEN] also carry an id. *)
Definition identified_entries (l : list pyval) : bool :=
  forallb (fun v =>
    bool_decide (is_Some (entry_name v)) &&
    (negb (is_binstar v) || bool_decide (is_Some (entry_id v)))) l.

(** The id the travis loop ends with: that of the last entry named
    [BINSTAR_TOKEN]. *)
Fixpoint captured_id (l : list pyval) (ev_id : pyval) : pyval :=
  match l with
  | [] => ev_id
  | v :: rest =>
      captured_id rest (if is_binstar v then default PNone (entry_id v) else ev_id)
  end.

(** ** How a request ends an adapter *)

(** How the create call of circle ends the adapter. *)
Definition circle_create_outcome (reply : pyresult response) : pyresult unit :=
  match reply with
  | inl e => inl e
  | inr r =>
      if status_code r =? 201 then inr tt else inl (ValueError_response r)
  end.


(** How the upsert call of drone or travis ends the adapter. *)
Definition upsert_outcome (reply : pyresult response) : pyresult unit :=
  match reply with
  | inl e => inl e
  | inr r => if is_http_error r then inl (HTTPError r) else inr tt
  end.

(** ** The local configuration *)

(** The mapping found in a slot: empty when the slot is vacant, none when
    the slot holds something that is not a mapping. *)
Definition as_mapping (slot : option pyval) : option (gmap string pyval) :=
  match slot with
  | None => Some ∅
  | Some (PDict m) => Some m
  | Some _ => None
  end.

(** What a slot holds under [key]: nothing when the slot is vacant or
    does not hold a mapping. *)
Definition py_lookup (slot : option pyval) (key : string) : option pyval :=
  match slot with
  | Some (PDict d) => d !! key
  | _ => None
  end.

(** The configuration, its [appveyor] entry and the [secure] entry under
    it are mappings where present. *)
Definition conforming (slot : option pyval) : Prop :=
  exists top mid inner,
    as_mapping slot = Some top /\
    as_mapping (top !! "appveyor") = Some mid /\
    as_mapping (mid !! "secure") = Some inner.

(** ** What a provider reports *)

(** The listing call of circle, issued after [history], answers with the
    entries [l]. *)
Definition circle_reports (w : world) (history : list call)
    (token user project : string) (l : list pyval) : Prop :=
  circle_token w = Some token /\
  exists outs r,
    http w history (circle_list_request token user project) = (outs, inr r) /\
    is_http_error r = false /\ json_body r = Some (PList l) /\
    named_entries l = true.


Definition travis_reports (w : world) (history : list call)
    (user project endpoint : string) (hdrs : list (string * string))
    (repo_id : pyval) (l : list pyval) : Prop :=
  travis_endpoint w = Some endpoint /\
  (exists outs, travis_headers w history = (outs, inr hdrs)) /\
  (exists outs info,
     travis_get_repo_info w history user project = (outs, inr info) /\
     py_getitem info "id" = inr repo_id) /\
  exists outs r reply,
    http w (history ++ [CTravisGetRepoInfo user project])
      (travis_list_request endpoint hdrs repo_id) = (outs, inr r) /\
    is_http_error r = false /\ json_body r = Some reply /\
    py_getitem reply "env_vars" = inr (PList l) /\
    identified_entries l = true.


(** ** Providers that hold no entry yet *)








(** The state in which the sweep starts. *)
Definition sweep_state (w : world) (s : state) : state :=
  let f := sink w s in
  set_sys_stderr f
    (set_redirections ((redirections s ++ [(Stdout, f)]) ++ [(Stderr, f)])
       (set_sys_stdout f
          (set_redirections (redirections s ++ [(Stdout, f)])
             (set_err_msg None (set_failed false s))))).

(** ** Create calls *)





(** ** Scenarios *)

Definition quiet {A} (a : A) : effect A := ([], inr a).

(** A configurable stand-in for the five services. *)
Record mock : Type := {
  m_environ : gset string;
  m_anaconda_token : option string;
  m_chatter : list (std_stream * string);
  m_circle_envvars : list pyval;
  m_drone_secrets : list pyval;
  m_travis_env_vars : list pyval;
  m_definitions : list existing_definition;
  m_drone_status : Z;
  m_encrypt_status : Z
}.

Definition mock_http (m : mock) (req : http_request) : effect response :=
  let t := template (url req) in
  let answer st js := (m_chatter m, inr (Response st "ciphertext" js)) in
  if bool_decide (t = template (circle_url "" "" "" "")) then
    match method req with
    | GET => answer 200 (Some (PList (m_circle_envvars m)))
    | DELETE => answer 200 None
    | _ => answer 201 None
    end
  else if bool_decide (t = template (drone_secrets_url "" "")) then
    match method req with
    | GET => answer 200 (Some (PList (m_drone_secrets m)))
    | _ => answer (m_drone_status m) None
    end
  else if bool_decide (t = template (drone_secret_url "" "")) then
    answer (m_drone_status m) None
  else if bool_decide (t = template (travis_env_vars_url "" PNone)) then
    match method req with
    | GET =>
        answer 200
          (Some (PDict {["env_vars" := PList (m_travis_env_vars m)]}))
    | _ => answer 201 None
    end
  else if bool_decide (t = template (travis_env_var_url "" PNone PNone)) then
    answer 200 None
  else answer (m_encrypt_status m) None.

Definition mock_world (m : mock) : world :=
  {| os_environ := m_environ m;
     anaconda_token := m_anaconda_token m;
     circle_token := Some "circle-secret";
     appveyor_token := Some "appveyor-secret";
     travis_endpoint := Some "https://api.travis-ci.com";
     default_config := Some {| project_name := "feedstock-builds" |};
     drone_session := fun _ => (m_chatter m, inr tt);
     travis_headers := fun _ => (m_chatter m, inr [("Travis-API-Version", "3")]);
     travis_get_repo_info := fun _ _ _ =>
       (m_chatter m, inr (PDict {["id" := PInt 7]}));
     build_client := fun _ => (m_chatter m, inr tt);
     get_definitions := fun _ _ _ => (m_chatter m, inr (m_definitions m));
     update_definition := fun _ _ _ _ => (m_chatter m, inr tt);
     http := fun _ req => mock_http m req |}.

Definition registered_definition : existing_definition :=
  {| ed_id := 11; ed_revision := 3; ed_project_name := "feedstock-builds";
     ed_variables := IsNone |}.

(** Every service answers, and none holds a [BINSTAR_TOKEN] yet. *)
Definition fresh : mock :=
  {| m_environ := ∅;
     m_anaconda_token := Some "s3cr3t";
     m_chatter := [];
     m_circle_envvars := [];
     m_drone_secrets := [];
     m_travis_env_vars := [];
     m_definitions := [registered_definition];
     m_drone_status := 200;
     m_encrypt_status := 200 |}.

(** As [fresh], but drone answers the upsert with HTTP 500. *)
Definition drone_down : mock :=
  {| m_environ := ∅;
     m_anaconda_token := Some "s3cr3t";
     m_chatter := [];
     m_circle_envvars := [];
     m_drone_secrets := [];
     m_travis_env_vars := [];
     m_definitions := [registered_definition];
     m_drone_status := 500;
     m_encrypt_status := 200 |}.

(** As [drone_down], with [DEBUG_ANACONDA_TOKENS] defined and a client
    library that warns on the diagnostic stream. *)
Definition drone_down_debug : mock :=
  {| m_environ := {["DEBUG_ANACONDA_TOKENS"]};
     m_anaconda_token := Some "s3cr3t";
     m_chatter := [(Stderr, "InsecureRequestWarning")];
     m_circle_envvars := [];
     m_drone_secrets := [];
     m_travis_env_vars := [];
     m_definitions := [registered_definition];
     m_drone_status := 500;
     m_encrypt_status := 200 |}.

(** [ci_register] defines no [anaconda_token]; debugging is on. *)
Definition no_token_debug : mock :=
  {| m_environ := {["DEBUG_ANACONDA_TOKENS"]};
     m_anaconda_token := None;
     m_chatter := [(Stdout, "request sent")];
     m_circle_envvars := [];
     m_drone_secrets := [];
     m_travis_env_vars := [];
     m_definitions := [registered_definition];
     m_drone_status := 200;
     m_encrypt_status := 200 |}.

(** The same services, another token to rotate. *)
Definition with_token (tok : string) (m : mock) : mock :=
  {| m_environ := m_environ m;
     m_anaconda_token := Some tok;
     m_chatter := m_chatter m;
     m_circle_envvars := m_circle_envvars m;
     m_drone_secrets := m_drone_secrets m;
     m_travis_env_vars := m_travis_env_vars m;
     m_definitions := m_definitions m;
     m_drone_status := m_drone_status m;
     m_encrypt_status := m_encrypt_status m |}.

(** As [fresh], but azure knows no definition for the project. *)
Definition unregistered : mock :=
  {| m_environ := ∅;
     m_anaconda_token := Some "s3cr3t";
     m_chatter := [];
     m_circle_envvars := [];
     m_drone_secrets := [];
     m_travis_env_vars := [];
     m_definitions := [];
     m_drone_status := 200;
     m_encrypt_status := 200 |}.

(** As [fresh], but the encryption endpoint answers 503. *)
Definition encrypt_down : mock :=
  {| m_environ := ∅;
     m_anaconda_token := Some "s3cr3t";
     m_chatter := [];
     m_circle_envvars := [];
     m_drone_secrets := [];
     m_travis_env_vars := [];
     m_definitions := [registered_definition];
     m_drone_status := 200;
     m_encrypt_status := 503 |}.

(** A feedstock whose [conda-forge.yml] already has content, including
    other secrets for appveyor. *)
Definition existing_secure : gmap string pyval :=
  {["GH_TOKEN" := PStr "b2xkIGNpcGhlcg=="]}.

Definition existing_appveyor : gmap string pyval :=
  <["image" := PStr "Visual Studio 2017"]>
    {["secure" := PDict existing_secure]}.

Definition existing_config : gmap string pyval :=
  <["channels" := PList [PStr "conda-forge"]]>
    {["appveyor" := PDict existing_appveyor]}.

Definition configured : state :=
  {| sys_stdout := Stream 1; sys_stderr := Stream 2; delivered := [];
     sent := []; forge_yml := {["." := PDict existing_config]};
     failed := false; err_msg := None;
     redirections := []; invocations := [] |}.

(** Every service already holds a [BINSTAR_TOKEN]. *)
Definition old_entry : pyval :=
  PDict (<["id" := PStr "0f3a9c"]> {["name" := PStr "BINSTAR_TOKEN"]}).

Definition other_entry : pyval :=
  PDict (<["id" := PStr "77b1e2"]> {["name" := PStr "GH_TOKEN"]}).

Definition stocked_definition : existing_definition :=
  {| ed_id := 11; ed_revision := 3; ed_project_name := "feedstock-builds";
     ed_variables :=
       Variables
         (<["UPLOAD_PACKAGES" :=
              {| allow_override := true; is_secret := false;
                 value := Some "True" |}]>
            {["BINSTAR_TOKEN" :=
                {| allow_override := false; is_secret := true;
                   value := None |}]}) |}.

Definition stocked : mock :=
  {| m_environ := ∅;
     m_anaconda_token := Some "s3cr3t";
     m_chatter := [];
     m_circle_envvars := [other_entry; old_entry];
     m_drone_secrets := [old_entry];
     m_travis_env_vars := [old_entry; other_entry];
     m_definitions := [stocked_definition];
     m_drone_status := 200;
     m_encrypt_status := 200 |}.

(** A process whose two streams are distinct file objects. *)
Definition idle : state :=
  {| sys_stdout := Stream 1; sys_stderr := Stream 2; delivered := [];
     sent := []; forge_yml := ∅; failed := false; err_msg := None;
     redirections := []; invocations := [] |}.

Definition null_section : state :=
  {| sys_stdout := Stream 1; sys_stderr := Stream 2; delivered := [];
     sent := []; forge_yml := {["." := PDict {["appveyor" := PNone]}]};
     failed := false; err_msg := None;
     redirections := []; invocations := [] |}.

(** ** Worlds that differ in one respect *)

(** The same services under another environment. *)
Definition with_environ (env : gset string) (w : world) : world :=
  {| os_environ := env;
     anaconda_token := anaconda_token w;
     circle_token := circle_token w;
     appveyor_token := appveyor_token w;
     travis_endpoint := travis_endpoint w;
     default_config := default_config w;
     drone_session := drone_session w;
     travis_headers := travis_headers w;
     travis_get_repo_info := travis_get_repo_info w;
     build_client := build_client w;
     get_definitions := get_definitions w;
     update_definition := update_definition w;
     http := http w |}.

(** The same world with other HTTP services. *)
Definition with_http (h : list call -> http_request -> effect response)
    (w : world) : world :=
  {| os_environ := os_environ w;
     anaconda_token := anaconda_token w;
     circle_token := circle_token w;
     appveyor_token := appveyor_token w;
     travis_endpoint := travis_endpoint w;
     default_config := default_config w;
     drone_session := drone_session w;
     travis_headers := travis_headers w;
     travis_get_repo_info := travis_get_repo_info w;
     build_client := build_client w;
     get_definitions := get_definitions w;
     update_definition := update_definition w;
     http := h |}.

(** The same world where [azure_ci_utils] cannot be imported. *)
Definition without_azure (w : world) : world :=
  {| os_environ := os_environ w;
     anaconda_token := anaconda_token w;
     circle_token := circle_token w;
     appveyor_token := appveyor_token w;
     travis_endpoint := travis_endpoint w;
     default_config := None;
     drone_session := drone_session w;
     travis_headers := travis_headers w;
     travis_get_repo_info := travis_get_repo_info w;
     build_client := build_client w;
     get_definitions := get_definitions w;
     update_definition := update_definition w;
     http := http w |}.

(** The same world where [ci_register] defines no [circle_token]. *)
Definition without_circle_token (w : world) : world :=
  {| os_environ := os_environ w;
     anaconda_token := anaconda_token w;
     circle_token := None;
     appveyor_token := appveyor_token w;
     travis_endpoint := travis_endpoint w;
     default_config := default_config w;
     drone_session := drone_session w;
     travis_headers := travis_headers w;
     travis_get_repo_info := travis_get_repo_info w;
     build_client := build_client w;
     get_definitions := get_definitions w;
     update_definition := update_definition w;
     http := http w |}.

(** The same world where [travis_get_repo_info] returns [info]. *)
Definition with_repo_info (info : pyval) (w : world) : world :=
  {| os_environ := os_environ w;
     anaconda_token := anaconda_token w;
     circle_token := circle_token w;
     appveyor_token := appveyor_token w;
     travis_endpoint := travis_endpoint w;
     default_config := default_config w;
     drone_session := drone_session w;
     travis_headers := travis_headers w;
     travis_get_repo_info := fun _ _ _ => quiet info;
     build_client := build_client w;
     get_definitions := get_definitions w;
     update_definition := update_definition w;
     http := http w |}.

(** ** What a computation may touch *)

(** From [s] to [s']: the calls issued so far are still there, in their
    order, and outside [dirs] every configuration is what it was. *)
Definition extends (dirs : gset string) (s s' : state) : Prop :=
  sent s `prefix_of` sent s' /\
  forall d, d ∉ dirs -> forge_yml s' !! d = forge_yml s !! d.

Definition confined (dirs : gset string) {A} (m : M A) : Prop :=
  forall w s, extends dirs s (m w s).2.

(** The directories whose configuration a rotation may write. *)
Definition written_dirs (appveyor : bool) (dir : string) : gset string :=
  if appveyor then {[dir]} else ∅.

(** ** Listings that cannot be used *)

(** The entries a listing call has delivered to circle or drone: none
    when the client raised, when the status is a 4xx or 5xx, when the
    body is not JSON, when the JSON value cannot be iterated, or when one
    of the entries is not an object with a name. *)
Definition listed_entries (reply : pyresult response) : option (list pyval) :=
  match reply with
  | inl _ => None
  | inr r =>
      if is_http_error r then None else
      match json_body r with
      | None => None
      | Some v =>
          match py_iter v with
          | inl _ => None
          | inr l => if named_entries l then Some l else None
          end
      end
  end.

(** The same for travis, whose entries are found under [env_vars] and
    need an id when they are named [BINSTAR_TOKEN]. *)
Definition listed_env_vars (reply : pyresult response) : option (list pyval) :=
  match reply with
  | inl _ => None
  | inr r =>
      if is_http_error r then None else
      match json_body r with
      | None => None
      | Some v =>
          match py_getitem v "env_vars" with
          | inl _ => None
          | inr env_vars =>
              match py_iter env_vars with
              | inl _ => None
              | inr l => if identified_entries l then Some l else None
              end
          end
      end
  end.

(** ** A configuration that holds the ciphertext only *)

(** The configuration that holds the ciphertext [text] and nothing else. *)
Definition secure_only (text : string) : pyval :=
  PDict {["appveyor" :=
            PDict {["secure" := PDict {["BINSTAR_TOKEN" := PStr text]}]}]}.

(** ** What the debug flag may change *)

(** The text written so far, with the stream name it was written
    through, whatever file object it reached. *)
Definition shown (s : state) : list (std_stream * string) :=
  (fun ev => (through ev, text ev)) <$> delivered s.

(** Two processes that have issued the same calls, hold the same
    configurations and have written the same text. *)
Definition alike (s1 s2 : state) : Prop :=
  sent s1 = sent s2 /\ forge_yml s1 = forge_yml s2 /\ shown s1 = shown s2.

(** A computation that looks neither at the environment nor at the
    stream bindings nor at the orchestrator's locals. *)
Definition blind {A} (m : M A) : Prop :=
  forall env w s1 s2,
    alike s1 s2 ->
    (m w s1).1 = (m (with_environ env w) s2).1 /\
    alike (m w s1).2 (m (with_environ env w) s2).2.

(** ** Who writes *)

(** No collaborator writes anything. *)
Definition silent (w : world) : Prop :=
  (forall history req, (http w history req).1 = []) /\
  (forall history, (drone_session w history).1 = []) /\
  (forall history, (travis_headers w history).1 = []) /\
  (forall history user project,
     (travis_get_repo_info w history user project).1 = []) /\
  (forall history, (build_client w history).1 = []) /\
  (forall history name project,
     (get_definitions w history name project).1 = []) /\
  (forall history definition id name,
     (update_definition w history definition id name).1 = []).

(** A computation that writes nothing of its own. *)
Definition wordless {A} (m : M A) : Prop :=
  forall w s, silent w -> delivered (m w s).2 = delivered s.

(** ** Further scenarios *)

(** As [fresh], but the client library is interrupted during the listing
    call of drone: [KeyboardInterrupt] is raised there. *)
Definition interrupted_at_drone (history : list call) (req : http_request)
  : effect response :=
  if bool_decide (template (url req) = template (drone_secrets_url "" ""))
  then ([], inl (Raised "KeyboardInterrupt" ""))
  else mock_http fresh req.

(** As [drone_down], with client libraries that print what they send. *)
Definition noisy : mock :=
  {| m_environ := ∅;
     m_anaconda_token := Some "s3cr3t";
     m_chatter := [(Stdout, "POST value=s3cr3t"); (Stderr, "retrying")];
     m_circle_envvars := [];
     m_drone_secrets := [];
     m_travis_env_vars := [];
     m_definitions := [registered_definition];
     m_drone_status := 500;
     m_encrypt_status := 200 |}.

(** A second feedstock next to the one of [configured]. *)
Definition two_feedstocks : state :=
  {| sys_stdout := Stream 1; sys_stderr := Stream 2; delivered := [];
     sent := [];
     forge_yml :=
       <["../scipy-feedstock" := PDict {["channels" := PList []]}]>
         {["." := PDict existing_config]};
     failed := false; err_msg := None;
     redirections := []; invocations := [] |}.

(** Every request is answered with 502 and an HTML page. *)
Definition bad_gateway (history : list call) (req : http_request)
  : effect response :=
  ([(Stderr, "502 Bad Gateway")], inr (Response 502 "<html>" None)).

(** The listing names its second entry [title] instead of [name]. *)
Definition misnamed_entry : pyval := PDict {["title" := PStr "BINSTAR_TOKEN"]}.

Definition misnamed : mock :=
  {| m_environ := ∅;
     m_anaconda_token := Some "s3cr3t";
     m_chatter := [];
     m_circle_envvars := [other_entry; misnamed_entry];
     m_drone_secrets := [other_entry; misnamed_entry];
     m_travis_env_vars := [other_entry; misnamed_entry];
     m_definitions := [registered_definition];
     m_drone_status := 200;
     m_encrypt_status := 200 |}.

(** Travis lists [BINSTAR_TOKEN] twice, under two ids. *)
Definition older_entry : pyval :=
  PDict (<["id" := PStr "c41d07"]> {["name" := PStr "BINSTAR_TOKEN"]}).

Definition duplicated : mock :=
  {| m_environ := ∅;
     m_anaconda_token := Some "s3cr3t";
     m_chatter := [];
     m_circle_envvars := [];
     m_drone_secrets := [];
     m_travis_env_vars := [older_entry; other_entry; old_entry; other_entry];
     m_definitions := [registered_definition];
     m_drone_status := 200;
     m_encrypt_status := 200 |}.

(** Every request is answered with 200 and an empty listing. *)
Definition always_200 (history : list call) (req : http_request)
  : effect response :=
  quiet (Response 200 "ok"
           (Some (match method req with
                  | GET => PDict {["env_vars" := PList []]}
                  | _ => PNone
                  end))).

Definition circle_always_200 (history : list call) (req : http_request)
  : effect response :=
  quiet (Response 200 "ok" (Some (PList []))).

(** Azure knows two definitions under the name of the project. *)
Definition ambiguous : mock :=
  {| m_environ := ∅;
     m_anaconda_token := Some "s3cr3t";
     m_chatter := [];
     m_circle_envvars := [];
     m_drone_secrets := [];
     m_travis_env_vars := [];
     m_definitions := [registered_definition; stocked_definition];
     m_drone_status := 200;
     m_encrypt_status := 200 |}.

(** The encryption endpoint answers 200 with bytes that are not UTF-8. *)
Definition undecodable (history : list call) (req : http_request)
  : effect response :=
  quiet (Response 200 (String (ascii_of_nat 255) "ciphertext") None).

(** The encryption endpoint hands out a new ciphertext for each call. *)
Definition fresh_ciphertexts (history : list call) (req : http_request)
  : effect response :=
  quiet (Response 200
           (match history with
            | [] => "first-ciphertext"
            | _ :: _ => "second-ciphertext"
            end) None).

(** * Properties *)

(** ** Adapters are tame *)

Lemma target_control st s1 s2 : control s1 = control s2 -> target st s1 = target st s2.
Proof. unfold control. intros H. destruct st; simpl; congruence. Qed.

Lemma honest_writes_control s1 s2 new :
  control s1 = control s2 -> honest_writes s1 new -> honest_writes s2 new.
Proof.
  intros Hc H. unfold honest_writes in *. eapply Forall_impl; [exact H|].
  intros ev ->. by apply target_control.
Qed.

Lemma write_all_spec outs : forall s,
  control (write_all outs s) = control s /\
  sent (write_all outs s) = sent s /\
  forge_yml (write_all outs s) = forge_yml s /\
  delivered (write_all outs s)
    = delivered s ++ map (fun o => Written o.1 (target o.1 s) o.2) outs.
Proof.
  unfold write_all. induction outs as [|o outs IH]; intros s; simpl.
  - by rewrite app_nil_r.
  - destruct (IH (py_write s o)) as (Hc & Hs & Hy & Hd).
    rewrite Hc, Hs, Hy, Hd. repeat split. simpl. by rewrite <- app_assoc.
Qed.

Lemma tame_intro_same {A} (m : M A) :
  (forall w s, (m w s).2 = s) -> tame m.
Proof.
  intros H w s. rewrite H. split; [done|]. split.
  - exists []. by rewrite app_nil_r.
  - exists []. rewrite app_nil_r. split; [done | constructor].
Qed.

Lemma tame_ret {A} (a : A) : tame (ret a).
Proof. by apply tame_intro_same. Qed.

Lemma tame_raise {A} (e : exn) : tame (@raise A e).
Proof. by apply tame_intro_same. Qed.

Lemma tame_lift {A} (r : pyresult A) : tame (lift r).
Proof. by apply tame_intro_same. Qed.

Lemma tame_ask {A} (f : world -> A) : tame (ask f).
Proof. by apply tame_intro_same. Qed.

Lemma tame_get {A} (f : state -> A) : tame (get f).
Proof. by apply tame_intro_same. Qed.

Lemma tame_import {A} name (f : world -> option A) : tame (import_name name f).
Proof.
  apply tame_intro_same. intros w s. unfold import_name. by destruct (f w).
Qed.

Lemma tame_bind {A B} (m : M A) (k : A -> M B) :
  tame m -> (forall a, tame (k a)) -> tame (bind m k).
Proof.
  intros Hm Hk w s. unfold bind.
  destruct (Hm w s) as (Hc & [c1 Hs] & [n1 [Hd Hh]]).
  destruct (m w s) as [[e|a] s1]; simpl in *.
  - split; [done|]. split; eauto.
  - destruct (Hk a w s1) as (Hc2 & [c2 Hs2] & [n2 [Hd2 Hh2]]).
    split; [congruence|]. split.
    + exists (c1 ++ c2). rewrite Hs2, Hs. by rewrite app_assoc.
    + exists (n1 ++ n2). rewrite Hd2, Hd, app_assoc. split; [done|].
      apply Forall_app. split; [done|]. by eapply honest_writes_control.
Qed.

Lemma tame_when c (m : M unit) : tame m -> tame (when c m).
Proof. intros H. destruct c; simpl; [done | apply tame_ret]. Qed.

Lemma tame_try_except {A} (m : M A) (h : exn -> M A) :
  tame m -> (forall e, tame (h e)) -> tame (try_except m h).
Proof.
  intros Hm Hh w s. unfold try_except.
  destruct (Hm w s) as (Hc & [c1 Hs] & [n1 [Hd Hw]]).
  destruct (m w s) as [[e|a] s1]; simpl in *.
  - destruct (is_Exception e); [|split; [done|]; split; eauto].
    destruct (Hh e w s1) as (Hc2 & [c2 Hs2] & [n2 [Hd2 Hw2]]).
    split; [congruence|]. split.
    + exists (c1 ++ c2). rewrite Hs2, Hs. by rewrite app_assoc.
    + exists (n1 ++ n2). rewrite Hd2, Hd, app_assoc. split; [done|].
      apply Forall_app. split; [done|]. by eapply honest_writes_control.
  - split; [done|]. split; eauto.
Qed.

Lemma tame_local_call {A} (f : world -> list call -> effect A) :
  tame (local_call f).
Proof.
  intros w s. unfold local_call. destruct (f w (sent s)) as [outs r]. simpl.
  destruct (write_all_spec outs s) as (Hc & Hs & _ & Hd).
  split; [done|]. split.
  - exists []. by rewrite Hs, app_nil_r.
  - eexists. split; [exact Hd|]. unfold honest_writes.
    apply Forall_map. by apply Forall_true.
Qed.

Lemma tame_remote {A} c (f : world -> list call -> effect A) :
  tame (remote c f).
Proof.
  intros w s. unfold remote. destruct (f w (sent s)) as [outs r]. simpl.
  destruct (write_all_spec outs (set_sent (sent s ++ [c]) s))
    as (Hc & Hs & _ & Hd).
  split; [done|]. split.
  - exists [c]. by rewrite Hs.
  - eexists. split; [exact Hd|]. unfold honest_writes.
    apply Forall_map. apply Forall_true. intros [[] t]; done.
Qed.

Lemma tame_for_each {A V} (items : list A) (body : A -> V -> M V) :
  (forall x v, tame (body x v)) -> forall v, tame (for_each items body v).
Proof.
  intros Hb. induction items as [|x items IH]; intros v; simpl.
  - apply tame_ret.
  - apply tame_bind; [apply Hb | apply IH].
Qed.

Lemma tame_set_forge_yml (f : state -> gmap string pyval) :
  tame (modify (fun s => set_forge_yml (f s) s)).
Proof.
  intros w s. simpl. split; [done|]. split.
  - exists []. by rewrite app_nil_r.
  - exists []. rewrite app_nil_r. split; [done | constructor].
Qed.

Create HintDb tame.
#[local] Hint Resolve tame_ret tame_raise tame_lift tame_ask tame_get
  tame_import tame_local_call tame_remote tame_set_forge_yml : tame.

Ltac tame_step :=
  match goal with
  | |- tame (bind _ _) => apply tame_bind; [| intros]
  | |- tame (when _ _) => apply tame_when
  | |- tame (try_except _ _) => apply tame_try_except; [| intros]
  | |- tame (for_each _ _ _) => apply tame_for_each; intros
  | |- tame (if ?c then _ else _) => destruct c
  | |- tame (match ?x with _ => _ end) => destruct x
  | |- tame _ => solve [auto with tame]
  end.

Lemma tame_send req : tame (send req).
Proof. apply tame_remote. Qed.

Lemma tame_raise_for_status r : tame (raise_for_status r).
Proof. unfold raise_for_status. repeat tame_step. Qed.

Lemma tame_response_json r : tame (response_json r).
Proof. unfold response_json. repeat tame_step. Qed.

#[local] Hint Resolve tame_send tame_raise_for_status tame_response_json : tame.

Lemma tame_circle user project tok : tame (rotate_token_in_circle user project tok).
Proof.
  unfold rotate_token_in_circle, requests_get, requests_delete, requests_post.
  repeat tame_step.
Qed.

Lemma tame_drone user project tok : tame (rotate_token_in_drone user project tok).
Proof.
  unfold rotate_token_in_drone, session_get, session_patch, session_post.
  repeat tame_step.
Qed.

Lemma tame_travis user project tok : tame (rotate_token_in_travis user project tok).
Proof.
  unfold rotate_token_in_travis, requests_get, requests_patch, requests_post.
  repeat tame_step.
Qed.

Lemma tame_azure user project tok : tame (rotate_token_in_azure user project tok).
Proof. unfold rotate_token_in_azure. repeat tame_step. Qed.

Lemma tame_appveyor dir tok : tame (rotate_token_in_appveyor dir tok).
Proof.
  unfold rotate_token_in_appveyor, requests_post, update_conda_forge_config.
  repeat tame_step.
Qed.

(** ** The sweep over the enabled providers *)

Section SweepFacts.
Variables (user project : string).

Lemma attempt_run p a w s :
  attempt p a user project w s =
    let '(ra, sa) := a w s in
    let sa' :=
      set_invocations
        (invocations sa
           ++ [(p, match ra with inl e => Some e | inr _ => None end)]) sa in
    match ra with
    | inr u => (inr u, sa')
    | inl e =>
        if passes w e then (inl e, sa')
        else (inl (RuntimeError (failure_message user project p)),
              set_failed true
                (set_err_msg (Some (failure_message user project p)) sa'))
    end.
Proof.
  unfold attempt, try_except, invoke, bind, debug_anaconda_tokens, ask,
    passes, debugging.
  destruct (a w s) as [[e|[]] sa]; simpl; [|done].
  destruct (is_Exception e); simpl; [|by rewrite orb_true_r].
  rewrite orb_false_r. by destruct (bool_decide _).
Qed.

Lemma run_steps_spec l :
  Forall (fun st : step => tame st.2) l ->
  forall w s,
    sweep_result user project w s (scheduled l)
      (run_steps user project l w s).1 (run_steps user project l w s).2.
Proof.
  induction 1 as [|[[c p] a] l Ha _ IH]; intros w s.
  - simpl. unfold sweep_result.
    split; [done|]. split; [done|]. split; [done|]. split.
    + exists []. rewrite app_nil_r. split; [done | constructor].
    + exists []. rewrite app_nil_r. split; [done|]. left.
      repeat split; constructor.
  - simpl in Ha. simpl. destruct c; simpl.
    2:{ unfold bind, ret. simpl. apply IH. }
    unfold bind. rewrite attempt_run.
    destruct (Ha w s) as (Hc & _ & [n1 [Hd Hw]]).
    destruct (a w s) as [[e|[]] sa]; simpl in *.
    + (* the adapter raised *)
      assert (Hc' : sys_stdout sa = sys_stdout s /\ sys_stderr sa = sys_stderr s
                    /\ redirections sa = redirections s
                    /\ invocations sa = invocations s
                    /\ failed sa = failed s /\ err_msg sa = err_msg s).
      { unfold control in Hc. by simplify_eq. }
      destruct Hc' as (H1 & H2 & H3 & H4 & H5 & H6).
      destruct (passes w e) eqn:Hpass; simpl; unfold sweep_result.
      all: split; [done|]; split; [done|]; split; [done|]; split; [eauto|].
      all: exists [(p, Some e)]; rewrite H4; split; [done|]; right.
      all: exists [], p, e; rewrite Hpass; simpl; repeat split; try done;
             try constructor.
      all: by apply prefix_cons, prefix_nil.
    + (* the adapter returned *)
      set (s1 := set_invocations _ sa).
      assert (Hc1 : sys_stdout s1 = sys_stdout s /\ sys_stderr s1 = sys_stderr s
                    /\ redirections s1 = redirections s
                    /\ invocations s1 = invocations s ++ [(p, None)]
                    /\ failed s1 = failed s /\ err_msg s1 = err_msg s
                    /\ delivered s1 = delivered s ++ n1).
      { unfold control in Hc. subst s1. simpl. simplify_eq.
        repeat split; congruence. }
      destruct Hc1 as (H1 & H2 & H3 & H4 & H5 & H6 & H7).
      destruct (IH w s1) as (I1 & I2 & I3 & [n2 [I4 I4']] & [log [I5 I6]]).
      unfold sweep_result.
      split; [congruence|]. split; [congruence|]. split; [congruence|].
      split.
      { exists (n1 ++ n2). rewrite I4, H7, app_assoc. split; [done|].
        apply Forall_app. split; [done|].
        eapply Forall_impl; [exact I4'|]. intros ev ->.
        destruct (through ev); [exact H1 | exact H2]. }
      exists ((p, None) :: log). rewrite I5, H4, <- app_assoc. split; [done|].
      destruct I6 as [(R1 & R2 & R3 & R4 & R5) | (done & q & e & L1 & L2 & L3 & L4)].
      * left. repeat split; try congruence.
        -- by constructor.
        -- simpl. by f_equal.
      * right. exists ((p, None) :: done), q, e. subst log.
        split; [done|]. split; [by constructor|]. split.
        { simpl. by apply prefix_cons. }
        destruct (passes w e); destruct L4 as (? & ? & ?);
          repeat split; congruence.
Qed.

End SweepFacts.

(** ** The orchestrator, given that the imports succeed *)

Lemma bind_ext {A B} (m : M A) (k1 k2 : A -> M B) w s :
  (forall a w' s', k1 a w' s' = k2 a w' s') -> bind m k1 w s = bind m k2 w s.
Proof. intros H. unfold bind. by destruct (m w s) as [[e|a] s1]. Qed.

Lemma bind_ret_tt (m : M unit) w s : bind m (fun _ => ret tt) w s = m w s.
Proof. unfold bind, ret. by destruct (m w s) as [[e|[]] s1]. Qed.

Lemma rotate_enabled_providers_steps user project dir tok
    drone circle travis azure appveyor w s :
  rotate_enabled_providers user project dir tok
    drone circle travis azure appveyor w s
  = run_steps user project
      (provider_steps user project dir tok drone circle travis azure appveyor)
      w s.
Proof.
  unfold rotate_enabled_providers, provider_steps. simpl.
  do 4 (apply bind_ext; intros _ ? ?). symmetry. apply bind_ret_tt.
Qed.

Lemma provider_steps_tame user project dir tok drone circle travis azure appveyor :
  Forall (fun st : step => tame st.2)
    (provider_steps user project dir tok drone circle travis azure appveyor).
Proof.
  unfold provider_steps.
  constructor; [apply tame_circle|].
  constructor; [apply tame_drone|].
  constructor; [apply tame_travis|].
  constructor; [apply tame_azure|].
  constructor; [apply tame_appveyor|].
  constructor.
Qed.

Lemma provider_steps_scheduled user project dir tok drone circle travis azure appveyor :
  scheduled
    (provider_steps user project dir tok drone circle travis azure appveyor)
  = enabled_in_order drone circle travis azure appveyor.
Proof. by destruct drone, circle, travis, azure, appveyor. Qed.

Lemma honest_writes_single_sink s f new :
  sys_stdout s = f -> sys_stderr s = f -> honest_writes s new ->
  Forall (fun ev => reached ev = f) new.
Proof.
  intros Ho He H. eapply Forall_impl; [exact H|]. intros ev ->.
  by destruct (through ev).
Qed.

Lemma failure_message_truthy user project p :
  truthy (Some (failure_message user project p)) = true.
Proof. reflexivity. Qed.

Lemma rotate_anaconda_token_spec user project dir
    drone circle travis azure appveyor w s :
  is_Some (anaconda_token w) -> is_Some (travis_endpoint w) ->
  is_Some (default_config w) ->
  rotation_result user project
    (enabled_in_order drone circle travis azure appveyor) w s
    (rotate_anaconda_token user project dir
       drone circle travis azure appveyor w s).1
    (rotate_anaconda_token user project dir
       drone circle travis azure appveyor w s).2.
Proof.
  intros [tok Htok] [te Hte] [cfg Hcfg].
  unfold rotate_anaconda_token, bind, try_except, import_name,
    with_open_devnull, debug_anaconda_tokens, ask, modify, get,
    redirect_stdout, redirect_stderr.
  rewrite Htok, Hte, Hcfg. simpl. fold (debugging w).
  unfold rotation_result, sink.
  destruct (debugging w) eqn:Hdbg; simpl.
  all: rewrite rotate_enabled_providers_steps.
  all: match goal with
       | |- context [run_steps ?u ?p ?l ?w ?s1] =>
           pose proof (run_steps_spec u p l
                         (provider_steps_tame _ _ _ _ _ _ _ _ _) w s1) as Hsw;
           rewrite provider_steps_scheduled in Hsw;
           destruct (run_steps u p l w s1) as [r1 s2]
       end.
  all: unfold sweep_result, passes in Hsw; rewrite Hdbg in Hsw; simpl in Hsw.
  all: destruct Hsw as (S1 & S2 & S3 & [new [S4 S5]] & [log [S6 S7]]).
  all: apply honest_writes_single_sink with (f := sys_stdout s2) in S5;
         [| simpl; by rewrite S1 | simpl; by rewrite S1].
  all: rewrite S1 in S5.
  all: unfold passes; rewrite Hdbg; simpl.
  all: destruct S7 as [(-> & F1 & F2 & L1 & L2)
                      | (pre & p & e & -> & L1 & L2 & R)].
  - (* debugging, every adapter returned *)
    simpl. rewrite F1. simpl. rewrite S3, <- app_assoc.
    repeat split; eauto. exists log. split; [done|]. by left.
  - (* debugging, an adapter raised *)
    destruct R as (-> & F1 & F2).
    destruct (is_Exception e); simpl; rewrite S3, <- app_assoc.
    all: repeat split; eauto.
    all: eexists; (split; [exact S6|]); right.
    all: by exists pre, p, e.
  - (* every adapter returned *)
    simpl. rewrite F1. simpl. rewrite S3, <- app_assoc.
    repeat split; eauto. exists log. split; [done|]. by left.
  - (* an adapter raised *)
    destruct (is_Exception e) eqn:HE; simpl in R.
    + (* its exception is replaced *)
      destruct R as (-> & F1 & F2). simpl. rewrite F2.
      rewrite failure_message_truthy. simpl. rewrite S3, <- app_assoc.
      repeat split; eauto. eexists. split; [exact S6|]. right.
      exists pre, p, e. by rewrite HE.
    + (* it is not an [Exception]: no handler catches it *)
      destruct R as (-> & F1 & F2). rewrite HE. simpl.
      rewrite S3, <- app_assoc.
      repeat split; eauto. eexists. split; [exact S6|]. right.
      exists pre, p, e. by rewrite HE.
Qed.

(** ** The orchestrator: containment of failures *)

Lemma rotate_import_failure user project dir
    drone circle travis azure appveyor w s :
  anaconda_token w = None \/ travis_endpoint w = None
  \/ default_config w = None ->
  (rotate_anaconda_token user project dir
     drone circle travis azure appveyor w s).2 = s.
Proof.
  unfold rotate_anaconda_token, bind, try_except, import_name.
  intros H.
  destruct (anaconda_token w) as [tok|]; [|done].
  destruct (travis_endpoint w) as [te|]; [|done].
  destruct (default_config w) as [cfg|]; [|done].
  by destruct H as [H|[H|H]].
Qed.

Lemma last_failure_unique (done before after : list (provider * option exn))
    p e q e' :
  all_returned done ->
  done ++ [(q, Some e')] = before ++ (p, Some e) :: after ->
  before = done /\ p = q /\ e = e' /\ after = [].
Proof.
  revert before. induction done as [|d ds IH]; intros before Hd Heq.
  - destruct before as [|b bs]; simpl in Heq.
    + by simplify_eq.
    + simplify_eq. by destruct bs.
  - apply Forall_cons in Hd as [Hd1 Hd2].
    destruct before as [|b bs]; simpl in Heq.
    + by simplify_eq.
    + simplify_eq. destruct (IH bs Hd2 ltac:(done)) as (-> & -> & -> & ->).
      done.
Qed.

Lemma no_failure_among_returned (log before after : list (provider * option exn))
    p e :
  all_returned log -> log <> before ++ (p, Some e) :: after.
Proof.
  intros H ->. apply Forall_app in H as [_ H].
  apply Forall_cons in H as [H _]. done.
Qed.

(** The run of the orchestrator, seen from a recorded failure. *)
Lemma rotate_failure_inversion user project dir
    drone circle travis azure appveyor w s before p e after :
  invocations
    (rotate_anaconda_token user project dir
       drone circle travis azure appveyor w s).2
    = invocations s ++ before ++ (p, Some e) :: after ->
  after = [] /\ all_returned before /\
  (before.*1 ++ [p]) `prefix_of`
    enabled_in_order drone circle travis azure appveyor /\
  (rotate_anaconda_token user project dir
     drone circle travis azure appveyor w s).1
    = inl (if passes w e then e
           else RuntimeError (failure_message user project p)) /\
  sys_stdout (rotate_anaconda_token user project dir
     drone circle travis azure appveyor w s).2 = sys_stdout s /\
  sys_stderr (rotate_anaconda_token user project dir
     drone circle travis azure appveyor w s).2 = sys_stderr s /\
  redirections (rotate_anaconda_token user project dir
     drone circle travis azure appveyor w s).2
    = redirections s ++ [(Stdout, sink w s); (Stderr, sink w s)].
Proof.
  intros Hlog.
  destruct (anaconda_token w) as [tok|] eqn:Htok;
    [destruct (travis_endpoint w) as [te|] eqn:Hte;
       [destruct (default_config w) as [cfg|] eqn:Hcfg|]|].
  2-4: rewrite rotate_import_failure in Hlog by auto;
       rewrite <- (app_nil_r (invocations s)) in Hlog at 1;
       apply app_inv_head in Hlog; by destruct before.
  destruct (rotate_anaconda_token_spec user project dir
              drone circle travis azure appveyor w s)
    as (S1 & S2 & S3 & _ & [log [S6 S7]]); [by rewrite ?Htok, ?Hte, ?Hcfg..|].
  rewrite S6 in Hlog. apply app_inv_head in Hlog.
  destruct S7 as [(_ & L1 & _) | (done & q & e' & -> & L1 & L2 & R)].
  - by apply no_failure_among_returned in Hlog.
  - destruct (last_failure_unique _ _ _ _ _ _ _ L1 Hlog) as (-> & -> & -> & ->).
    done.
Qed.

(** C1, as stated, fails for an exception that is not an instance of
    [Exception]: every handler of the orchestrator is [except Exception],
    so when the client library raises [KeyboardInterrupt] during the
    listing call of drone, without [DEBUG_ANACONDA_TOKENS], that
    [KeyboardInterrupt] reaches the caller as it is; no [RuntimeError] is
    raised and no message is synthesized. *)
Lemma interrupt_is_not_replaced :
  let w := with_http interrupted_at_drone (mock_world fresh) in
  debugging w = false /\
  invocations
    (rotate_anaconda_token "conda-forge" "numpy-feedstock" "."
       true true true true true w idle).2
  = [(Circle, None); (Drone, Some (Raised "KeyboardInterrupt" ""))] /\
  (rotate_anaconda_token "conda-forge" "numpy-feedstock" "."
     true true true true true w idle).1
  = inl (Raised "KeyboardInterrupt" "") /\
  (rotate_anaconda_token "conda-forge" "numpy-feedstock" "."
     true true true true true w idle).1
  <> inl (RuntimeError
            "Failed to rotate token for conda-forge/numpy-feedstock on drone!").
Proof.
  vm_compute. repeat split; try reflexivity. intros H. discriminate H.
Qed.

(** C1, amended: without [DEBUG_ANACONDA_TOKENS], once the adapter of an
    enabled provider [p] raises [e], no later adapter is invoked ([after]
    is empty and the adapters before [p] are the enabled ones before it,
    all of which returned); output suppression was installed on
    [os.devnull] and both streams are restored when the call ends.  When
    [e] is an instance of [Exception] the call raises the one
    [RuntimeError] whose message is "Failed to rotate token for
    user/project on p!", whatever [e] was; when it is not
    ([KeyboardInterrupt], [SystemExit]), the call raises [e] itself. *)
Theorem rotation_fails_fast_with_synthesized_message
    user project dir drone circle travis azure appveyor w s before p e after :
  debugging w = false ->
  invocations
    (rotate_anaconda_token user project dir
       drone circle travis azure appveyor w s).2
    = invocations s ++ before ++ (p, Some e) :: after ->
  after = [] /\ all_returned before /\
  (before.*1 ++ [p]) `prefix_of`
    enabled_in_order drone circle travis azure appveyor /\
  (rotate_anaconda_token user project dir
     drone circle travis azure appveyor w s).1
    = inl (if is_Exception e
           then RuntimeError
                  ("Failed to rotate token for " +:+ user +:+ "/" +:+ project
                   +:+ " on " +:+ provider_name p +:+ "!")
           else e) /\
  sys_stdout (rotate_anaconda_token user project dir
     drone circle travis azure appveyor w s).2 = sys_stdout s /\
  sys_stderr (rotate_anaconda_token user project dir
     drone circle travis azure appveyor w s).2 = sys_stderr s /\
  redirections (rotate_anaconda_token user project dir
     drone circle travis azure appveyor w s).2
    = redirections s ++ [(Stdout, DevNull); (Stderr, DevNull)].
Proof.
  intros Hdbg Hlog.
  destruct (rotate_failure_inversion _ _ _ _ _ _ _ _ _ _ _ _ _ _ Hlog)
    as (H1 & H2 & H3 & H4 & H5 & H6 & H7).
  unfold sink in H7. unfold passes in H4. rewrite Hdbg in H4, H7.
  simpl in H4. repeat split; try done.
  rewrite H4. by destruct (is_Exception e).
Qed.

Lemma rotation_fails_fast_witness :
  (rotate_anaconda_token "conda-forge" "numpy-feedstock" "."
     true true true true true (mock_world drone_down) idle).1
  = inl (RuntimeError
           "Failed to rotate token for conda-forge/numpy-feedstock on drone!").
Proof.
  destruct (rotation_fails_fast_with_synthesized_message
              "conda-forge" "numpy-feedstock" "." true true true true true
              (mock_world drone_down) idle
              [(Circle, None)] Drone
              (HTTPError (Response 500 "ciphertext" None)) [])
    as (_ & _ & _ & H & _).
  - vm_compute. reflexivity.
  - vm_compute. reflexivity.
  - exact H.
Defined.

(** C5: with [DEBUG_ANACONDA_TOKENS] defined, when an adapter raises
    [e], the call raises that very exception, class and text unchanged,
    and no later adapter has been invoked. *)
Theorem debug_mode_propagates_original_exception
    user project dir drone circle travis azure appveyor w s before p e after :
  debugging w = true ->
  invocations
    (rotate_anaconda_token user project dir
       drone circle travis azure appveyor w s).2
    = invocations s ++ before ++ (p, Some e) :: after ->
  (rotate_anaconda_token user project dir
     drone circle travis azure appveyor w s).1 = inl e /\ after = [].
Proof.
  intros Hdbg Hlog.
  destruct (rotate_failure_inversion _ _ _ _ _ _ _ _ _ _ _ _ _ _ Hlog)
    as (H1 & _ & _ & H4 & _).
  unfold passes in H4. rewrite Hdbg in H4. done.
Qed.

Lemma debug_mode_propagates_witness :
  (rotate_anaconda_token "conda-forge" "numpy-feedstock" "."
     true true true true true (mock_world drone_down_debug) idle).1
  = inl (HTTPError (Response 500 "ciphertext" None)).
Proof.
  destruct (debug_mode_propagates_original_exception
              "conda-forge" "numpy-feedstock" "." true true true true true
              (mock_world drone_down_debug) idle
              [(Circle, None)] Drone
              (HTTPError (Response 500 "ciphertext" None)) [])
    as (H & _).
  - vm_compute. reflexivity.
  - vm_compute. reflexivity.
  - exact H.
Defined.

(** C7: when [anaconda_token] cannot be imported, the call raises the
    [RuntimeError] "You must have the anaconda token defined to do token
    rotation!" and leaves the process exactly as it found it: no
    redirection was installed, no adapter was invoked, nothing was sent or
    written.  Nothing is assumed about [DEBUG_ANACONDA_TOKENS]. *)
Theorem missing_anaconda_token_is_reported_first
    user project dir drone circle travis azure appveyor w s :
  anaconda_token w = None ->
  rotate_anaconda_token user project dir drone circle travis azure appveyor w s
  = (inl (RuntimeError
            "You must have the anaconda token defined to do token rotation!"),
     s).
Proof.
  intros H. unfold rotate_anaconda_token, bind, try_except, import_name.
  by rewrite H.
Qed.

Lemma missing_anaconda_token_witness :
  rotate_anaconda_token "conda-forge" "numpy-feedstock" "."
    true true true true true (mock_world no_token_debug) idle
  = (inl (RuntimeError
            "You must have the anaconda token defined to do token rotation!"),
     idle).
Proof.
  apply (missing_anaconda_token_is_reported_first
           "conda-forge" "numpy-feedstock" "." true true true true true
           (mock_world no_token_debug) idle).
  reflexivity.
Defined.

(** ** Substrings of the synthesized message *)

Lemma is_prefix_app n rest : is_prefix n (n +:+ rest) = true.
Proof.
  induction n as [|a n IH]; simpl; [done|].
  by rewrite bool_decide_eq_true_2, IH.
Qed.

Lemma contains_prefix n hay : is_prefix n hay = true -> contains n hay = true.
Proof. intros H. destruct hay; simpl; by rewrite H. Qed.

Lemma contains_app_r pre n hay :
  contains n hay = true -> contains n (pre +:+ hay) = true.
Proof.
  intros H. induction pre as [|a pre IH]; simpl; [done|].
  rewrite IH. apply orb_true_r.
Qed.

Lemma string_app_assoc (a b c : string) : (a +:+ b) +:+ c = a +:+ b +:+ c.
Proof.
  induction a as [|x a IH]; [reflexivity|].
  change (String x ((a +:+ b) +:+ c) = String x (a +:+ b +:+ c)).
  by f_equal.
Qed.

Lemma contains_infix pre n post : contains n (pre +:+ n +:+ post) = true.
Proof. apply contains_app_r, contains_prefix, is_prefix_app. Qed.

Lemma failure_message_names_provider user project p :
  contains (provider_name p) (failure_message user project p) = true.
Proof.
  unfold failure_message.
  do 5 apply contains_app_r. apply contains_prefix, is_prefix_app.
Qed.

Lemma failure_message_names_project user project p :
  contains (user +:+ "/" +:+ project) (failure_message user project p) = true.
Proof.
  unfold failure_message. apply contains_app_r.
  replace (user +:+ "/" +:+ project +:+ " on " +:+ provider_name p +:+ "!")
    with ((user +:+ "/" +:+ project) +:+ " on " +:+ provider_name p +:+ "!").
  - apply contains_prefix, is_prefix_app.
  - by rewrite !string_app_assoc.
Qed.

(** C4, as stated, fails: the message is a fixed text around user,
    project and provider, so a token that occurs in that text occurs in
    the message.  Here the token being rotated is the string "drone" and
    drone answers the upsert with 500: the message raised contains the
    token. *)
Lemma failure_message_can_contain_the_token :
  let w := mock_world (with_token "drone" drone_down) in
  anaconda_token w = Some "drone" /\ debugging w = false /\
  (rotate_anaconda_token "conda-forge" "numpy-feedstock" "."
     true true true true true w idle).1
  = inl (RuntimeError
           "Failed to rotate token for conda-forge/numpy-feedstock on drone!") /\
  contains "drone"
    "Failed to rotate token for conda-forge/numpy-feedstock on drone!" = true.
Proof. vm_compute. repeat split; reflexivity. Qed.

(** C4, amended: without [DEBUG_ANACONDA_TOKENS], take any two calls for
    the same user and project in which the adapter of the same provider
    [p] raised an instance of [Exception]; the worlds, and with them the
    token being rotated and every answer and exception, are arbitrary and
    may differ.  Both calls raise a [RuntimeError] with one and the same
    message, "Failed to rotate token for user/project on p!"; it contains
    the name of [p] and the pair user/project.  The message is hence a
    function of user, project and provider alone: the token is not
    copied into it, and occurs in it only when it occurs in that text. *)
Theorem failure_message_independent_of_token
    user project p
    dir1 drone1 circle1 travis1 azure1 appveyor1 w1 s1 before1 e1 after1
    dir2 drone2 circle2 travis2 azure2 appveyor2 w2 s2 before2 e2 after2 :
  debugging w1 = false -> debugging w2 = false ->
  is_Exception e1 = true -> is_Exception e2 = true ->
  invocations
    (rotate_anaconda_token user project dir1
       drone1 circle1 travis1 azure1 appveyor1 w1 s1).2
    = invocations s1 ++ before1 ++ (p, Some e1) :: after1 ->
  invocations
    (rotate_anaconda_token user project dir2
       drone2 circle2 travis2 azure2 appveyor2 w2 s2).2
    = invocations s2 ++ before2 ++ (p, Some e2) :: after2 ->
  exists msg,
    (rotate_anaconda_token user project dir1
       drone1 circle1 travis1 azure1 appveyor1 w1 s1).1
      = inl (RuntimeError msg) /\
    (rotate_anaconda_token user project dir2
       drone2 circle2 travis2 azure2 appveyor2 w2 s2).1
      = inl (RuntimeError msg) /\
    msg = "Failed to rotate token for " +:+ user +:+ "/" +:+ project
          +:+ " on " +:+ provider_name p +:+ "!" /\
    contains (provider_name p) msg = true /\
    contains (user +:+ "/" +:+ project) msg = true.
Proof.
  intros D1 D2 E1 E2 L1 L2.
  apply rotate_failure_inversion in L1 as (_ & _ & _ & R1 & _).
  apply rotate_failure_inversion in L2 as (_ & _ & _ & R2 & _).
  unfold passes in R1, R2. rewrite D1, E1 in R1. rewrite D2, E2 in R2.
  exists (failure_message user project p). split; [done|]. split; [done|].
  split; [done|]. split.
  - apply failure_message_names_provider.
  - apply failure_message_names_project.
Qed.

Lemma failure_message_independent_witness :
  exists msg,
    (rotate_anaconda_token "conda-forge" "numpy-feedstock" "."
       true true true true true (mock_world drone_down) idle).1
      = inl (RuntimeError msg) /\
    (rotate_anaconda_token "conda-forge" "numpy-feedstock" "."
       true false false false false
       (mock_world (with_token "an0ther" drone_down)) idle).1
      = inl (RuntimeError msg) /\
    msg = "Failed to rotate token for conda-forge/numpy-feedstock on drone!" /\
    contains "drone" msg = true /\
    contains "conda-forge/numpy-feedstock" msg = true.
Proof.
  apply (failure_message_independent_of_token
           "conda-forge" "numpy-feedstock" Drone
           "." true true true true true (mock_world drone_down) idle
           [(Circle, None)] (HTTPError (Response 500 "ciphertext" None)) []
           "." true false false false false
           (mock_world (with_token "an0ther" drone_down)) idle
           [] (HTTPError (Response 500 "ciphertext" None)) []).
  - vm_compute. reflexivity.
  - vm_compute. reflexivity.
  - reflexivity.
  - reflexivity.
  - vm_compute. reflexivity.
  - vm_compute. reflexivity.
Defined.

(** ** Debug mode and the two streams *)

(** C2, as stated, fails: with [DEBUG_ANACONDA_TOKENS] defined, a warning
    a client library writes to [sys.stderr] during the call reaches the
    file object of the standard output (stream 1), not the one the
    diagnostic stream was bound to (stream 2): the orchestrator has
    installed [redirect_stderr(sys.stdout)]. *)
Lemma debug_mode_sends_stderr_to_stdout :
  let w := mock_world drone_down_debug in
  let s' := (rotate_anaconda_token "conda-forge" "numpy-feedstock" "."
               true true true true true w idle).2 in
  debugging w = true /\
  sys_stdout idle = Stream 1 /\ sys_stderr idle = Stream 2 /\
  redirections s' = [(Stdout, Stream 1); (Stderr, Stream 1)] /\
  delivered s'
    = [Written Stderr (Stream 1) "InsecureRequestWarning";
       Written Stderr (Stream 1) "InsecureRequestWarning";
       Written Stderr (Stream 1) "InsecureRequestWarning";
       Written Stderr (Stream 1) "InsecureRequestWarning";
       Written Stderr (Stream 1) "InsecureRequestWarning"] /\
  ~ honest_writes idle (delivered s').
Proof.
  vm_compute. repeat split; try reflexivity.
  intros H. apply Forall_cons in H as [H _]. discriminate H.
Qed.

(** C2, amended: with [DEBUG_ANACONDA_TOKENS] defined nothing is
    discarded, and every text written during the call, through
    [sys.stdout] or through [sys.stderr], reaches the file object that
    [sys.stdout] was bound to when the call began; both bindings are
    restored when it ends. *)
Theorem debug_mode_output_reaches_stdout
    user project dir drone circle travis azure appveyor w s new :
  debugging w = true ->
  delivered
    (rotate_anaconda_token user project dir
       drone circle travis azure appveyor w s).2 = delivered s ++ new ->
  Forall (fun ev => reached ev = sys_stdout s) new /\
  sys_stdout (rotate_anaconda_token user project dir
     drone circle travis azure appveyor w s).2 = sys_stdout s /\
  sys_stderr (rotate_anaconda_token user project dir
     drone circle travis azure appveyor w s).2 = sys_stderr s.
Proof.
  intros Hdbg Hnew.
  destruct (anaconda_token w) as [tok|] eqn:Htok;
    [destruct (travis_endpoint w) as [te|] eqn:Hte;
       [destruct (default_config w) as [cfg|] eqn:Hcfg|]|].
  2-4: rewrite rotate_import_failure in * by auto;
       rewrite <- (app_nil_r (delivered s)) in Hnew at 1;
       apply app_inv_head in Hnew; subst new; by repeat split.
  destruct (rotate_anaconda_token_spec user project dir
              drone circle travis azure appveyor w s)
    as (S1 & S2 & _ & [new0 [S4 S5]] & _); [by rewrite ?Htok, ?Hte, ?Hcfg..|].
  rewrite S4 in Hnew. apply app_inv_head in Hnew. subst new0.
  unfold sink in S5. rewrite Hdbg in S5. done.
Qed.

Lemma debug_mode_output_witness :
  Forall (fun ev => reached ev = Stream 1)
    (delivered
       (rotate_anaconda_token "conda-forge" "numpy-feedstock" "."
          true true true true true (mock_world drone_down_debug) idle).2).
Proof.
  apply (debug_mode_output_reaches_stdout
           "conda-forge" "numpy-feedstock" "." true true true true true
           (mock_world drone_down_debug) idle).
  - vm_compute. reflexivity.
  - reflexivity.
Defined.

(** ** Running an adapter step by step *)

Lemma sent_write_all outs s : sent (write_all outs s) = sent s.
Proof. apply write_all_spec. Qed.

Lemma forge_yml_write_all outs s : forge_yml (write_all outs s) = forge_yml s.
Proof. apply write_all_spec. Qed.

Lemma scan_names l : forall have w s,
  named_entries l = true ->
  for_each l
    (fun evar have =>
       name <- lift (py_getitem evar "name") ;;
       ret (if py_eq_str name "BINSTAR_TOKEN" then true else have)) have w s
  = (inr (have || lists_binstar l), s).
Proof.
  induction l as [|v l IH]; intros have w s Hl; simpl.
  - by rewrite orb_false_r.
  - simpl in Hl. apply andb_true_iff in Hl as [Hv Hl].
    apply bool_decide_eq_true in Hv as [n Hn].
    unfold bind at 1. unfold bind at 1, lift, ret, py_getitem.
    unfold is_binstar. destruct v; simpl in Hn; try done.
    simpl. rewrite !Hn. simpl. rewrite IH by done.
    destruct (py_eq_str n "BINSTAR_TOKEN"); simpl; [|done].
    by rewrite orb_true_r.
Qed.

Lemma scan_ids l : forall have ev_id w s,
  identified_entries l = true ->
  for_each l
    (fun ev '(have, ev_id) =>
       name <- lift (py_getitem ev "name") ;;
       if py_eq_str name "BINSTAR_TOKEN" then
         id <- lift (py_getitem ev "id") ;; ret (true, id)
       else ret (have, ev_id)) (have, ev_id) w s
  = (inr (have || lists_binstar l, captured_id l ev_id), s).
Proof.
  induction l as [|v l IH]; intros have ev_id w s Hl; simpl.
  - by rewrite orb_false_r.
  - simpl in Hl. apply andb_true_iff in Hl as [Hv Hl].
    apply andb_true_iff in Hv as [Hv Hi].
    apply bool_decide_eq_true in Hv as [n Hn].
    unfold bind at 1. unfold bind at 1, lift, ret, py_getitem.
    unfold is_binstar in *. destruct v; simpl in Hn; try done.
    simpl in *. rewrite !Hn in *. simpl.
    destruct (py_eq_str n "BINSTAR_TOKEN"); simpl in *.
    + apply bool_decide_eq_true in Hi as [i Hi].
      unfold bind. rewrite !Hi. simpl. by rewrite IH, orb_true_r.
    + by rewrite IH.
Qed.

Lemma bind_inr {A B} (m : M A) (k : A -> M B) w s a s1 :
  m w s = (inr a, s1) -> bind m k w s = k a w s1.
Proof. unfold bind. by intros ->. Qed.

Lemma bind_inl {A B} (m : M A) (k : A -> M B) w s e s1 :
  m w s = (inl e, s1) -> bind m k w s = (inl e, s1).
Proof. unfold bind. by intros ->. Qed.

Lemma import_run {A} name (f : world -> option A) w s a :
  f w = Some a -> import_name name f w s = (inr a, s).
Proof. unfold import_name. by intros ->. Qed.

Lemma local_call_run {A} (f : world -> list call -> effect A) w s outs r :
  f w (sent s) = (outs, r) -> local_call f w s = (r, write_all outs s).
Proof. unfold local_call. by intros ->. Qed.

Lemma remote_run {A} c (f : world -> list call -> effect A) w s outs r :
  f w (sent s) = (outs, r) ->
  remote c f w s = (r, write_all outs (set_sent (sent s ++ [c]) s)).
Proof. unfold remote. by intros ->. Qed.

Lemma send_run req w s outs r :
  http w (sent s) req = (outs, r) ->
  send req w s = (r, write_all outs (set_sent (sent s ++ [CHttp req]) s)).
Proof. intros H. unfold send. by apply remote_run. Qed.

Lemma status_guard_run c r w s :
  is_http_error r = false -> when c (raise_for_status r) w s = (inr tt, s).
Proof. intros H. unfold when, raise_for_status. rewrite H. by destruct c. Qed.

Lemma raise_for_status_run r w s :
  is_http_error r = false -> raise_for_status r w s = (inr tt, s).
Proof. intros H. unfold raise_for_status. by rewrite H. Qed.

Lemma response_json_run r v w s :
  json_body r = Some v -> response_json r w s = (inr v, s).
Proof. intros H. unfold response_json. by rewrite H. Qed.

Lemma lift_run {A} (r : pyresult A) a w s : r = inr a -> lift r w s = (inr a, s).
Proof. by intros ->. Qed.

Ltac run tac := erewrite bind_inr; [| tac].

Ltac settle :=
  repeat (progress (rewrite ?sent_write_all, ?forge_yml_write_all; simpl));
  rewrite <- ?app_assoc; done.

(** ** The calls of circle, drone, travis and azure *)

Lemma circle_create_run token user project tok w s :
  (bind (requests_post (circle_url token user project "") None
           (FormData [("name", PStr "BINSTAR_TOKEN"); ("value", PStr tok)]))
     (fun response =>
        if negb (status_code response =? 201)
        then raise (ValueError_response response)
        else ret tt) w s).1
  = circle_create_outcome
      (http w (sent s) (circle_create_request token user project tok)).2 /\
  sent (bind (requests_post (circle_url token user project "") None
           (FormData [("name", PStr "BINSTAR_TOKEN"); ("value", PStr tok)]))
     (fun response =>
        if negb (status_code response =? 201)
        then raise (ValueError_response response)
        else ret tt) w s).2
  = sent s ++ [CHttp (circle_create_request token user project tok)] /\
  forge_yml (bind (requests_post (circle_url token user project "") None
           (FormData [("name", PStr "BINSTAR_TOKEN"); ("value", PStr tok)]))
     (fun response =>
        if negb (status_code response =? 201)
        then raise (ValueError_response response)
        else ret tt) w s).2
  = forge_yml s.
Proof.
  unfold requests_post. fold (circle_create_request token user project tok).
  destruct (http w (sent s) (circle_create_request token user project tok))
    as [outs [e|rc]] eqn:E.
  - erewrite bind_inl by (by apply send_run). simpl.
    by rewrite sent_write_all, forge_yml_write_all.
  - erewrite bind_inr by (by apply send_run). simpl.
    destruct (status_code rc =? 201); simpl;
      by rewrite sent_write_all, forge_yml_write_all.
Qed.

(** Circle, no entry yet: the listing, then one create. *)
Lemma circle_without_entry user project tok w s token outs r l :
  circle_token w = Some token ->
  http w (sent s) (circle_list_request token user project) = (outs, inr r) ->
  is_http_error r = false ->
  json_body r = Some (PList l) ->
  named_entries l = true ->
  lists_binstar l = false ->
  (rotate_token_in_circle user project tok w s).1
    = circle_create_outcome
        (http w (sent s ++ [CHttp (circle_list_request token user project)])
           (circle_create_request token user project tok)).2 /\
  sent (rotate_token_in_circle user project tok w s).2
    = sent s ++ [CHttp (circle_list_request token user project);
                 CHttp (circle_create_request token user project tok)] /\
  forge_yml (rotate_token_in_circle user project tok w s).2 = forge_yml s.
Proof.
  intros Htok Hlist Herr Hjson Hnamed Hfresh.
  unfold rotate_token_in_circle.
  run ltac:(by apply import_run).
  run ltac:(unfold requests_get; by apply send_run).
  run ltac:(by apply status_guard_run).
  run ltac:(by apply response_json_run).
  run ltac:(by apply lift_run).
  run ltac:(by apply scan_names).
  rewrite Hfresh. simpl.
  run ltac:(reflexivity).
  match goal with
  | |- context [bind _ _ w ?s1] =>
      destruct (circle_create_run token user project tok w s1) as (R1 & R2 & R3)
  end.
  rewrite R1, R2, R3, sent_write_all, forge_yml_write_all. simpl.
  by rewrite <- app_assoc.
Qed.

Lemma status_guard_raises r w s :
  is_http_error r = true ->
  when (negb (status_code r =? 200)) (raise_for_status r) w s
  = (inl (HTTPError r), s).
Proof.
  intros H. unfold when, raise_for_status. rewrite H.
  unfold is_http_error in H. apply andb_true_iff in H as [H _].
  apply Z.leb_le in H.
  destruct (status_code r =? 200) eqn:E; [|done].
  apply Z.eqb_eq in E. lia.
Qed.


Lemma checked_send_run req (guard : response -> bool) w s :
  (forall r, is_http_error r = true -> guard r = true) ->
  (bind (send req) (fun r => when (guard r) (raise_for_status r)) w s).1
    = upsert_outcome (http w (sent s) req).2 /\
  sent (bind (send req) (fun r => when (guard r) (raise_for_status r)) w s).2
    = sent s ++ [CHttp req] /\
  forge_yml (bind (send req) (fun r => when (guard r) (raise_for_status r)) w s).2
    = forge_yml s.
Proof.
  intros Hg. destruct (http w (sent s) req) as [outs [e|r]] eqn:E.
  - erewrite bind_inl by (by apply send_run). simpl.
    by rewrite sent_write_all, forge_yml_write_all.
  - erewrite bind_inr by (by apply send_run). simpl.
    unfold when, raise_for_status.
    destruct (is_http_error r) eqn:Hr.
    + rewrite Hg by done. simpl. by rewrite sent_write_all, forge_yml_write_all.
    + destruct (guard r); simpl; by rewrite sent_write_all, forge_yml_write_all.
Qed.


Lemma not_201_when_error r : is_http_error r = true -> negb (status_code r =? 201) = true.
Proof.
  unfold is_http_error. intros H. apply andb_true_iff in H as [H _].
  apply Z.leb_le in H. apply negb_true_iff, Z.eqb_neq. lia.
Qed.

Lemma unguarded_send_run req w s :
  (bind (send req) (fun r => raise_for_status r) w s).1
    = upsert_outcome (http w (sent s) req).2 /\
  sent (bind (send req) (fun r => raise_for_status r) w s).2
    = sent s ++ [CHttp req] /\
  forge_yml (bind (send req) (fun r => raise_for_status r) w s).2
    = forge_yml s.
Proof.
  destruct (checked_send_run req (fun _ => true) w s) as (R1 & R2 & R3); [done|].
  simpl in *. done.
Qed.


(** Travis: the repository lookup, the listing, then a create when there
    is no entry and a patch addressed by the captured id when there is
    one. *)
Lemma travis_upsert user project tok w s endpoint outs0 hdrs outs1 info
    repo_id outs r reply l :
  travis_endpoint w = Some endpoint ->
  travis_headers w (sent s) = (outs0, inr hdrs) ->
  travis_get_repo_info w (sent s) user project = (outs1, inr info) ->
  py_getitem info "id" = inr repo_id ->
  http w (sent s ++ [CTravisGetRepoInfo user project])
    (travis_list_request endpoint hdrs repo_id) = (outs, inr r) ->
  is_http_error r = false ->
  json_body r = Some reply ->
  py_getitem reply "env_vars" = inr (PList l) ->
  identified_entries l = true ->
  let upsert :=
    if lists_binstar l
    then travis_update_request endpoint hdrs repo_id (captured_id l PNone) tok
    else travis_create_request endpoint hdrs repo_id tok in
  (rotate_token_in_travis user project tok w s).1
    = upsert_outcome
        (http w
           (sent s ++ [CTravisGetRepoInfo user project;
                       CHttp (travis_list_request endpoint hdrs repo_id)])
           upsert).2 /\
  sent (rotate_token_in_travis user project tok w s).2
    = sent s ++ [CTravisGetRepoInfo user project;
                 CHttp (travis_list_request endpoint hdrs repo_id);
                 CHttp upsert] /\
  forge_yml (rotate_token_in_travis user project tok w s).2 = forge_yml s.
Proof.
  intros Hep Hhdrs Hinfo Hid Hlist Herr Hjson Hvars Hl upsert.
  unfold rotate_token_in_travis.
  run ltac:(by apply import_run).
  run ltac:(by apply local_call_run).
  run ltac:(apply remote_run; rewrite sent_write_all; exact Hinfo).
  run ltac:(by apply lift_run).
  run ltac:(unfold requests_get; apply send_run;
            rewrite sent_write_all; simpl; rewrite sent_write_all;
            exact Hlist).
  run ltac:(by apply status_guard_run).
  run ltac:(by apply response_json_run).
  run ltac:(by apply lift_run).
  run ltac:(by apply lift_run).
  run ltac:(by apply scan_ids).
  simpl. subst upsert. fold (travis_data tok).
  destruct (lists_binstar l).
  - unfold requests_patch.
    fold (travis_update_request endpoint hdrs repo_id (captured_id l PNone) tok).
    match goal with
    | |- context [bind _ _ w ?s1] =>
        destruct (unguarded_send_run
                    (travis_update_request endpoint hdrs repo_id
                       (captured_id l PNone) tok) w s1)
          as (R1 & R2 & R3)
    end.
    rewrite R1, R2, R3. settle.
  - unfold requests_post.
    fold (travis_create_request endpoint hdrs repo_id tok).
    match goal with
    | |- context [bind _ _ w ?s1] =>
        destruct (checked_send_run
                    (travis_create_request endpoint hdrs repo_id tok)
                    (fun r => negb (status_code r =? 201)) w s1
                    not_201_when_error)
          as (R1 & R2 & R3)
    end.
    rewrite R1, R2, R3. settle.
Qed.

(** Azure, project registered: the lookup of the definition, then one
    update carrying the whole definition. *)
Lemma azure_update user project tok w s config outs0 outs1 ed :
  default_config w = Some config ->
  build_client w (sent s) = (outs0, inr tt) ->
  get_definitions w (sent s) (project_name config) project
    = (outs1, inr [ed]) ->
  (rotate_token_in_azure user project tok w s).1
    = (update_definition w
         (sent s ++ [CGetDefinitions (project_name config) project])
         (get_default_build_definition user project config
            (<["BINSTAR_TOKEN" := binstar_variable tok]> (definition_vars ed))
            (ed_id ed) (ed_revision ed))
         (ed_id ed) (ed_project_name ed)).2 /\
  sent (rotate_token_in_azure user project tok w s).2
    = sent s ++ [CGetDefinitions (project_name config) project;
                 azure_update_call user project config ed tok] /\
  forge_yml (rotate_token_in_azure user project tok w s).2 = forge_yml s.
Proof.
  intros Hcfg Hclient Hdefs.
  unfold rotate_token_in_azure.
  run ltac:(by apply import_run).
  run ltac:(by apply local_call_run).
  run ltac:(apply remote_run; rewrite sent_write_all; exact Hdefs).
  run ltac:(reflexivity).
  fold (definition_vars ed). fold (binstar_variable tok).
  unfold remote. rewrite sent_write_all. simpl. rewrite sent_write_all.
  destruct (update_definition _ _ _ _ _) as [outs2 r2]. settle.
Qed.

(** C9: when the provider reports no build definition for the project,
    the azure adapter raises the [RuntimeError] "Cannot add BINSTAR_TOKEN
    to a repo that is not already registerd on azure CI!"; the lookup is
    the only call it has issued (no create, no update, no registration),
    and the local configuration is untouched. *)
Theorem azure_requires_registered_project
    user project tok w s config outs0 outs1 :
  default_config w = Some config ->
  build_client w (sent s) = (outs0, inr tt) ->
  get_definitions w (sent s) (project_name config) project
    = (outs1, inr []) ->
  (rotate_token_in_azure user project tok w s).1
    = inl (RuntimeError
        "Cannot add BINSTAR_TOKEN to a repo that is not already registerd on azure CI!") /\
  sent (rotate_token_in_azure user project tok w s).2
    = sent s ++ [CGetDefinitions (project_name config) project] /\
  forge_yml (rotate_token_in_azure user project tok w s).2 = forge_yml s.
Proof.
  intros Hcfg Hclient Hdefs.
  unfold rotate_token_in_azure.
  run ltac:(by apply import_run).
  run ltac:(by apply local_call_run).
  run ltac:(apply remote_run; rewrite sent_write_all; exact Hdefs).
  erewrite bind_inl by reflexivity. settle.
Qed.

(** ** Appveyor and the local configuration *)

Lemma store_binstar_token_conforming raw top mid inner :
  utf8_valid raw = true ->
  as_mapping (top !! "appveyor") = Some mid ->
  as_mapping (mid !! "secure") = Some inner ->
  store_binstar_token raw (PDict top)
  = inr (PDict (<["appveyor" :=
                   PDict (<["secure" :=
                            PDict (<["BINSTAR_TOKEN" := PStr raw]> inner)]>
                          mid)]> top)).
Proof.
  intros Hraw Hmid Hinner.
  unfold store_binstar_token, decode_utf8. rewrite Hraw. simpl.
  destruct (top !! "appveyor") as [[]|] eqn:Ha; simpl in Hmid; simplify_eq.
  - simpl. destruct (mid !! "secure") as [[]|] eqn:Hs; simpl in Hinner;
      simplify_eq; simpl.
    + done.
    + by rewrite insert_insert_eq.
  - rewrite lookup_empty in Hinner. simpl in Hinner. simplify_eq.
    simpl. rewrite lookup_empty. simpl.
    by rewrite !insert_insert_eq.
Qed.

(** C10: when the encryption endpoint answers with a status other than
    200, the appveyor adapter raises [ValueError(response)]; the local
    configuration of every feedstock directory is as it was, and the
    encryption request is the only call issued. *)
Theorem appveyor_rejection_leaves_configuration
    dir tok w s token outs r :
  appveyor_token w = Some token ->
  http w (sent s) (appveyor_encrypt_request token tok) = (outs, inr r) ->
  status_code r <> 200 ->
  (rotate_token_in_appveyor dir tok w s).1 = inl (ValueError_response r) /\
  sent (rotate_token_in_appveyor dir tok w s).2
    = sent s ++ [CHttp (appveyor_encrypt_request token tok)] /\
  forge_yml (rotate_token_in_appveyor dir tok w s).2 = forge_yml s.
Proof.
  intros Htok Hpost Hst.
  unfold rotate_token_in_appveyor.
  run ltac:(by apply import_run).
  run ltac:(unfold requests_post; by apply send_run).
  apply Z.eqb_neq in Hst. rewrite Hst. settle.
Qed.

Lemma appveyor_stored dir tok w s token outs r code' :
  appveyor_token w = Some token ->
  http w (sent s) (appveyor_encrypt_request token tok) = (outs, inr r) ->
  status_code r = 200 ->
  store_binstar_token (content r) (default (PDict ∅) (forge_yml s !! dir))
    = inr code' ->
  (rotate_token_in_appveyor dir tok w s).1 = inr tt /\
  sent (rotate_token_in_appveyor dir tok w s).2
    = sent s ++ [CHttp (appveyor_encrypt_request token tok)] /\
  forge_yml (rotate_token_in_appveyor dir tok w s).2
    = <[dir := code']> (forge_yml s).
Proof.
  intros Htok Hpost Hst Hstore.
  unfold rotate_token_in_appveyor.
  run ltac:(by apply import_run).
  run ltac:(unfold requests_post; by apply send_run).
  rewrite Hst. simpl. unfold update_conda_forge_config.
  run ltac:(reflexivity).
  rewrite forge_yml_write_all. simpl.
  run ltac:(apply lift_run; exact Hstore).
  settle.
Qed.

Lemma azure_requires_registered_project_witness :
  (rotate_token_in_azure "conda-forge" "numpy-feedstock" "s3cr3t"
     (mock_world unregistered) idle).1
  = inl (RuntimeError
      "Cannot add BINSTAR_TOKEN to a repo that is not already registerd on azure CI!")
  /\
  sent (rotate_token_in_azure "conda-forge" "numpy-feedstock" "s3cr3t"
          (mock_world unregistered) idle).2
  = [CGetDefinitions "feedstock-builds" "numpy-feedstock"].
Proof.
  destruct (azure_requires_registered_project
              "conda-forge" "numpy-feedstock" "s3cr3t"
              (mock_world unregistered) idle
              {| project_name := "feedstock-builds" |} [] [])
    as (H1 & H2 & _); [reflexivity..|].
  split; [exact H1 | exact H2].
Defined.

Lemma appveyor_rejection_witness :
  (rotate_token_in_appveyor "." "s3cr3t" (mock_world encrypt_down) configured).1
  = inl (ValueError_response (Response 503 "ciphertext" None)) /\
  forge_yml
    (rotate_token_in_appveyor "." "s3cr3t" (mock_world encrypt_down) configured).2
  = forge_yml configured.
Proof.
  destruct (appveyor_rejection_leaves_configuration
              "." "s3cr3t" (mock_world encrypt_down) configured
              "appveyor-secret" [] (Response 503 "ciphertext" None))
    as (H1 & _ & H3); [reflexivity | reflexivity | done |].
  split; [exact H1 | exact H3].
Defined.

Lemma store_binstar_token_inversion raw code code' :
  store_binstar_token raw code = inr code' ->
  utf8_valid raw = true /\
  exists top mid inner,
    code = PDict top /\
    as_mapping (top !! "appveyor") = Some mid /\
    as_mapping (mid !! "secure") = Some inner.
Proof.
  unfold store_binstar_token, decode_utf8.
  destruct (utf8_valid raw); [|done]. intros H. split; [done|].
  destruct code as [| | | | |top]; simpl in H; try done.
  exists top.
  destruct (top !! "appveyor") as [[| | | | |mid]|] eqn:Ha; simpl in H;
    try done.
  - exists mid.
    destruct (mid !! "secure") as [[| | | | |inner]|] eqn:Hs; simpl in H;
      try done.
    + by exists inner.
    + by exists ∅.
  - exists ∅, ∅. by rewrite lookup_empty.
Qed.

Lemma appveyor_store_failed dir tok w s token outs r e :
  appveyor_token w = Some token ->
  http w (sent s) (appveyor_encrypt_request token tok) = (outs, inr r) ->
  status_code r = 200 ->
  store_binstar_token (content r) (default (PDict ∅) (forge_yml s !! dir))
    = inl e ->
  (rotate_token_in_appveyor dir tok w s).1 = inl e /\
  forge_yml (rotate_token_in_appveyor dir tok w s).2 = forge_yml s.
Proof.
  intros Htok Hpost Hst Hstore.
  unfold rotate_token_in_appveyor.
  run ltac:(by apply import_run).
  run ltac:(unfold requests_post; by apply send_run).
  rewrite Hst. simpl. unfold update_conda_forge_config.
  run ltac:(reflexivity).
  rewrite forge_yml_write_all. simpl.
  erewrite bind_inl by (unfold lift; by rewrite Hstore).
  settle.
Qed.

Lemma default_of_mapping slot top :
  as_mapping slot = Some top -> default (PDict ∅) slot = PDict top.
Proof. destruct slot as [[]|]; simpl; intros; by simplify_eq. Qed.

Lemma py_lookup_of_mapping slot top k :
  as_mapping slot = Some top -> py_lookup slot k = top !! k.
Proof.
  destruct slot as [[]|]; simpl; intros; simplify_eq;
    rewrite ?lookup_empty; done.
Qed.

(** C8, as stated, fails: an answer of 200 is not enough for the write.
    With a configuration whose [appveyor] entry holds [null], the
    encryption endpoint answers 200 with the ciphertext, the adapter
    raises [AttributeError] ([None] has no [setdefault]) and the
    configuration is left without a [BINSTAR_TOKEN]. *)
Lemma appveyor_200_without_a_write :
  let w := mock_world fresh in
  let run := rotate_token_in_appveyor "." "s3cr3t" w null_section in
  http w [] (appveyor_encrypt_request "appveyor-secret" "s3cr3t")
    = ([], inr (Response 200 "ciphertext" None)) /\
  forge_yml null_section !! "." = Some (PDict {["appveyor" := PNone]}) /\
  run.1 = inl AttributeError /\
  forge_yml run.2 = forge_yml null_section /\
  py_lookup (py_lookup (py_lookup (forge_yml run.2 !! ".") "appveyor")
               "secure") "BINSTAR_TOKEN" = None.
Proof. vm_compute. repeat split; reflexivity. Qed.

(** C8, amended: take a call in which the encryption endpoint answers
    200.  On every exit every other key is as it was: the configuration
    of every other directory, every top-level key other than [appveyor],
    every key under [appveyor] other than [secure], every key under
    [appveyor.secure] other than [BINSTAR_TOKEN].  When the adapter
    returns, the configuration holds the returned text at
    appveyor -> secure -> BINSTAR_TOKEN.  The adapter does return when
    the body is UTF-8 text and the configuration, its [appveyor] entry
    and the [secure] entry under it are mappings where present; and when
    it raises, no configuration has changed. *)
Theorem appveyor_stores_ciphertext_and_keeps_the_rest
    dir tok w s token outs r :
  appveyor_token w = Some token ->
  http w (sent s) (appveyor_encrypt_request token tok) = (outs, inr r) ->
  status_code r = 200 ->
  let before := forge_yml s !! dir in
  let after := forge_yml (rotate_token_in_appveyor dir tok w s).2 !! dir in
  (forall d, d <> dir ->
     forge_yml (rotate_token_in_appveyor dir tok w s).2 !! d
     = forge_yml s !! d) /\
  (forall k, k <> "appveyor" -> py_lookup after k = py_lookup before k) /\
  (forall k, k <> "secure" ->
     py_lookup (py_lookup after "appveyor") k
     = py_lookup (py_lookup before "appveyor") k) /\
  (forall k, k <> "BINSTAR_TOKEN" ->
     py_lookup (py_lookup (py_lookup after "appveyor") "secure") k
     = py_lookup (py_lookup (py_lookup before "appveyor") "secure") k) /\
  ((rotate_token_in_appveyor dir tok w s).1 = inr tt ->
   py_lookup (py_lookup (py_lookup after "appveyor") "secure") "BINSTAR_TOKEN"
   = Some (PStr (content r))) /\
  (utf8_valid (content r) = true -> conforming before ->
   (rotate_token_in_appveyor dir tok w s).1 = inr tt) /\
  ((rotate_token_in_appveyor dir tok w s).1 <> inr tt ->
   forge_yml (rotate_token_in_appveyor dir tok w s).2 = forge_yml s).
Proof.
  intros Htok Hpost Hst before after. subst before after.
  destruct (store_binstar_token (content r)
              (default (PDict ∅) (forge_yml s !! dir))) as [e|code'] eqn:Hstore.
  - (* the statement under the [with] raises: nothing is written *)
    destruct (appveyor_store_failed dir tok w s token outs r e
                Htok Hpost Hst Hstore) as (R1 & R3).
    rewrite R1, R3. repeat split; try done.
    intros Hutf (top & mid & inner & Htop & Hmid & Hinner).
    rewrite (default_of_mapping _ _ Htop) in Hstore.
    by rewrite (store_binstar_token_conforming _ _ _ _ Hutf Hmid Hinner)
      in Hstore.
  - destruct (appveyor_stored dir tok w s token outs r code'
                Htok Hpost Hst Hstore) as (R1 & _ & R3).
    rewrite R1, R3.
    destruct (store_binstar_token_inversion _ _ _ Hstore)
      as (Hutf & top & mid & inner & Hcode & Hmid & Hinner).
    assert (Htop : as_mapping (forge_yml s !! dir) = Some top).
    { destruct (forge_yml s !! dir) as [[]|]; simpl in *; by simplify_eq. }
    rewrite Hcode, (store_binstar_token_conforming _ _ _ _ Hutf Hmid Hinner)
      in Hstore.
    simplify_eq. rewrite lookup_insert_eq. simpl.
    rewrite !lookup_insert_eq. simpl. rewrite !lookup_insert_eq.
    repeat split; try done.
    + intros d Hd. by rewrite lookup_insert_ne.
    + intros k Hk. rewrite lookup_insert_ne by done.
      by rewrite (py_lookup_of_mapping _ _ _ Htop).
    + intros k Hk. rewrite lookup_insert_ne by done.
      rewrite (py_lookup_of_mapping _ _ "appveyor" Htop).
      by rewrite (py_lookup_of_mapping _ _ _ Hmid).
    + intros k Hk. simpl. rewrite lookup_insert_ne by done.
      rewrite (py_lookup_of_mapping _ _ "appveyor" Htop).
      rewrite (py_lookup_of_mapping _ _ "secure" Hmid).
      by rewrite (py_lookup_of_mapping _ _ _ Hinner).
    + intros _. simpl. by rewrite lookup_insert_eq.
Qed.

Lemma appveyor_stores_ciphertext_witness :
  let after :=
    forge_yml
      (rotate_token_in_appveyor "." "s3cr3t" (mock_world fresh) configured).2
      !! "." in
  (rotate_token_in_appveyor "." "s3cr3t" (mock_world fresh) configured).1
  = inr tt /\
  py_lookup (py_lookup (py_lookup after "appveyor") "secure") "BINSTAR_TOKEN"
  = Some (PStr "ciphertext") /\
  py_lookup (py_lookup (py_lookup after "appveyor") "secure") "GH_TOKEN"
  = Some (PStr "b2xkIGNpcGhlcg==") /\
  py_lookup (py_lookup after "appveyor") "image"
  = Some (PStr "Visual Studio 2017") /\
  py_lookup after "channels" = Some (PList [PStr "conda-forge"]).
Proof.
  destruct (appveyor_stores_ciphertext_and_keeps_the_rest
              "." "s3cr3t" (mock_world fresh) configured
              "appveyor-secret" [] (Response 200 "ciphertext" None))
    as (_ & Htop & Hmid & Hinner & Hkey & Hret & _).
  - reflexivity.
  - reflexivity.
  - reflexivity.
  - assert (Hr : (rotate_token_in_appveyor "." "s3cr3t" (mock_world fresh)
                    configured).1 = inr tt).
    { apply Hret; [reflexivity|].
      exists existing_config, existing_appveyor, existing_secure.
      repeat split; vm_compute; reflexivity. }
    split; [exact Hr|]. split; [exact (Hkey Hr)|].
    split; [|split].
    + rewrite (Hinner "GH_TOKEN") by done. vm_compute. reflexivity.
    + rewrite (Hmid "image") by done. vm_compute. reflexivity.
    + rewrite (Htop "channels") by done. vm_compute. reflexivity.
Defined.


(** ** Providers that already hold an entry *)

Lemma captured_id_without_entry l : forall ev_id,
  lists_binstar l = false -> captured_id l ev_id = ev_id.
Proof.
  induction l as [|v l IH]; intros ev_id H; simpl in *; [done|].
  apply orb_false_iff in H as [Hv Hl]. rewrite Hv. by apply IH.
Qed.




(** ** Providers that hold no entry yet *)








(** ** All five providers, none holding an entry *)







(** ** Worked examples *)

Example failure_message_for_drone :
  failure_message "conda-forge" "numpy-feedstock" Drone
  = "Failed to rotate token for conda-forge/numpy-feedstock on drone!".
Proof. reflexivity. Qed.

Example utf8_valid_ascii : utf8_valid "Zm9vYmFy+/=" = true.
Proof. reflexivity. Qed.

Example utf8_valid_rejects_lone_continuation :
  decode_utf8 (String (ascii_of_nat 128) EmptyString) = inl UnicodeDecodeError.
Proof. reflexivity. Qed.

Example code_points_two_byte :
  code_points (String (ascii_of_nat 195) (String (ascii_of_nat 169) "x"))
  = [String (ascii_of_nat 195) (String (ascii_of_nat 169) EmptyString); "x"].
Proof. reflexivity. Qed.

(** Circle, when the delete of the old entry is refused: no create
    follows. *)
Example circle_refused_delete_stops :
  let w :=
    {| os_environ := ∅; anaconda_token := Some "s3cr3t";
       circle_token := Some "circle-secret"; appveyor_token := None;
       travis_endpoint := None; default_config := None;
       drone_session := fun _ => quiet tt;
       travis_headers := fun _ => quiet [];
       travis_get_repo_info := fun _ _ _ => quiet PNone;
       build_client := fun _ => quiet tt;
       get_definitions := fun _ _ _ => quiet [];
       update_definition := fun _ _ _ _ => quiet tt;
       http := fun _ req =>
         match method req with
         | GET => quiet (Response 200 "" (Some (PList [old_entry])))
         | _ => quiet (Response 500 "" None)
         end |} in
  rotate_token_in_circle "conda-forge" "numpy-feedstock" "s3cr3t" w idle
  = (inl (HTTPError (Response 500 "" None)),
     set_sent
       [CHttp (circle_list_request "circle-secret" "conda-forge" "numpy-feedstock");
        CHttp (circle_delete_request "circle-secret" "conda-forge" "numpy-feedstock")]
       idle).
Proof. vm_compute. reflexivity. Qed.

(** * Further properties of the orchestrator *)

(** Without [DEBUG_ANACONDA_TOKENS], whatever is written through
    [sys.stdout] or [sys.stderr] during the call reaches the file opened
    on [os.devnull], and nothing else. *)
Theorem non_debug_output_is_discarded
    user project dir drone circle travis azure appveyor w s new :
  debugging w = false ->
  delivered
    (rotate_anaconda_token user project dir
       drone circle travis azure appveyor w s).2 = delivered s ++ new ->
  Forall (fun ev => reached ev = DevNull) new.
Proof.
  intros Hdbg Hnew.
  destruct (anaconda_token w) as [tok|] eqn:Htok;
    [destruct (travis_endpoint w) as [te|] eqn:Hte;
       [destruct (default_config w) as [cfg|] eqn:Hcfg|]|].
  2-4: rewrite rotate_import_failure in * by auto;
       rewrite <- (app_nil_r (delivered s)) in Hnew at 1;
       apply app_inv_head in Hnew; subst new; constructor.
  destruct (rotate_anaconda_token_spec user project dir
              drone circle travis azure appveyor w s)
    as (_ & _ & _ & [new0 [S4 S5]] & _); [by rewrite ?Htok, ?Hte, ?Hcfg..|].
  rewrite S4 in Hnew. apply app_inv_head in Hnew. subst new0.
  unfold sink in S5. by rewrite Hdbg in S5.
Qed.

Lemma non_debug_output_witness :
  delivered
    (rotate_anaconda_token "conda-forge" "numpy-feedstock" "."
       true true true true true (mock_world noisy) idle).2 <> [] /\
  Forall (fun ev => reached ev = DevNull)
    (delivered
       (rotate_anaconda_token "conda-forge" "numpy-feedstock" "."
          true true true true true (mock_world noisy) idle).2).
Proof.
  split; [vm_compute; discriminate|].
  apply (non_debug_output_is_discarded
           "conda-forge" "numpy-feedstock" "." true true true true true
           (mock_world noisy) idle).
  - vm_compute. reflexivity.
  - reflexivity.
Defined.

(** On every exit, normal or not, debugging or not, [sys.stdout] and
    [sys.stderr] are bound again to what they were bound to when the call
    began. *)
Theorem streams_are_restored_on_every_exit
    user project dir drone circle travis azure appveyor w s :
  sys_stdout (rotate_anaconda_token user project dir
     drone circle travis azure appveyor w s).2 = sys_stdout s /\
  sys_stderr (rotate_anaconda_token user project dir
     drone circle travis azure appveyor w s).2 = sys_stderr s.
Proof.
  destruct (anaconda_token w) as [tok|] eqn:Htok;
    [destruct (travis_endpoint w) as [te|] eqn:Hte;
       [destruct (default_config w) as [cfg|] eqn:Hcfg|]|].
  2-4: by rewrite rotate_import_failure by auto.
  destruct (rotate_anaconda_token_spec user project dir
              drone circle travis azure appveyor w s)
    as (S1 & S2 & _); [by rewrite ?Htok, ?Hte, ?Hcfg..|].
  done.
Qed.

Lemma import_failure_result user project dir
    drone circle travis azure appveyor w s :
  anaconda_token w = None \/ travis_endpoint w = None
  \/ default_config w = None ->
  (rotate_anaconda_token user project dir
     drone circle travis azure appveyor w s).1
  = inl (match anaconda_token w, travis_endpoint w with
         | None, _ =>
             RuntimeError
               "You must have the anaconda token defined to do token rotation!"
         | Some _, None => ImportError "travis_endpoint"
         | Some _, Some _ => ImportError "default_config"
         end).
Proof.
  unfold rotate_anaconda_token, bind, try_except, import_name.
  intros H.
  destruct (anaconda_token w) as [tok|]; [|done].
  destruct (travis_endpoint w) as [te|]; [|done].
  destruct (default_config w) as [cfg|]; [|done].
  by destruct H as [H|[H|H]].
Qed.

Lemma prefix_of_last_elem {A} (l : list A) (x : A) (order : list A) :
  (l ++ [x]) `prefix_of` order -> x ∈ order.
Proof.
  intros [k ->]. rewrite <- app_assoc. apply elem_of_app. right.
  apply elem_of_cons. by left.
Qed.

(** Without [DEBUG_ANACONDA_TOKENS] the call ends in one of five ways:
    it returns; or it raises the [RuntimeError] for a missing anaconda
    token, the [ImportError] of one of the two other imports, or the
    [RuntimeError] with the synthesized message of an enabled provider.
    No exception of an adapter or of a client library reaches the
    caller, unless it is not an instance of [Exception]
    ([KeyboardInterrupt], [SystemExit]): the handlers catch [Exception]
    only. *)
Theorem non_debug_outcomes
    user project dir drone circle travis azure appveyor w s :
  debugging w = false ->
  let r := (rotate_anaconda_token user project dir
              drone circle travis azure appveyor w s).1 in
  r = inr tt \/
  r = inl (RuntimeError
             "You must have the anaconda token defined to do token rotation!") \/
  r = inl (ImportError "travis_endpoint") \/
  r = inl (ImportError "default_config") \/
  (exists p, p ∈ enabled_in_order drone circle travis azure appveyor /\
             r = inl (RuntimeError (failure_message user project p))) \/
  exists e, is_Exception e = false /\ r = inl e.
Proof.
  intros Hdbg r. subst r.
  destruct (anaconda_token w) as [tok|] eqn:Htok;
    [destruct (travis_endpoint w) as [te|] eqn:Hte;
       [destruct (default_config w) as [cfg|] eqn:Hcfg|]|].
  2-4: rewrite import_failure_result by auto; rewrite ?Htok, ?Hte; auto.
  destruct (rotate_anaconda_token_spec user project dir
              drone circle travis azure appveyor w s)
    as (_ & _ & _ & _ & [log [_ S7]]); [by rewrite ?Htok, ?Hte, ?Hcfg..|].
  destruct S7 as [(-> & _) | (pre & p & e & _ & _ & L & ->)]; [by left|].
  unfold passes. rewrite Hdbg. simpl. do 4 right.
  destruct (is_Exception e) eqn:HE; simpl.
  - left. exists p. split; [|done]. by eapply prefix_of_last_elem.
  - right. by exists e.
Qed.

Lemma non_debug_outcomes_witness :
  exists p, p ∈ [Circle; Drone; Travis; Azure; Appveyor] /\
    (rotate_anaconda_token "conda-forge" "numpy-feedstock" "."
       true true true true true (mock_world drone_down) idle).1
    = inl (RuntimeError (failure_message "conda-forge" "numpy-feedstock" p)).
Proof.
  destruct (non_debug_outcomes
              "conda-forge" "numpy-feedstock" "." true true true true true
              (mock_world drone_down) idle) as [H|[H|[H|[H|[H|H]]]]].
  - vm_compute. reflexivity.
  - vm_compute in H. discriminate H.
  - vm_compute in H. discriminate H.
  - vm_compute in H. discriminate H.
  - vm_compute in H. discriminate H.
  - exact H.
  - destruct H as (e & HE & H). vm_compute in H. injection H as <-.
    discriminate HE.
Defined.

(** Without [DEBUG_ANACONDA_TOKENS] the generic message "Rotating the
    feedstock token in proviers for user/project failed! ..." is never
    the one raised: whenever [failed] is set, [err_msg] has been set
    too. *)
Theorem fallback_message_is_never_raised
    user project dir drone circle travis azure appveyor w s :
  debugging w = false ->
  (rotate_anaconda_token user project dir
     drone circle travis azure appveyor w s).1
  <> inl (RuntimeError (fallback_message user project)).
Proof.
  intros Hdbg.
  destruct (anaconda_token w) as [tok|] eqn:Htok;
    [destruct (travis_endpoint w) as [te|] eqn:Hte;
       [destruct (default_config w) as [cfg|] eqn:Hcfg|]|].
  2-4: rewrite import_failure_result by auto; rewrite ?Htok, ?Hte;
       intros H; injection H as H; discriminate H.
  destruct (rotate_anaconda_token_spec user project dir
              drone circle travis azure appveyor w s)
    as (_ & _ & _ & _ & [log [_ S7]]); [by rewrite ?Htok, ?Hte, ?Hcfg..|].
  destruct S7 as [(-> & _) | (pre & p & e & _ & _ & L & ->)]; [done|].
  unfold passes. rewrite Hdbg. simpl.
  destruct (is_Exception e) eqn:HE; simpl; intros H; injection H as H.
  - discriminate H.
  - by subst e.
Qed.

Lemma fallback_message_witness :
  (rotate_anaconda_token "conda-forge" "numpy-feedstock" "."
     true true true true true (mock_world drone_down) idle).1
  <> inl (RuntimeError (fallback_message "conda-forge" "numpy-feedstock")).
Proof.
  apply (fallback_message_is_never_raised
           "conda-forge" "numpy-feedstock" "." true true true true true
           (mock_world drone_down) idle).
  vm_compute. reflexivity.
Defined.

(** The invocation record of a call lists enabled providers only, in the
    fixed order circle, drone, travis, azure, appveyor, without gaps; when
    the call returns, every enabled provider has been invoked and every
    adapter has returned.  A disabled provider is never invoked. *)
Theorem only_enabled_providers_are_invoked
    user project dir drone circle travis azure appveyor w s :
  exists log,
    invocations (rotate_anaconda_token user project dir
                   drone circle travis azure appveyor w s).2
    = invocations s ++ log /\
    log.*1 `prefix_of` enabled_in_order drone circle travis azure appveyor /\
    ((rotate_anaconda_token user project dir
        drone circle travis azure appveyor w s).1 = inr tt ->
     log.*1 = enabled_in_order drone circle travis azure appveyor /\
     all_returned log).
Proof.
  destruct (anaconda_token w) as [tok|] eqn:Htok;
    [destruct (travis_endpoint w) as [te|] eqn:Hte;
       [destruct (default_config w) as [cfg|] eqn:Hcfg|]|].
  2-4: exists []; rewrite rotate_import_failure by auto;
       rewrite import_failure_result by auto;
       rewrite app_nil_r; (split; [done|]);
       (split; [apply prefix_nil | done]).
  destruct (rotate_anaconda_token_spec user project dir
              drone circle travis azure appveyor w s)
    as (_ & _ & _ & _ & [log [S6 S7]]); [by rewrite ?Htok, ?Hte, ?Hcfg..|].
  exists log. split; [done|].
  destruct S7 as [(-> & Hall & Hlog) | (pre & p & e & -> & _ & L & ->)].
  - by rewrite Hlog.
  - rewrite fmap_app. simpl. split; [done|]. by destruct (debugging w).
Qed.

(** The module-level imports [travis_endpoint] and [default_config] are
    made whatever providers are enabled: when one of them fails, its
    [ImportError] reaches the caller as it is, also without
    [DEBUG_ANACONDA_TOKENS], and the call has done nothing. *)
Theorem missing_import_aborts_every_rotation
    user project dir drone circle travis azure appveyor w s :
  is_Some (anaconda_token w) ->
  travis_endpoint w = None \/ default_config w = None ->
  rotate_anaconda_token user project dir
    drone circle travis azure appveyor w s
  = (inl (ImportError
            match travis_endpoint w with
            | Some _ => "default_config"
            | None => "travis_endpoint"
            end), s).
Proof.
  intros [tok Htok] H.
  rewrite (surjective_pairing (rotate_anaconda_token _ _ _ _ _ _ _ _ _ _)).
  rewrite rotate_import_failure, import_failure_result by tauto.
  rewrite Htok. by destruct (travis_endpoint w).
Qed.

Lemma missing_import_witness :
  rotate_anaconda_token "conda-forge" "numpy-feedstock" "."
    false true false false false (without_azure (mock_world fresh)) idle
  = (inl (ImportError "default_config"), idle).
Proof.
  apply (missing_import_aborts_every_rotation
           "conda-forge" "numpy-feedstock" "." false true false false false
           (without_azure (mock_world fresh)) idle).
  - by eexists.
  - by right.
Defined.

(** ** What a rotation may touch *)

Lemma extends_refl dirs s : extends dirs s s.
Proof. by split. Qed.

Lemma extends_trans dirs s1 s2 s3 :
  extends dirs s1 s2 -> extends dirs s2 s3 -> extends dirs s1 s3.
Proof.
  intros [P1 F1] [P2 F2]. split; [by etrans|].
  intros d Hd. by rewrite F2, F1.
Qed.

Lemma extends_quiet dirs s s' :
  sent s' = sent s -> forge_yml s' = forge_yml s -> extends dirs s s'.
Proof. intros Hs Hy. split; [by rewrite Hs | by rewrite Hy]. Qed.

Lemma confined_intro_same dirs {A} (m : M A) :
  (forall w s, (m w s).2 = s) -> confined dirs m.
Proof. intros H w s. rewrite H. apply extends_refl. Qed.

Lemma confined_ret dirs {A} (a : A) : confined dirs (ret a).
Proof. by apply confined_intro_same. Qed.

Lemma confined_raise dirs {A} (e : exn) : confined dirs (@raise A e).
Proof. by apply confined_intro_same. Qed.

Lemma confined_lift dirs {A} (r : pyresult A) : confined dirs (lift r).
Proof. by apply confined_intro_same. Qed.

Lemma confined_ask dirs {A} (f : world -> A) : confined dirs (ask f).
Proof. by apply confined_intro_same. Qed.

Lemma confined_get dirs {A} (f : state -> A) : confined dirs (get f).
Proof. by apply confined_intro_same. Qed.

Lemma confined_import dirs {A} name (f : world -> option A) :
  confined dirs (import_name name f).
Proof.
  apply confined_intro_same. intros w s. unfold import_name. by destruct (f w).
Qed.

Lemma confined_modify dirs (f : state -> state) :
  (forall s, sent (f s) = sent s) ->
  (forall s, forge_yml (f s) = forge_yml s) ->
  confined dirs (modify f).
Proof. intros Hs Hy w s. simpl. apply extends_quiet; [apply Hs | apply Hy]. Qed.

Lemma confined_store dirs d (v : pyval) :
  d ∈ dirs ->
  confined dirs (modify (fun s => set_forge_yml (<[d := v]> (forge_yml s)) s)).
Proof.
  intros Hd w s. split; [done|]. intros d' Hd'. simpl.
  apply lookup_insert_ne. intros ->. contradiction.
Qed.

Lemma confined_bind dirs {A B} (m : M A) (k : A -> M B) :
  confined dirs m -> (forall a, confined dirs (k a)) -> confined dirs (bind m k).
Proof.
  intros Hm Hk w s. unfold bind. specialize (Hm w s).
  destruct (m w s) as [[e|a] s1]; simpl in *; [done|].
  eapply extends_trans; [exact Hm | apply Hk].
Qed.

Lemma confined_when dirs c (m : M unit) :
  confined dirs m -> confined dirs (when c m).
Proof. intros H. destruct c; simpl; [done | apply confined_ret]. Qed.

Lemma confined_try_except dirs {A} (m : M A) (h : exn -> M A) :
  confined dirs m -> (forall e, confined dirs (h e)) ->
  confined dirs (try_except m h).
Proof.
  intros Hm Hh w s. unfold try_except. specialize (Hm w s).
  destruct (m w s) as [[e|a] s1]; simpl in *; [|done].
  destruct (is_Exception e); [|done].
  eapply extends_trans; [exact Hm | apply Hh].
Qed.

Lemma confined_local_call dirs {A} (f : world -> list call -> effect A) :
  confined dirs (local_call f).
Proof.
  intros w s. unfold local_call. destruct (f w (sent s)) as [outs r]. simpl.
  apply extends_quiet; [apply sent_write_all | apply forge_yml_write_all].
Qed.

Lemma confined_remote dirs {A} c (f : world -> list call -> effect A) :
  confined dirs (remote c f).
Proof.
  intros w s. unfold remote. destruct (f w (sent s)) as [outs r]. simpl.
  split.
  - rewrite sent_write_all. simpl. by apply prefix_app_r.
  - intros d _. by rewrite forge_yml_write_all.
Qed.

Lemma confined_for_each dirs {A V} (items : list A) (body : A -> V -> M V) :
  (forall x v, confined dirs (body x v)) ->
  forall v, confined dirs (for_each items body v).
Proof.
  intros Hb. induction items as [|x items IH]; intros v; simpl.
  - apply confined_ret.
  - apply confined_bind; [apply Hb | apply IH].
Qed.

Lemma confined_redirect_stdout dirs {A} f (m : M A) :
  confined dirs m -> confined dirs (redirect_stdout f m).
Proof.
  intros Hm w s. unfold redirect_stdout.
  match goal with
  | |- context [m w ?s1] =>
      specialize (Hm w s1); destruct (m w s1) as [r s']
  end.
  simpl in *. destruct Hm as [P F]. by split.
Qed.

Lemma confined_redirect_stderr dirs {A} f (m : M A) :
  confined dirs m -> confined dirs (redirect_stderr f m).
Proof.
  intros Hm w s. unfold redirect_stderr.
  match goal with
  | |- context [m w ?s1] =>
      specialize (Hm w s1); destruct (m w s1) as [r s']
  end.
  simpl in *. destruct Hm as [P F]. by split.
Qed.

Lemma confined_invoke dirs p (m : M unit) :
  confined dirs m -> confined dirs (invoke p m).
Proof.
  intros Hm w s. unfold invoke. specialize (Hm w s).
  destruct (m w s) as [r s']. simpl in *. destruct Hm as [P F]. by split.
Qed.

Create HintDb confined.
#[local] Hint Resolve confined_ret confined_raise confined_lift confined_ask
  confined_get confined_import confined_local_call confined_remote : confined.

Ltac confined_step :=
  match goal with
  | |- confined _ (bind _ _) => apply confined_bind; [| intros]
  | |- confined _ (when _ _) => apply confined_when
  | |- confined _ (try_except _ _) => apply confined_try_except; [| intros]
  | |- confined _ (for_each _ _ _) => apply confined_for_each; intros
  | |- confined _ (redirect_stdout _ _) => apply confined_redirect_stdout
  | |- confined _ (redirect_stderr _ _) => apply confined_redirect_stderr
  | |- confined _ (invoke _ _) => apply confined_invoke
  | |- confined _ (modify (fun s => set_forge_yml _ s)) =>
      apply confined_store; set_solver
  | |- confined _ (modify _) => apply confined_modify; done
  | |- confined _ (if ?c then _ else _) => destruct c
  | |- confined _ (match ?x with _ => _ end) => destruct x
  | |- confined _ _ => solve [auto with confined]
  end.

Lemma confined_circle user project tok :
  confined ∅ (rotate_token_in_circle user project tok).
Proof.
  unfold rotate_token_in_circle, requests_get, requests_delete, requests_post,
    send, raise_for_status, response_json.
  repeat confined_step.
Qed.

Lemma confined_drone user project tok :
  confined ∅ (rotate_token_in_drone user project tok).
Proof.
  unfold rotate_token_in_drone, session_get, session_patch, session_post,
    send, raise_for_status, response_json.
  repeat confined_step.
Qed.

Lemma confined_travis user project tok :
  confined ∅ (rotate_token_in_travis user project tok).
Proof.
  unfold rotate_token_in_travis, requests_get, requests_patch, requests_post,
    send, raise_for_status, response_json.
  repeat confined_step.
Qed.

Lemma confined_azure user project tok :
  confined ∅ (rotate_token_in_azure user project tok).
Proof. unfold rotate_token_in_azure. repeat confined_step. Qed.

Lemma confined_appveyor dir tok :
  confined {[dir]} (rotate_token_in_appveyor dir tok).
Proof.
  unfold rotate_token_in_appveyor, requests_post, update_conda_forge_config,
    send.
  repeat confined_step.
Qed.

Lemma confined_mono dirs dirs' {A} (m : M A) :
  dirs ⊆ dirs' -> confined dirs m -> confined dirs' m.
Proof.
  intros Hsub Hm w s. destruct (Hm w s) as [P F]. split; [done|].
  intros d Hd. apply F. set_solver.
Qed.

Lemma confined_attempt dirs p a user project :
  confined dirs a -> confined dirs (attempt p a user project).
Proof.
  intros Ha. unfold attempt, debug_anaconda_tokens. repeat confined_step.
Qed.

Lemma confined_sweep user project dir tok drone circle travis azure appveyor :
  confined (written_dirs appveyor dir)
    (rotate_enabled_providers user project dir tok
       drone circle travis azure appveyor).
Proof.
  unfold rotate_enabled_providers, written_dirs.
  apply confined_bind; [|intros _].
  { apply confined_when, confined_attempt.
    eapply confined_mono; [|apply confined_circle]. set_solver. }
  apply confined_bind; [|intros _].
  { apply confined_when, confined_attempt.
    eapply confined_mono; [|apply confined_drone]. set_solver. }
  apply confined_bind; [|intros _].
  { apply confined_when, confined_attempt.
    eapply confined_mono; [|apply confined_travis]. set_solver. }
  apply confined_bind; [|intros _].
  { apply confined_when, confined_attempt.
    eapply confined_mono; [|apply confined_azure]. set_solver. }
  destruct appveyor; simpl; [|apply confined_ret].
  apply confined_attempt, confined_appveyor.
Qed.

Lemma confined_rotation user project dir drone circle travis azure appveyor :
  confined (written_dirs appveyor dir)
    (rotate_anaconda_token user project dir
       drone circle travis azure appveyor).
Proof.
  unfold rotate_anaconda_token, with_open_devnull, debug_anaconda_tokens.
  apply confined_bind; [repeat confined_step|intros tok].
  apply confined_bind; [repeat confined_step|intros _].
  apply confined_bind; [repeat confined_step|intros _].
  apply confined_bind; [repeat confined_step|intros _].
  apply confined_bind; [repeat confined_step|intros _].
  apply confined_bind; [|intros _; repeat confined_step].
  apply confined_bind; [repeat confined_step|intros debug].
  apply confined_bind; [repeat confined_step|intros fpo].
  apply confined_bind; [repeat confined_step|intros fpe].
  apply confined_redirect_stdout, confined_redirect_stderr.
  apply confined_try_except; [apply confined_sweep|].
  intros e. repeat confined_step.
Qed.

(** A rotation writes the configuration of the feedstock directory it is
    given and of no other: whatever the providers answer and however the
    call ends, the configuration of every other directory is what it
    was. *)
Theorem rotation_spares_other_directories
    user project dir drone circle travis azure appveyor w s d :
  d <> dir ->
  forge_yml (rotate_anaconda_token user project dir
               drone circle travis azure appveyor w s).2 !! d
  = forge_yml s !! d.
Proof.
  intros Hd.
  destruct (confined_rotation user project dir
              drone circle travis azure appveyor w s) as [_ F].
  apply F. unfold written_dirs. destruct appveyor; set_solver.
Qed.

Lemma rotation_spares_witness :
  forge_yml (rotate_anaconda_token "conda-forge" "numpy-feedstock" "."
               true true true true true (mock_world fresh) two_feedstocks).2
    !! "../scipy-feedstock"
  = Some (PDict {["channels" := PList []]}).
Proof.
  rewrite (rotation_spares_other_directories
             "conda-forge" "numpy-feedstock" "." true true true true true
             (mock_world fresh) two_feedstocks "../scipy-feedstock").
  - vm_compute. reflexivity.
  - discriminate.
Defined.

(** Only the appveyor adapter writes to disk: with appveyor disabled no
    configuration is changed, whatever circle, drone, travis and azure
    answer and however the call ends. *)
Theorem remote_providers_leave_the_configuration
    user project dir drone circle travis azure w s :
  forge_yml (rotate_anaconda_token user project dir
               drone circle travis azure false w s).2
  = forge_yml s.
Proof.
  destruct (confined_rotation user project dir
              drone circle travis azure false w s) as [_ F].
  apply map_eq. intros d. apply F. unfold written_dirs. set_solver.
Qed.

(** The calls issued before a rotation and during it are never taken
    back: the record of calls at the end starts with the record at the
    beginning, on every exit. *)
Lemma rotation_keeps_history
    user project dir drone circle travis azure appveyor w s :
  sent s `prefix_of`
    sent (rotate_anaconda_token user project dir
            drone circle travis azure appveyor w s).2.
Proof.
  by destruct (confined_rotation user project dir
                 drone circle travis azure appveyor w s) as [P _].
Qed.

(** ** The call and its sweep *)

(** Whatever the sweep does to the providers and to the configuration is
    what the call has done: the orchestrator itself sends and stores
    nothing. *)
Lemma rotation_runs_the_sweep user project dir
    drone circle travis azure appveyor w s tok :
  anaconda_token w = Some tok -> is_Some (travis_endpoint w) ->
  is_Some (default_config w) ->
  let sweep :=
    rotate_enabled_providers user project dir tok
      drone circle travis azure appveyor w (sweep_state w s) in
  sent (rotate_anaconda_token user project dir
          drone circle travis azure appveyor w s).2 = sent sweep.2 /\
  forge_yml (rotate_anaconda_token user project dir
               drone circle travis azure appveyor w s).2 = forge_yml sweep.2 /\
  delivered (rotate_anaconda_token user project dir
               drone circle travis azure appveyor w s).2 = delivered sweep.2 /\
  (rotate_anaconda_token user project dir
     drone circle travis azure appveyor w s).1 = sweep.1.
Proof.
  intros Htok [te Hte] [cfg Hcfg] sweep. subst sweep.
  unfold rotate_anaconda_token, bind, try_except, import_name,
    with_open_devnull, debug_anaconda_tokens, ask, modify, get,
    redirect_stdout, redirect_stderr.
  rewrite Htok, Hte, Hcfg. simpl. fold (debugging w).
  unfold sweep_state, sink.
  destruct (debugging w) eqn:Hdbg; simpl.
  all: rewrite rotate_enabled_providers_steps.
  all: match goal with
       | |- context [run_steps ?u ?p ?l ?w ?s1] =>
           pose proof (run_steps_spec u p l
                         (provider_steps_tame _ _ _ _ _ _ _ _ _) w s1) as Hsw;
           destruct (run_steps u p l w s1) as [[e|[]] s2]
       end.
  all: simpl in *.
  all: try (destruct (is_Exception e) eqn:HE; simpl).
  all: try (destruct (failed s2) eqn:Hf; simpl).
  all: try (destruct (truthy (err_msg s2)) eqn:Ht; simpl).
  all: do 3 (split; [done|]).
  all: try done.
  all: destruct Hsw as (_ & _ & _ & _ & [log [_ Hsw]]).
  all: destruct Hsw as [(R & F1 & F2 & _) | (pre & p & e' & _ & _ & _ & R)];
         unfold passes in *; rewrite ?Hdbg in *; try done.
  all: simpl in *; try congruence.
  all: destruct (is_Exception e') eqn:HE'; simpl in R.
  all: destruct R as (R1 & R2 & R3); try congruence.
  all: rewrite R3 in *; rewrite ?failure_message_truthy in Ht; simpl;
       congruence.
Qed.

(** With every provider disabled the call still needs its three imports;
    given them it returns, having invoked no adapter, issued no call,
    written no output and left every configuration alone. *)
Theorem rotation_of_no_provider user project dir w s :
  is_Some (anaconda_token w) -> is_Some (travis_endpoint w) ->
  is_Some (default_config w) ->
  (rotate_anaconda_token user project dir
     false false false false false w s).1 = inr tt /\
  sent (rotate_anaconda_token user project dir
          false false false false false w s).2 = sent s /\
  delivered (rotate_anaconda_token user project dir
               false false false false false w s).2 = delivered s /\
  forge_yml (rotate_anaconda_token user project dir
               false false false false false w s).2 = forge_yml s.
Proof.
  intros [tok Htok] Hte Hcfg.
  destruct (rotation_runs_the_sweep user project dir
              false false false false false w s tok Htok Hte Hcfg)
    as (R1 & R2 & R3 & R4).
  by rewrite R1, R2, R3, R4.
Qed.

Lemma rotation_of_no_provider_witness :
  (rotate_anaconda_token "conda-forge" "numpy-feedstock" "."
     false false false false false (mock_world stocked) configured).1 = inr tt /\
  sent (rotate_anaconda_token "conda-forge" "numpy-feedstock" "."
          false false false false false (mock_world stocked) configured).2
  = [] /\
  forge_yml (rotate_anaconda_token "conda-forge" "numpy-feedstock" "."
               false false false false false (mock_world stocked) configured).2
  = {["." := PDict existing_config]}.
Proof.
  destruct (rotation_of_no_provider "conda-forge" "numpy-feedstock" "."
              (mock_world stocked) configured)
    as (R1 & R2 & _ & R4); [by eexists..|].
  done.
Defined.

(** When [ci_register] defines no [circle_token] and circle is enabled,
    the rotation ends at circle, before any call is issued and before any
    other provider is tried: the [ImportError] is reported as a circle
    failure, or raised as it is when debugging. *)
Theorem missing_circle_token_is_a_circle_failure
    user project dir drone travis azure appveyor w s :
  is_Some (anaconda_token w) -> is_Some (travis_endpoint w) ->
  is_Some (default_config w) ->
  circle_token w = None ->
  (rotate_anaconda_token user project dir
     drone true travis azure appveyor w s).1
  = inl (if debugging w then ImportError "circle_token"
         else RuntimeError (failure_message user project Circle)) /\
  sent (rotate_anaconda_token user project dir
          drone true travis azure appveyor w s).2 = sent s /\
  forge_yml (rotate_anaconda_token user project dir
               drone true travis azure appveyor w s).2 = forge_yml s.
Proof.
  intros [tok Htok] Hte Hcfg Hcircle.
  destruct (rotation_runs_the_sweep user project dir
              drone true travis azure appveyor w s tok Htok Hte Hcfg)
    as (R1 & R2 & _ & R4).
  rewrite R1, R2, R4. clear R1 R2 R4.
  unfold rotate_enabled_providers. simpl.
  assert (Hadapter :
            rotate_token_in_circle user project tok w (sweep_state w s)
            = (inl (ImportError "circle_token"), sweep_state w s)).
  { unfold rotate_token_in_circle. apply bind_inl.
    unfold import_name. by rewrite Hcircle. }
  destruct (debugging w) eqn:Hdbg.
  all: erewrite bind_inl;
         [| rewrite attempt_run, Hadapter; unfold passes; rewrite Hdbg;
            reflexivity].
  all: done.
Qed.

Lemma missing_circle_token_witness :
  (rotate_anaconda_token "conda-forge" "numpy-feedstock" "."
     true true true true true
     (without_circle_token (mock_world fresh)) idle).1
  = inl (RuntimeError
           "Failed to rotate token for conda-forge/numpy-feedstock on circle!") /\
  sent (rotate_anaconda_token "conda-forge" "numpy-feedstock" "."
          true true true true true
          (without_circle_token (mock_world fresh)) idle).2 = [].
Proof.
  destruct (missing_circle_token_is_a_circle_failure
              "conda-forge" "numpy-feedstock" "." true true true true
              (without_circle_token (mock_world fresh)) idle)
    as (R1 & R2 & _); [by eexists..| reflexivity |].
  split; [exact R1 | exact R2].
Defined.


Lemma run_steps_cons user project c p a (l : list step) :
  run_steps user project ((c, p, a) :: l)
  = (when c (attempt p a user project) ;;; run_steps user project l).
Proof. reflexivity. Qed.

Lemma sent_after_attempt p a user project w s :
  sent (attempt p a user project w s).2 = sent (a w s).2.
Proof.
  rewrite attempt_run. destruct (a w s) as [[e|[]] sa]; [|done].
  by destruct (passes w e).
Qed.



(** ** The messages *)

Lemma string_app_inv_head (a x y : string) : a +:+ x = a +:+ y -> x = y.
Proof.
  induction a as [|c a IH]; [done|].
  change (String c (a +:+ x) = String c (a +:+ y) -> x = y).
  intros H. injection H as H. by apply IH.
Qed.

(** The message names the provider that failed and no other: the
    messages of two providers differ, for every user and project, so the
    caller can tell from the message where the rotation stopped. *)
Theorem failure_message_tells_the_provider user project p q :
  failure_message user project p = failure_message user project q -> p = q.
Proof.
  unfold failure_message. intros H.
  do 5 apply string_app_inv_head in H.
  destruct p, q; try done; discriminate H.
Qed.

Lemma failure_message_tells_witness :
  failure_message "conda-forge" "numpy-feedstock" Travis
  <> failure_message "conda-forge" "numpy-feedstock" Azure.
Proof.
  intros H.
  pose proof (failure_message_tells_the_provider
                "conda-forge" "numpy-feedstock" Travis Azure H) as E.
  discriminate E.
Defined.

(** * Further properties of the adapters *)

(** ** Listings that cannot be used *)

Lemma scan_names_fails l : forall have w s,
  named_entries l = false ->
  exists e,
    for_each l
      (fun evar have =>
         name <- lift (py_getitem evar "name") ;;
         ret (if py_eq_str name "BINSTAR_TOKEN" then true else have)) have w s
    = (inl e, s).
Proof.
  induction l as [|v l IH]; intros have w s Hl; simpl in Hl; [done|].
  apply andb_false_iff in Hl as [Hv|Hl].
  - apply bool_decide_eq_false in Hv.
    simpl. unfold bind at 1. unfold bind at 1, lift, py_getitem.
    destruct v as [| | | | |d]; simpl; try by eexists.
    simpl in Hv. destruct (d !! "name") as [n|]; [|by eexists].
    destruct Hv. by eexists.
  - destruct (bool_decide (is_Some (entry_name v))) eqn:Hv.
    + apply bool_decide_eq_true in Hv as [n Hn].
      simpl. unfold bind at 1. unfold bind at 1, lift, ret, py_getitem.
      destruct v as [| | | | |d]; simpl in Hn; try done.
      rewrite Hn. simpl. by apply IH.
    + apply bool_decide_eq_false in Hv.
      simpl. unfold bind at 1. unfold bind at 1, lift, py_getitem.
      destruct v as [| | | | |d]; simpl; try by eexists.
      simpl in Hv. destruct (d !! "name") as [n|]; [|by eexists].
      destruct Hv. by eexists.
Qed.

(** Circle issues its delete and its create only after a listing it
    could read: when the listing call raises, is answered with a 4xx or
    5xx, has a body that is not JSON or that cannot be iterated, or lists
    an entry that is not an object with a name, the adapter raises and the
    listing is the only call it has issued. *)
Theorem circle_writes_only_after_a_listing user project tok w s token :
  circle_token w = Some token ->
  listed_entries (http w (sent s) (circle_list_request token user project)).2
    = None ->
  (exists e, (rotate_token_in_circle user project tok w s).1 = inl e) /\
  sent (rotate_token_in_circle user project tok w s).2
    = sent s ++ [CHttp (circle_list_request token user project)].
Proof.
  intros Htok Hnone. unfold rotate_token_in_circle.
  run ltac:(by apply import_run).
  unfold requests_get. fold (circle_list_request token user project).
  destruct (http w (sent s) (circle_list_request token user project))
    as [outs [e|r]] eqn:E; simpl in Hnone.
  { erewrite bind_inl by (by apply send_run). split; [by eexists | settle]. }
  run ltac:(by apply send_run).
  destruct (is_http_error r) eqn:Herr.
  { erewrite bind_inl by (by apply status_guard_raises).
    split; [by eexists | settle]. }
  run ltac:(by apply status_guard_run).
  destruct (json_body r) as [v|] eqn:Hj.
  2: { erewrite bind_inl by (unfold response_json; by rewrite Hj).
       split; [by eexists | settle]. }
  run ltac:(by apply response_json_run).
  destruct (py_iter v) as [e|l] eqn:Hi.
  { erewrite bind_inl by reflexivity. split; [by eexists | settle]. }
  run ltac:(by apply lift_run).
  destruct (named_entries l) eqn:Hn; [done|].
  match goal with
  | |- context [bind (for_each l ?body false) _ w ?s1] =>
      destruct (scan_names_fails l false w s1 Hn) as [e He]
  end.
  erewrite bind_inl by exact He.
  split; [by eexists | settle].
Qed.

Lemma circle_listing_witness :
  (exists e,
     (rotate_token_in_circle "conda-forge" "numpy-feedstock" "s3cr3t"
        (with_http bad_gateway (mock_world fresh)) idle).1 = inl e) /\
  sent (rotate_token_in_circle "conda-forge" "numpy-feedstock" "s3cr3t"
          (with_http bad_gateway (mock_world fresh)) idle).2
  = [CHttp (circle_list_request "circle-secret" "conda-forge"
              "numpy-feedstock")].
Proof.
  apply (circle_writes_only_after_a_listing
           "conda-forge" "numpy-feedstock" "s3cr3t"
           (with_http bad_gateway (mock_world fresh)) idle "circle-secret").
  - reflexivity.
  - reflexivity.
Defined.

(** The same for drone: the patch or the create follows a listing the
    adapter could read; otherwise the adapter raises after the listing
    call alone. *)
Theorem drone_writes_only_after_a_listing user project tok w s outs0 :
  drone_session w (sent s) = (outs0, inr tt) ->
  listed_entries (http w (sent s) (drone_list_request user project)).2 = None ->
  (exists e, (rotate_token_in_drone user project tok w s).1 = inl e) /\
  sent (rotate_token_in_drone user project tok w s).2
    = sent s ++ [CHttp (drone_list_request user project)].
Proof.
  intros Hsession Hnone. unfold rotate_token_in_drone.
  run ltac:(by apply local_call_run).
  unfold session_get. fold (drone_list_request user project).
  destruct (http w (sent s) (drone_list_request user project))
    as [outs [e|r]] eqn:E; simpl in Hnone.
  { erewrite bind_inl
      by (apply send_run; rewrite sent_write_all; exact E).
    split; [by eexists | settle]. }
  run ltac:(apply send_run; rewrite sent_write_all; exact E).
  destruct (is_http_error r) eqn:Herr.
  { erewrite bind_inl by (unfold raise_for_status; by rewrite Herr).
    split; [by eexists | settle]. }
  run ltac:(by apply raise_for_status_run).
  destruct (json_body r) as [v|] eqn:Hj.
  2: { erewrite bind_inl by (unfold response_json; by rewrite Hj).
       split; [by eexists | settle]. }
  run ltac:(by apply response_json_run).
  destruct (py_iter v) as [e|l] eqn:Hi.
  { erewrite bind_inl by reflexivity. split; [by eexists | settle]. }
  run ltac:(by apply lift_run).
  destruct (named_entries l) eqn:Hn; [done|].
  match goal with
  | |- context [bind (for_each l ?body false) _ w ?s1] =>
      destruct (scan_names_fails l false w s1 Hn) as [e He]
  end.
  erewrite bind_inl by exact He.
  split; [by eexists | settle].
Qed.

Lemma drone_listing_witness :
  (exists e,
     (rotate_token_in_drone "conda-forge" "numpy-feedstock" "s3cr3t"
        (mock_world misnamed) idle).1 = inl e) /\
  sent (rotate_token_in_drone "conda-forge" "numpy-feedstock" "s3cr3t"
          (mock_world misnamed) idle).2
  = [CHttp (drone_list_request "conda-forge" "numpy-feedstock")].
Proof.
  apply (drone_writes_only_after_a_listing
           "conda-forge" "numpy-feedstock" "s3cr3t"
           (mock_world misnamed) idle []).
  - reflexivity.
  - vm_compute. reflexivity.
Defined.

Lemma scan_ids_fails l : forall have ev_id w s,
  identified_entries l = false ->
  exists e,
    for_each l
      (fun ev '(have, ev_id) =>
         name <- lift (py_getitem ev "name") ;;
         if py_eq_str name "BINSTAR_TOKEN" then
           id <- lift (py_getitem ev "id") ;; ret (true, id)
         else ret (have, ev_id)) (have, ev_id) w s
    = (inl e, s).
Proof.
  induction l as [|v l IH]; intros have ev_id w s Hl; simpl in Hl; [done|].
  simpl. unfold bind at 1. unfold bind at 1, lift, py_getitem.
  destruct v as [| | | | |d]; simpl; try by eexists.
  unfold is_binstar in Hl. simpl in Hl.
  destruct (d !! "name") as [n|] eqn:Hn; [|by eexists].
  simpl. destruct (py_eq_str n "BINSTAR_TOKEN") eqn:Hb; simpl in *.
  - unfold bind at 1. destruct (d !! "id") as [i|] eqn:Hi; [|by eexists].
    simpl. apply IH.
    rewrite ?bool_decide_eq_true_2 in Hl by (by eexists). done.
  - apply IH.
    rewrite ?bool_decide_eq_true_2 in Hl by (by eexists). done.
Qed.

(** The same for travis: the patch or the create follows the lookup of
    the repository and a listing the adapter could read, with an id on
    every entry named [BINSTAR_TOKEN]; otherwise the adapter raises after
    the lookup and the listing call. *)
Theorem travis_writes_only_after_a_listing
    user project tok w s endpoint outs0 hdrs outs1 info repo_id :
  travis_endpoint w = Some endpoint ->
  travis_headers w (sent s) = (outs0, inr hdrs) ->
  travis_get_repo_info w (sent s) user project = (outs1, inr info) ->
  py_getitem info "id" = inr repo_id ->
  listed_env_vars
    (http w (sent s ++ [CTravisGetRepoInfo user project])
       (travis_list_request endpoint hdrs repo_id)).2 = None ->
  (exists e, (rotate_token_in_travis user project tok w s).1 = inl e) /\
  sent (rotate_token_in_travis user project tok w s).2
    = sent s ++ [CTravisGetRepoInfo user project;
                 CHttp (travis_list_request endpoint hdrs repo_id)].
Proof.
  intros Hep Hhdrs Hinfo Hid Hnone. unfold rotate_token_in_travis.
  run ltac:(by apply import_run).
  run ltac:(by apply local_call_run).
  run ltac:(apply remote_run; rewrite sent_write_all; exact Hinfo).
  run ltac:(by apply lift_run).
  unfold requests_get. fold (travis_list_request endpoint hdrs repo_id).
  destruct (http w (sent s ++ [CTravisGetRepoInfo user project])
              (travis_list_request endpoint hdrs repo_id))
    as [outs [e|r]] eqn:E; simpl in Hnone.
  { erewrite bind_inl
      by (apply send_run; rewrite sent_write_all; simpl;
          rewrite sent_write_all; exact E).
    split; [by eexists | settle]. }
  run ltac:(apply send_run; rewrite sent_write_all; simpl;
            rewrite sent_write_all; exact E).
  destruct (is_http_error r) eqn:Herr.
  { erewrite bind_inl by (by apply status_guard_raises).
    split; [by eexists | settle]. }
  run ltac:(by apply status_guard_run).
  destruct (json_body r) as [v|] eqn:Hj.
  2: { erewrite bind_inl by (unfold response_json; by rewrite Hj).
       split; [by eexists | settle]. }
  run ltac:(by apply response_json_run).
  destruct (py_getitem v "env_vars") as [e|env_vars] eqn:Hv.
  { erewrite bind_inl by reflexivity. split; [by eexists | settle]. }
  run ltac:(by apply lift_run).
  destruct (py_iter env_vars) as [e|l] eqn:Hi.
  { erewrite bind_inl by reflexivity. split; [by eexists | settle]. }
  run ltac:(by apply lift_run).
  destruct (identified_entries l) eqn:Hn; [done|].
  match goal with
  | |- context [bind (for_each l ?body (false, PNone)) _ w ?s1] =>
      destruct (scan_ids_fails l false PNone w s1 Hn) as [e He]
  end.
  erewrite bind_inl by exact He.
  split; [by eexists | settle].
Qed.

Lemma travis_listing_witness :
  (exists e,
     (rotate_token_in_travis "conda-forge" "numpy-feedstock" "s3cr3t"
        (mock_world misnamed) idle).1 = inl e) /\
  sent (rotate_token_in_travis "conda-forge" "numpy-feedstock" "s3cr3t"
          (mock_world misnamed) idle).2
  = [CTravisGetRepoInfo "conda-forge" "numpy-feedstock";
     CHttp (travis_list_request "https://api.travis-ci.com"
              [("Travis-API-Version", "3")] (PInt 7))].
Proof.
  apply (travis_writes_only_after_a_listing
           "conda-forge" "numpy-feedstock" "s3cr3t"
           (mock_world misnamed) idle "https://api.travis-ci.com"
           [] [("Travis-API-Version", "3")] [] (PDict {["id" := PInt 7]})
           (PInt 7)).
  - reflexivity.
  - reflexivity.
  - reflexivity.
  - vm_compute. reflexivity.
  - vm_compute. reflexivity.
Defined.

(** Travis needs the id of the repository before it sends anything over
    HTTP: when what [travis_get_repo_info] returns has no [id], the
    adapter raises ([KeyError] for an object without the key, [TypeError]
    for a value that is no object) and the lookup is the only call. *)
Theorem travis_needs_the_repository_id
    user project tok w s endpoint outs0 hdrs outs1 info e :
  travis_endpoint w = Some endpoint ->
  travis_headers w (sent s) = (outs0, inr hdrs) ->
  travis_get_repo_info w (sent s) user project = (outs1, inr info) ->
  py_getitem info "id" = inl e ->
  (rotate_token_in_travis user project tok w s).1 = inl e /\
  (e = KeyError "id" \/ e = TypeError) /\
  sent (rotate_token_in_travis user project tok w s).2
    = sent s ++ [CTravisGetRepoInfo user project].
Proof.
  intros Hep Hhdrs Hinfo Hid. unfold rotate_token_in_travis.
  run ltac:(by apply import_run).
  run ltac:(by apply local_call_run).
  run ltac:(apply remote_run; rewrite sent_write_all; exact Hinfo).
  erewrite bind_inl by (unfold lift; by rewrite Hid).
  split; [done|]. split; [|settle].
  unfold py_getitem in Hid.
  destruct info as [| | | | |d]; simplify_eq; auto.
  destruct (d !! "id"); simplify_eq. auto.
Qed.

Lemma travis_repository_id_witness :
  let w := with_repo_info (PDict {["message" := PStr "not found"]})
             (mock_world fresh) in
  (rotate_token_in_travis "conda-forge" "numpy-feedstock" "s3cr3t" w idle).1
  = inl (KeyError "id") /\
  sent (rotate_token_in_travis "conda-forge" "numpy-feedstock" "s3cr3t"
          w idle).2
  = [CTravisGetRepoInfo "conda-forge" "numpy-feedstock"].
Proof.
  intros w.
  destruct (travis_needs_the_repository_id
              "conda-forge" "numpy-feedstock" "s3cr3t" w idle
              "https://api.travis-ci.com" [] [("Travis-API-Version", "3")]
              [] (PDict {["message" := PStr "not found"]}) (KeyError "id"))
    as (R1 & _ & R3).
  - reflexivity.
  - reflexivity.
  - reflexivity.
  - vm_compute. reflexivity.
  - split; [exact R1 | exact R3].
Defined.

Lemma captured_id_app pre post : forall ev_id,
  captured_id (pre ++ post) ev_id = captured_id post (captured_id pre ev_id).
Proof.
  induction pre as [|v pre IH]; intros ev_id; simpl; [done|]. apply IH.
Qed.

Lemma lists_binstar_app pre post :
  lists_binstar (pre ++ post) = lists_binstar pre || lists_binstar post.
Proof. unfold lists_binstar. apply existsb_app. Qed.

(** When travis lists several entries named [BINSTAR_TOKEN], the adapter
    patches one of them, the last of the listing, and sends nothing for
    the others: they keep their old value. *)
Theorem travis_patches_the_last_duplicate
    user project tok w s endpoint hdrs repo_id pre ev post ev_id :
  travis_reports w (sent s) user project endpoint hdrs repo_id
    (pre ++ ev :: post) ->
  is_binstar ev = true -> entry_id ev = Some ev_id ->
  lists_binstar post = false ->
  sent (rotate_token_in_travis user project tok w s).2
  = sent s ++
    [CTravisGetRepoInfo user project;
     CHttp (travis_list_request endpoint hdrs repo_id);
     CHttp (travis_update_request endpoint hdrs repo_id ev_id tok)].
Proof.
  intros (Hep & (outs0 & Hhdrs) & (outs1 & info & Hinfo & Hid)
          & outs & r & reply & Hlist & Herr & Hjson & Hvars & Hident)
    Hev Hevid Hpost.
  destruct (travis_upsert user project tok w s _ _ _ _ _ _ _ _ _ _
              Hep Hhdrs Hinfo Hid Hlist Herr Hjson Hvars Hident)
    as (_ & R & _).
  rewrite R. clear R.
  rewrite lists_binstar_app. simpl. rewrite Hev, orb_true_r.
  rewrite captured_id_app. simpl. rewrite Hev, Hevid. simpl.
  by rewrite captured_id_without_entry.
Qed.

Lemma travis_last_duplicate_witness :
  sent (rotate_token_in_travis "conda-forge" "numpy-feedstock" "s3cr3t"
          (mock_world duplicated) idle).2
  = [CTravisGetRepoInfo "conda-forge" "numpy-feedstock";
     CHttp (travis_list_request "https://api.travis-ci.com"
              [("Travis-API-Version", "3")] (PInt 7));
     CHttp (travis_update_request "https://api.travis-ci.com"
              [("Travis-API-Version", "3")] (PInt 7) (PStr "0f3a9c")
              "s3cr3t")].
Proof.
  apply (travis_patches_the_last_duplicate
           "conda-forge" "numpy-feedstock" "s3cr3t" (mock_world duplicated)
           idle "https://api.travis-ci.com" [("Travis-API-Version", "3")]
           (PInt 7) [older_entry; other_entry] old_entry [other_entry]
           (PStr "0f3a9c")).
  - split; [reflexivity|]. split; [by exists []|]. split.
    + exists [], (PDict {["id" := PInt 7]}). split; [reflexivity|].
      vm_compute. reflexivity.
    + exists [], (Response 200 "ciphertext"
                    (Some (PDict {["env_vars" :=
                                     PList [older_entry; other_entry;
                                            old_entry; other_entry]]}))),
        (PDict {["env_vars" :=
                   PList [older_entry; other_entry; old_entry; other_entry]]}).
      repeat split; vm_compute; reflexivity.
  - vm_compute. reflexivity.
  - vm_compute. reflexivity.
  - vm_compute. reflexivity.
Defined.

(** ** Which answers count as success *)

(** Circle's create must be answered with 201 exactly: any other status,
    200 and 204 included, makes the adapter raise [ValueError] with the
    response, after the create has been sent. *)
Theorem circle_create_requires_201
    user project tok w s token l outs r :
  circle_reports w (sent s) token user project l ->
  lists_binstar l = false ->
  http w (sent s ++ [CHttp (circle_list_request token user project)])
    (circle_create_request token user project tok) = (outs, inr r) ->
  status_code r <> 201 ->
  (rotate_token_in_circle user project tok w s).1
    = inl (ValueError_response r) /\
  sent (rotate_token_in_circle user project tok w s).2
    = sent s ++ [CHttp (circle_list_request token user project);
                 CHttp (circle_create_request token user project tok)].
Proof.
  intros (Htok & outs0 & r0 & Hlist & Herr & Hjson & Hnamed) Hl Hpost Hst.
  destruct (circle_without_entry user project tok w s _ _ _ _
              Htok Hlist Herr Hjson Hnamed Hl) as (R1 & R2 & _).
  split; [|done].
  rewrite R1, Hpost. simpl.
  by destruct (Z.eqb_spec (status_code r) 201).
Qed.

Lemma circle_create_witness :
  let w := with_http circle_always_200 (mock_world fresh) in
  (rotate_token_in_circle "conda-forge" "numpy-feedstock" "s3cr3t" w idle).1
  = inl (ValueError_response (Response 200 "ok" (Some (PList [])))).
Proof.
  intros w.
  destruct (circle_create_requires_201
              "conda-forge" "numpy-feedstock" "s3cr3t" w idle "circle-secret"
              [] [] (Response 200 "ok" (Some (PList [])))) as [R _].
  - split; [reflexivity|].
    exists [], (Response 200 "ok" (Some (PList []))).
    repeat split; reflexivity.
  - reflexivity.
  - reflexivity.
  - simpl. lia.
  - exact R.
Defined.

(** Travis does not insist on 201: its create is followed by
    [raise_for_status] only, so the adapter returns for every answer that
    is not a 4xx or 5xx, and raises [HTTPError] for those. *)
Theorem travis_create_accepts_every_non_error_status
    user project tok w s endpoint hdrs repo_id l outs r :
  travis_reports w (sent s) user project endpoint hdrs repo_id l ->
  lists_binstar l = false ->
  http w (sent s ++ [CTravisGetRepoInfo user project;
                     CHttp (travis_list_request endpoint hdrs repo_id)])
    (travis_create_request endpoint hdrs repo_id tok) = (outs, inr r) ->
  (rotate_token_in_travis user project tok w s).1
  = if is_http_error r then inl (HTTPError r) else inr tt.
Proof.
  intros (Hep & (outs0 & Hhdrs) & (outs1 & info & Hinfo & Hid)
          & outs2 & r2 & reply & Hlist & Herr & Hjson & Hvars & Hident)
    Hl Hpost.
  destruct (travis_upsert user project tok w s _ _ _ _ _ _ _ _ _ _
              Hep Hhdrs Hinfo Hid Hlist Herr Hjson Hvars Hident)
    as (R & _).
  rewrite R, Hl, Hpost. done.
Qed.

Lemma travis_create_witness :
  let w := with_http always_200 (mock_world fresh) in
  (rotate_token_in_travis "conda-forge" "numpy-feedstock" "s3cr3t" w idle).1
  = inr tt.
Proof.
  intros w.
  rewrite (travis_create_accepts_every_non_error_status
             "conda-forge" "numpy-feedstock" "s3cr3t" w idle
             "https://api.travis-ci.com" [("Travis-API-Version", "3")]
             (PInt 7) [] [] (Response 200 "ok" (Some PNone))).
  - reflexivity.
  - split; [reflexivity|]. split; [by exists []|]. split.
    + exists [], (PDict {["id" := PInt 7]}). split; [reflexivity|].
      vm_compute. reflexivity.
    + exists [], (Response 200 "ok" (Some (PDict {["env_vars" := PList []]}))),
        (PDict {["env_vars" := PList []]}).
      repeat split; vm_compute; reflexivity.
  - reflexivity.
  - reflexivity.
Defined.

(** ** Azure *)

(** Azure updates a definition only when the lookup returns exactly one:
    with none the adapter raises the [RuntimeError], with two or more the
    [assert] fails (assertions enabled); either way the lookup is the only
    call and no definition is touched. *)
Theorem azure_updates_only_an_unambiguous_definition
    user project tok w s config outs0 outs1 defs :
  default_config w = Some config ->
  build_client w (sent s) = (outs0, inr tt) ->
  get_definitions w (sent s) (project_name config) project
    = (outs1, inr defs) ->
  length defs <> 1%nat ->
  (rotate_token_in_azure user project tok w s).1
    = inl (match defs with
           | [] =>
               RuntimeError
                 "Cannot add BINSTAR_TOKEN to a repo that is not already registerd on azure CI!"
           | _ :: _ => AssertionError
           end) /\
  sent (rotate_token_in_azure user project tok w s).2
    = sent s ++ [CGetDefinitions (project_name config) project].
Proof.
  intros Hcfg Hclient Hdefs Hlen.
  unfold rotate_token_in_azure.
  run ltac:(by apply import_run).
  run ltac:(by apply local_call_run).
  run ltac:(apply remote_run; rewrite sent_write_all; exact Hdefs).
  destruct defs as [|ed [|ed' rest]]; [| done |].
  - erewrite bind_inl by reflexivity. split; [done | settle].
  - erewrite bind_inl by reflexivity. split; [done | settle].
Qed.

Lemma azure_ambiguous_witness :
  (rotate_token_in_azure "conda-forge" "numpy-feedstock" "s3cr3t"
     (mock_world ambiguous) idle).1 = inl AssertionError /\
  sent (rotate_token_in_azure "conda-forge" "numpy-feedstock" "s3cr3t"
          (mock_world ambiguous) idle).2
  = [CGetDefinitions "feedstock-builds" "numpy-feedstock"].
Proof.
  apply (azure_updates_only_an_unambiguous_definition
           "conda-forge" "numpy-feedstock" "s3cr3t" (mock_world ambiguous)
           idle {| project_name := "feedstock-builds" |} [] []
           [registered_definition; stocked_definition]).
  - reflexivity.
  - reflexivity.
  - reflexivity.
  - simpl. lia.
Defined.

(** A definition that has no [variables] attribute, or has it set to
    [None], is submitted with exactly one variable, [BINSTAR_TOKEN],
    secret and not overridable, under the id, the revision and the
    project name of the fetched definition. *)
Theorem azure_starts_the_variables
    user project tok w s config outs0 outs1 ed :
  default_config w = Some config ->
  build_client w (sent s) = (outs0, inr tt) ->
  get_definitions w (sent s) (project_name config) project
    = (outs1, inr [ed]) ->
  ed_variables ed = NoAttribute \/ ed_variables ed = IsNone ->
  sent (rotate_token_in_azure user project tok w s).2
  = sent s ++
    [CGetDefinitions (project_name config) project;
     CUpdateDefinition
       (get_default_build_definition user project config
          {["BINSTAR_TOKEN" :=
              {| allow_override := false; is_secret := true;
                 value := Some tok |}]}
          (ed_id ed) (ed_revision ed))
       (ed_id ed) (ed_project_name ed)].
Proof.
  intros Hcfg Hclient Hdefs Hvars.
  destruct (azure_update user project tok w s _ _ _ _ Hcfg Hclient Hdefs)
    as (_ & R & _).
  rewrite R. unfold azure_update_call, definition_vars, binstar_variable.
  by destruct Hvars as [-> | ->].
Qed.

Lemma azure_starts_the_variables_witness :
  sent (rotate_token_in_azure "conda-forge" "numpy-feedstock" "s3cr3t"
          (mock_world fresh) idle).2
  = [CGetDefinitions "feedstock-builds" "numpy-feedstock";
     CUpdateDefinition
       (get_default_build_definition "conda-forge" "numpy-feedstock"
          {| project_name := "feedstock-builds" |}
          {["BINSTAR_TOKEN" :=
              {| allow_override := false; is_secret := true;
                 value := Some "s3cr3t" |}]}
          11 3)
       11 "feedstock-builds"].
Proof.
  apply (azure_starts_the_variables
           "conda-forge" "numpy-feedstock" "s3cr3t" (mock_world fresh) idle
           {| project_name := "feedstock-builds" |} [] []
           registered_definition).
  - reflexivity.
  - reflexivity.
  - reflexivity.
  - by right.
Defined.

(** ** Appveyor *)

(** An answer of 200 whose body is not UTF-8 makes the adapter raise
    [UnicodeDecodeError]: the right-hand side of the assignment is
    evaluated before [setdefault] touches the configuration, which stays
    as it was, for every directory. *)
Theorem appveyor_undecodable_answer dir tok w s token outs r :
  appveyor_token w = Some token ->
  http w (sent s) (appveyor_encrypt_request token tok) = (outs, inr r) ->
  status_code r = 200 ->
  utf8_valid (content r) = false ->
  (rotate_token_in_appveyor dir tok w s).1 = inl UnicodeDecodeError /\
  forge_yml (rotate_token_in_appveyor dir tok w s).2 = forge_yml s.
Proof.
  intros Htok Hpost Hst Hutf.
  apply (appveyor_store_failed dir tok w s token outs r); try done.
  unfold store_binstar_token, decode_utf8. by rewrite Hutf.
Qed.

Lemma appveyor_undecodable_witness :
  let w := with_http undecodable (mock_world fresh) in
  (rotate_token_in_appveyor "." "s3cr3t" w null_section).1
  = inl UnicodeDecodeError /\
  forge_yml (rotate_token_in_appveyor "." "s3cr3t" w null_section).2
  = forge_yml null_section.
Proof.
  intros w.
  apply (appveyor_undecodable_answer "." "s3cr3t" w null_section
           "appveyor-secret" []
           (Response 200 (String (ascii_of_nat 255) "ciphertext") None)).
  - reflexivity.
  - reflexivity.
  - reflexivity.
  - reflexivity.
Defined.

(** A feedstock without a configuration gets one that holds the
    ciphertext and nothing else:
    [{appveyor: {secure: {BINSTAR_TOKEN: <text>}}}]. *)
Theorem appveyor_creates_the_configuration dir tok w s token outs r :
  appveyor_token w = Some token ->
  http w (sent s) (appveyor_encrypt_request token tok) = (outs, inr r) ->
  status_code r = 200 ->
  utf8_valid (content r) = true ->
  forge_yml s !! dir = None ->
  (rotate_token_in_appveyor dir tok w s).1 = inr tt /\
  forge_yml (rotate_token_in_appveyor dir tok w s).2
    = <[dir := secure_only (content r)]> (forge_yml s).
Proof.
  intros Htok Hpost Hst Hutf Hnone.
  destruct (appveyor_stored dir tok w s token outs r
              (secure_only (content r)) Htok Hpost Hst) as (R1 & _ & R3);
    [|done].
  rewrite Hnone. simpl.
  by rewrite (store_binstar_token_conforming (content r) ∅ ∅ ∅).
Qed.

Lemma appveyor_creates_witness :
  (rotate_token_in_appveyor "." "s3cr3t" (mock_world fresh) idle).1 = inr tt /\
  forge_yml (rotate_token_in_appveyor "." "s3cr3t" (mock_world fresh) idle).2
  = {["." := secure_only "ciphertext"]}.
Proof.
  apply (appveyor_creates_the_configuration "." "s3cr3t" (mock_world fresh)
           idle "appveyor-secret" [] (Response 200 "ciphertext" None)).
  - reflexivity.
  - reflexivity.
  - reflexivity.
  - reflexivity.
  - reflexivity.
Defined.

Lemma appveyor_returned_inversion dir tok w s token outs r :
  appveyor_token w = Some token ->
  http w (sent s) (appveyor_encrypt_request token tok) = (outs, inr r) ->
  status_code r = 200 ->
  (rotate_token_in_appveyor dir tok w s).1 = inr tt ->
  exists top mid inner,
    utf8_valid (content r) = true /\
    default (PDict ∅) (forge_yml s !! dir) = PDict top /\
    as_mapping (top !! "appveyor") = Some mid /\
    as_mapping (mid !! "secure") = Some inner /\
    forge_yml (rotate_token_in_appveyor dir tok w s).2
    = <[dir :=
          PDict (<["appveyor" :=
                     PDict (<["secure" :=
                                PDict (<["BINSTAR_TOKEN" := PStr (content r)]>
                                         inner)]> mid)]> top)]> (forge_yml s).
Proof.
  intros Htok Hpost Hst Hret.
  destruct (store_binstar_token (content r)
              (default (PDict ∅) (forge_yml s !! dir))) as [e|code'] eqn:Hstore.
  - destruct (appveyor_store_failed dir tok w s token outs r e
                Htok Hpost Hst Hstore) as (R1 & _).
    congruence.
  - destruct (appveyor_stored dir tok w s token outs r code'
                Htok Hpost Hst Hstore) as (_ & _ & R3).
    destruct (store_binstar_token_inversion _ _ _ Hstore)
      as (Hutf & top & mid & inner & Hcode & Hmid & Hinner).
    exists top, mid, inner. repeat split; try done.
    rewrite Hcode, (store_binstar_token_conforming _ _ _ _ Hutf Hmid Hinner)
      in Hstore.
    by simplify_eq.
Qed.

(** Rotating twice is rotating once: after a rotation that returned, a
    second one whose request is answered with 200 and UTF-8 text returns
    too (the configuration it finds has the shape it needs), and the
    configuration it leaves is the one it would have left had the first
    rotation not taken place.  No ciphertext piles up. *)
Theorem appveyor_second_rotation_overwrites
    dir tok1 tok2 w s token outs1 r1 outs2 r2 :
  appveyor_token w = Some token ->
  http w (sent s) (appveyor_encrypt_request token tok1) = (outs1, inr r1) ->
  status_code r1 = 200 ->
  (rotate_token_in_appveyor dir tok1 w s).1 = inr tt ->
  http w (sent (rotate_token_in_appveyor dir tok1 w s).2)
    (appveyor_encrypt_request token tok2) = (outs2, inr r2) ->
  status_code r2 = 200 ->
  utf8_valid (content r2) = true ->
  exists code,
    store_binstar_token (content r2) (default (PDict ∅) (forge_yml s !! dir))
      = inr code /\
    (rotate_token_in_appveyor dir tok2 w
       (rotate_token_in_appveyor dir tok1 w s).2).1 = inr tt /\
    forge_yml (rotate_token_in_appveyor dir tok2 w
                 (rotate_token_in_appveyor dir tok1 w s).2).2
    = <[dir := code]> (forge_yml s).
Proof.
  intros Htok Hpost1 Hst1 Hret1 Hpost2 Hst2 Hutf2.
  destruct (appveyor_returned_inversion dir tok1 w s token outs1 r1
              Htok Hpost1 Hst1 Hret1)
    as (top & mid & inner & _ & Hcode & Hmid & Hinner & Hy1).
  set (s1 := (rotate_token_in_appveyor dir tok1 w s).2) in *.
  eexists. split.
  { rewrite Hcode. by apply store_binstar_token_conforming. }
  destruct (appveyor_stored dir tok2 w s1 token outs2 r2
              (PDict (<["appveyor" :=
                          PDict (<["secure" :=
                                     PDict (<["BINSTAR_TOKEN" :=
                                                PStr (content r2)]> inner)]>
                                   mid)]> top))
              Htok Hpost2 Hst2) as (R1 & _ & R3).
  { rewrite Hy1, lookup_insert_eq. simpl.
   erewrite store_binstar_token_conforming;
     [| done | by rewrite lookup_insert_eq | by rewrite lookup_insert_eq].
   by rewrite !insert_insert_eq. }
  split; [done|]. by rewrite R3, Hy1, insert_insert_eq.
Qed.

Lemma appveyor_second_rotation_witness :
  let w := with_http fresh_ciphertexts (mock_world fresh) in
  forge_yml (rotate_token_in_appveyor "." "n3wer" w
               (rotate_token_in_appveyor "." "s3cr3t" w idle).2).2
  = {["." := secure_only "second-ciphertext"]}.
Proof.
  intros w.
  destruct (appveyor_second_rotation_overwrites
              "." "s3cr3t" "n3wer" w idle "appveyor-secret"
              [] (Response 200 "first-ciphertext" None)
              [] (Response 200 "second-ciphertext" None))
    as (code & Hcode & _ & Hy).
  - reflexivity.
  - reflexivity.
  - reflexivity.
  - vm_compute. reflexivity.
  - vm_compute. reflexivity.
  - reflexivity.
  - reflexivity.
  - rewrite Hy. vm_compute in Hcode. injection Hcode as <-.
    vm_compute. reflexivity.
Defined.

(** * The debug flag *)

Lemma shown_write_all outs s : shown (write_all outs s) = shown s ++ outs.
Proof.
  unfold shown. destruct (write_all_spec outs s) as (_ & _ & _ & ->).
  rewrite fmap_app. f_equal.
  induction outs as [|[st t] outs IH]; [done|].
  simpl. f_equal. exact IH.
Qed.

Lemma alike_refl s : alike s s.
Proof. by repeat split. Qed.

Lemma alike_write_all outs s1 s2 :
  alike s1 s2 -> alike (write_all outs s1) (write_all outs s2).
Proof.
  intros (Hs & Hy & Hd). unfold alike.
  rewrite !sent_write_all, !forge_yml_write_all, !shown_write_all.
  by rewrite Hs, Hy, Hd.
Qed.

Lemma blind_intro_same {A} (m : M A) :
  (forall w s, (m w s).2 = s) ->
  (forall env w s1 s2, alike s1 s2 ->
     (m w s1).1 = (m (with_environ env w) s2).1) ->
  blind m.
Proof. intros Hs Hr env w s1 s2 Hal. rewrite !Hs. split; [by apply Hr | done]. Qed.

Lemma blind_ret {A} (a : A) : blind (ret a).
Proof. by apply blind_intro_same. Qed.

Lemma blind_raise {A} (e : exn) : blind (@raise A e).
Proof. by apply blind_intro_same. Qed.

Lemma blind_lift {A} (r : pyresult A) : blind (lift r).
Proof. by apply blind_intro_same. Qed.

Lemma blind_get_forge_yml : blind (get forge_yml).
Proof.
  apply blind_intro_same; [done|]. intros env w s1 s2 (_ & Hy & _). simpl.
  by rewrite Hy.
Qed.

Lemma blind_import {A} name (f : world -> option A) :
  (forall env w, f (with_environ env w) = f w) ->
  blind (import_name name f).
Proof.
  intros Hf env w s1 s2 Hal. unfold import_name. rewrite Hf.
  by destruct (f w).
Qed.

Lemma blind_bind {A B} (m : M A) (k : A -> M B) :
  blind m -> (forall a, blind (k a)) -> blind (bind m k).
Proof.
  intros Hm Hk env w s1 s2 Hal. unfold bind.
  destruct (Hm env w s1 s2 Hal) as [Hr Hal'].
  destruct (m w s1) as [r1 s1'], (m (with_environ env w) s2) as [r2 s2'].
  simpl in *. subst r2. destruct r1 as [e|a]; [done|].
  by apply Hk.
Qed.

Lemma blind_when c (m : M unit) : blind m -> blind (when c m).
Proof. intros H. destruct c; simpl; [done | apply blind_ret]. Qed.

Lemma blind_for_each {A V} (items : list A) (body : A -> V -> M V) :
  (forall x v, blind (body x v)) -> forall v, blind (for_each items body v).
Proof.
  intros Hb. induction items as [|x items IH]; intros v; simpl.
  - apply blind_ret.
  - apply blind_bind; [apply Hb | apply IH].
Qed.

Lemma blind_local_call {A} (f : world -> list call -> effect A) :
  (forall env w history, f (with_environ env w) history = f w history) ->
  blind (local_call f).
Proof.
  intros Hf env w s1 s2 Hal. unfold local_call. rewrite Hf.
  destruct Hal as (Hs & Hy & Hd). rewrite <- Hs.
  destruct (f w (sent s1)) as [outs r]. simpl.
  split; [done|]. by apply alike_write_all.
Qed.

Lemma blind_remote {A} c (f : world -> list call -> effect A) :
  (forall env w history, f (with_environ env w) history = f w history) ->
  blind (remote c f).
Proof.
  intros Hf env w s1 s2 Hal. unfold remote. rewrite Hf.
  destruct Hal as (Hs & Hy & Hd). rewrite <- Hs.
  destruct (f w (sent s1)) as [outs r]. simpl.
  split; [done|]. apply alike_write_all.
  by repeat split.
Qed.

Lemma blind_store d (v : pyval) :
  blind (modify (fun s => set_forge_yml (<[d := v]> (forge_yml s)) s)).
Proof.
  intros env w s1 s2 (Hs & Hy & Hd). simpl. split; [done|].
  repeat split; simpl; [done | by rewrite Hy | done].
Qed.

Create HintDb blind.
#[local] Hint Resolve blind_ret blind_raise blind_lift blind_get_forge_yml
  blind_store : blind.

Ltac blind_step :=
  match goal with
  | |- blind (bind _ _) => apply blind_bind; [| intros]
  | |- blind (when _ _) => apply blind_when
  | |- blind (for_each _ _ _) => apply blind_for_each; intros
  | |- blind (import_name _ _) => apply blind_import; reflexivity
  | |- blind (local_call _) => apply blind_local_call; reflexivity
  | |- blind (remote _ _) => apply blind_remote; reflexivity
  | |- blind (if ?c then _ else _) => destruct c
  | |- blind (match ?x with _ => _ end) => destruct x
  | |- blind _ => solve [auto with blind]
  end.

Lemma blind_circle user project tok :
  blind (rotate_token_in_circle user project tok).
Proof.
  unfold rotate_token_in_circle, requests_get, requests_delete, requests_post,
    send, raise_for_status, response_json.
  repeat blind_step.
Qed.

Lemma blind_drone user project tok :
  blind (rotate_token_in_drone user project tok).
Proof.
  unfold rotate_token_in_drone, session_get, session_patch, session_post,
    send, raise_for_status, response_json.
  repeat blind_step.
Qed.

Lemma blind_travis user project tok :
  blind (rotate_token_in_travis user project tok).
Proof.
  unfold rotate_token_in_travis, requests_get, requests_patch, requests_post,
    send, raise_for_status, response_json.
  repeat blind_step.
Qed.

Lemma blind_azure user project tok :
  blind (rotate_token_in_azure user project tok).
Proof. unfold rotate_token_in_azure. repeat blind_step. Qed.

Lemma blind_appveyor dir tok : blind (rotate_token_in_appveyor dir tok).
Proof.
  unfold rotate_token_in_appveyor, requests_post, update_conda_forge_config,
    send.
  repeat blind_step.
Qed.

Lemma run_steps_alike user project (l : list step) :
  Forall (fun st : step => blind st.2) l ->
  forall env w s1 s2,
    alike s1 s2 ->
    alike (run_steps user project l w s1).2
          (run_steps user project l (with_environ env w) s2).2 /\
    ((run_steps user project l w s1).1 = inr tt <->
     (run_steps user project l (with_environ env w) s2).1 = inr tt).
Proof.
  induction 1 as [|[[c p] a] l Ha _ IH]; intros env w s1 s2 Hal; [done|].
  rewrite !run_steps_cons. simpl in Ha. destruct c; simpl.
  - unfold bind. rewrite !attempt_run.
    destruct (Ha env w s1 s2 Hal) as [Hr Hal'].
    destruct (a w s1) as [r1 s1'], (a (with_environ env w) s2) as [r2 s2'].
    simpl in *. subst r2. destruct r1 as [e|[]].
    + destruct (passes w e), (passes (with_environ env w) e); simpl;
        (split; [exact Hal' | done]).
    + apply IH. exact Hal'.
  - unfold bind. simpl. by apply IH.
Qed.

(** Setting or unsetting [DEBUG_ANACONDA_TOKENS] changes what the caller
    sees, not what is done: with the same collaborators under any other
    environment, the call issues the same calls in the same order, leaves
    the same configurations, writes the same text through the same
    stream names, and returns exactly when it returned before. *)
Theorem debug_flag_changes_nothing_that_is_done
    user project dir drone circle travis azure appveyor w s env :
  alike
    (rotate_anaconda_token user project dir
       drone circle travis azure appveyor w s).2
    (rotate_anaconda_token user project dir
       drone circle travis azure appveyor (with_environ env w) s).2 /\
  ((rotate_anaconda_token user project dir
      drone circle travis azure appveyor w s).1 = inr tt <->
   (rotate_anaconda_token user project dir
      drone circle travis azure appveyor (with_environ env w) s).1 = inr tt).
Proof.
  destruct (anaconda_token w) as [tok|] eqn:Htok;
    [destruct (travis_endpoint w) as [te|] eqn:Hte;
       [destruct (default_config w) as [cfg|] eqn:Hcfg|]|].
  2-4: rewrite !rotate_import_failure by (simpl; auto);
       rewrite !import_failure_result by (simpl; auto);
       simpl; rewrite ?Htok, ?Hte; (split; [apply alike_refl | done]).
  destruct (rotation_runs_the_sweep user project dir
              drone circle travis azure appveyor w s tok)
    as (R1 & R2 & R3 & R4); [by rewrite ?Hte, ?Hcfg..|].
  destruct (rotation_runs_the_sweep user project dir
              drone circle travis azure appveyor (with_environ env w) s tok)
    as (Q1 & Q2 & Q3 & Q4); [simpl; by rewrite ?Hte, ?Hcfg..|].
  unfold alike, shown. rewrite R1, R2, R3, R4, Q1, Q2, Q3, Q4.
  rewrite !rotate_enabled_providers_steps.
  apply run_steps_alike; [|done].
  unfold provider_steps.
  constructor; [apply blind_circle|].
  constructor; [apply blind_drone|].
  constructor; [apply blind_travis|].
  constructor; [apply blind_azure|].
  constructor; [apply blind_appveyor | constructor].
Qed.

(** * Status tests and output *)

(** The tests [if r.status_code != 200] and [!= 201] in front of
    [raise_for_status()] change nothing: [raise_for_status] raises for
    4xx and 5xx only, so guarding it by a comparison with a status below
    400 is the same as calling it. *)
Theorem status_test_before_raise_for_status_is_redundant expected r w s :
  expected < 400 ->
  when (negb (status_code r =? expected)) (raise_for_status r) w s
  = raise_for_status r w s.
Proof.
  intros H. unfold when, raise_for_status.
  destruct (Z.eqb_spec (status_code r) expected) as [E|E]; [|done].
  simpl. unfold is_http_error.
  destruct (Z.leb_spec 400 (status_code r)); [lia | done].
Qed.

Lemma status_test_witness :
  when (negb (status_code (Response 404 "" None) =? 201))
    (raise_for_status (Response 404 "" None)) (mock_world fresh) idle
  = (inl (HTTPError (Response 404 "" None)), idle) /\
  when (negb (status_code (Response 204 "" None) =? 201))
    (raise_for_status (Response 204 "" None)) (mock_world fresh) idle
  = (inr tt, idle).
Proof.
  rewrite !(status_test_before_raise_for_status_is_redundant 201) by lia.
  split; reflexivity.
Defined.

Lemma wordless_intro_same {A} (m : M A) :
  (forall w s, (m w s).2 = s) -> wordless m.
Proof. intros H w s _. by rewrite H. Qed.

Lemma wordless_ret {A} (a : A) : wordless (ret a).
Proof. by apply wordless_intro_same. Qed.

Lemma wordless_raise {A} (e : exn) : wordless (@raise A e).
Proof. by apply wordless_intro_same. Qed.

Lemma wordless_lift {A} (r : pyresult A) : wordless (lift r).
Proof. by apply wordless_intro_same. Qed.

Lemma wordless_ask {A} (f : world -> A) : wordless (ask f).
Proof. by apply wordless_intro_same. Qed.

Lemma wordless_get {A} (f : state -> A) : wordless (get f).
Proof. by apply wordless_intro_same. Qed.

Lemma wordless_import {A} name (f : world -> option A) :
  wordless (import_name name f).
Proof.
  apply wordless_intro_same. intros w s. unfold import_name. by destruct (f w).
Qed.

Lemma wordless_modify (f : state -> state) :
  (forall s, delivered (f s) = delivered s) -> wordless (modify f).
Proof. intros H w s _. apply H. Qed.

Lemma wordless_bind {A B} (m : M A) (k : A -> M B) :
  wordless m -> (forall a, wordless (k a)) -> wordless (bind m k).
Proof.
  intros Hm Hk w s Hw. unfold bind. specialize (Hm w s Hw).
  destruct (m w s) as [[e|a] s1]; simpl in *; [done|].
  by rewrite Hk.
Qed.

Lemma wordless_when c (m : M unit) : wordless m -> wordless (when c m).
Proof. intros H. destruct c; simpl; [done | apply wordless_ret]. Qed.

Lemma wordless_try_except {A} (m : M A) (h : exn -> M A) :
  wordless m -> (forall e, wordless (h e)) -> wordless (try_except m h).
Proof.
  intros Hm Hh w s Hw. unfold try_except. specialize (Hm w s Hw).
  destruct (m w s) as [[e|a] s1]; simpl in *; [|done].
  destruct (is_Exception e); [|done].
  by rewrite Hh.
Qed.

Lemma wordless_for_each {A V} (items : list A) (body : A -> V -> M V) :
  (forall x v, wordless (body x v)) ->
  forall v, wordless (for_each items body v).
Proof.
  intros Hb. induction items as [|x items IH]; intros v; simpl.
  - apply wordless_ret.
  - apply wordless_bind; [apply Hb | apply IH].
Qed.

Lemma wordless_local_call {A} (f : world -> list call -> effect A) :
  (forall w history, silent w -> (f w history).1 = []) ->
  wordless (local_call f).
Proof.
  intros Hf w s Hw. unfold local_call. specialize (Hf w (sent s) Hw).
  destruct (f w (sent s)) as [outs r]. simpl in *. by subst outs.
Qed.

Lemma wordless_remote {A} c (f : world -> list call -> effect A) :
  (forall w history, silent w -> (f w history).1 = []) ->
  wordless (remote c f).
Proof.
  intros Hf w s Hw. unfold remote. specialize (Hf w (sent s) Hw).
  destruct (f w (sent s)) as [outs r]. simpl in *. by subst outs.
Qed.

Lemma wordless_redirect_stdout {A} f (m : M A) :
  wordless m -> wordless (redirect_stdout f m).
Proof.
  intros Hm w s Hw. unfold redirect_stdout.
  match goal with
  | |- context [m w ?s1] =>
      specialize (Hm w s1 Hw); destruct (m w s1) as [r s']
  end.
  done.
Qed.

Lemma wordless_redirect_stderr {A} f (m : M A) :
  wordless m -> wordless (redirect_stderr f m).
Proof.
  intros Hm w s Hw. unfold redirect_stderr.
  match goal with
  | |- context [m w ?s1] =>
      specialize (Hm w s1 Hw); destruct (m w s1) as [r s']
  end.
  done.
Qed.

Lemma wordless_invoke p (m : M unit) : wordless m -> wordless (invoke p m).
Proof.
  intros Hm w s Hw. unfold invoke. specialize (Hm w s Hw).
  by destruct (m w s) as [r s'].
Qed.

Create HintDb wordless.
#[local] Hint Resolve wordless_ret wordless_raise wordless_lift wordless_ask
  wordless_get wordless_import : wordless.

Ltac wordless_step :=
  match goal with
  | |- wordless (bind _ _) => apply wordless_bind; [| intros]
  | |- wordless (when _ _) => apply wordless_when
  | |- wordless (try_except _ _) => apply wordless_try_except; [| intros]
  | |- wordless (for_each _ _ _) => apply wordless_for_each; intros
  | |- wordless (redirect_stdout _ _) => apply wordless_redirect_stdout
  | |- wordless (redirect_stderr _ _) => apply wordless_redirect_stderr
  | |- wordless (invoke _ _) => apply wordless_invoke
  | |- wordless (local_call _) =>
      apply wordless_local_call;
      intros ? ? (? & ? & ? & ? & ? & ? & ?); done
  | |- wordless (remote _ _) =>
      apply wordless_remote;
      intros ? ? (? & ? & ? & ? & ? & ? & ?); done
  | |- wordless (modify _) => apply wordless_modify; done
  | |- wordless (if ?c then _ else _) => destruct c
  | |- wordless (match ?x with _ => _ end) => destruct x
  | |- wordless _ => solve [auto with wordless]
  end.

Lemma wordless_circle user project tok :
  wordless (rotate_token_in_circle user project tok).
Proof.
  unfold rotate_token_in_circle, requests_get, requests_delete, requests_post,
    send, raise_for_status, response_json.
  repeat wordless_step.
Qed.

Lemma wordless_drone user project tok :
  wordless (rotate_token_in_drone user project tok).
Proof.
  unfold rotate_token_in_drone, session_get, session_patch, session_post,
    send, raise_for_status, response_json.
  repeat wordless_step.
Qed.

Lemma wordless_travis user project tok :
  wordless (rotate_token_in_travis user project tok).
Proof.
  unfold rotate_token_in_travis, requests_get, requests_patch, requests_post,
    send, raise_for_status, response_json.
  repeat wordless_step.
Qed.

Lemma wordless_azure user project tok :
  wordless (rotate_token_in_azure user project tok).
Proof. unfold rotate_token_in_azure. repeat wordless_step. Qed.

Lemma wordless_appveyor dir tok : wordless (rotate_token_in_appveyor dir tok).
Proof.
  unfold rotate_token_in_appveyor, requests_post, update_conda_forge_config,
    send.
  repeat wordless_step.
Qed.

(** Neither the orchestrator nor an adapter prints: every piece of text
    written during a rotation comes from a collaborator ([requests], the
    drone session, the travis helpers, the azure client).  When they are
    silent, nothing is written at all, with or without
    [DEBUG_ANACONDA_TOKENS], whether the call returns or raises. *)
Theorem rotation_prints_nothing_of_its_own
    user project dir drone circle travis azure appveyor w s :
  silent w ->
  delivered (rotate_anaconda_token user project dir
               drone circle travis azure appveyor w s).2 = delivered s.
Proof.
  revert w s.
  change (wordless (rotate_anaconda_token user project dir
                      drone circle travis azure appveyor)).
  unfold rotate_anaconda_token, with_open_devnull, debug_anaconda_tokens,
    rotate_enabled_providers, attempt, debug_anaconda_tokens.
  pose proof wordless_circle. pose proof wordless_drone.
  pose proof wordless_travis. pose proof wordless_azure.
  pose proof wordless_appveyor.
  repeat wordless_step.
Qed.

Lemma rotation_prints_nothing_witness :
  let w := with_environ {["DEBUG_ANACONDA_TOKENS"]}
             (with_http always_200 (mock_world fresh)) in
  delivered (rotate_anaconda_token "conda-forge" "numpy-feedstock" "."
               true true true true true w idle).2 = [].
Proof.
  intros w.
  apply (rotation_prints_nothing_of_its_own
           "conda-forge" "numpy-feedstock" "." true true true true true
           w idle).
  repeat split.
Defined.
